(** * BerryBlast job tracker: the record store and the extraction pipeline

    A shallow embedding of [backend.py] (class [JobExtractor]) and proofs of
    the properties its specification states about it.

    Modelling conventions.
    - Python [str] is [string], for ASCII texts; [int] is [Z]; a [dict] with
      string keys is a [gmap string _]; an optional dictionary key is an
      [option] field.
    - A pandas [DataFrame] is its list of column names and its list of rows
      (each row a list of cells, one per column).
    - Code that raises is run in the monad [M]: a function of the world that
      returns either a value or the exception raised, and the world it leaves.
    - The world holds the clock, the one file of the store and the log.
    - What the code gets from outside (the HTTP fetch, the model call, the
      JSON decoder, the calendar, the lock held by another program, and the
      type inference [pandas.read_excel] applies to a text cell) is a field
      of the environment [Env]; theorems hold for every environment.
    - Whether another program holds the file depends on the time alone, and
      time passes only in [time.sleep]; a probe, a read and a write made at
      the same time see the same answer. Apart from that, a file may deny
      reading while it admits writing (its mode or access list): then the
      probe passes and [read_excel] raises [PermissionError].
    - Whether [df.iloc[i, j] = text] is accepted depends on the dtype pandas
      gave the column and on the pandas at hand; it is the [setitem_error]
      field of the environment.
    - The workbook holds the frame last handed to [to_excel]; what a sheet
      loses is lost when it is read: [read_excel] returns [NaN] for a blank
      cell, so for a cell written from [""] or [None] (the repository's
      [fix_url_column.py] counts those [NaN] in the [URL] column and
      [check_urls.py] skips them). A text cell is read back through the
      [infer] field, cell by cell; the re-typing of a whole column of digit
      strings is not modelled. *)

From Stdlib Require Import ZArith String Ascii List Bool Lia.
From stdpp Require Import base option list gmap strings pretty.

Local Open Scope Z_scope.

(** ** Python strings *)

Module PyStr.

(** The double quote character and the line feed, for message literals. *)
Definition dq : string := String "034"%char EmptyString.
Definition nl : string := String "010"%char EmptyString.

(** [str.isspace] on the ASCII range: TAB..CR, FS..US and the space. *)
Definition is_space (c : ascii) : bool :=
  let n := nat_of_ascii c in
  ((9 <=? n)%nat && (n <=? 13)%nat) || ((28 <=? n)%nat && (n <=? 32)%nat).

Fixpoint lstrip (s : string) : string :=
  match s with
  | EmptyString => EmptyString
  | String c s' => if is_space c then lstrip s' else s
  end.

Definition rstrip (s : string) : string :=
  String.rev (lstrip (String.rev s)).

(** [s.strip()] *)
Definition strip (s : string) : string := rstrip (lstrip s).

(** [s.startswith(p)] *)
Definition startswith (p s : string) : bool := String.prefix p s.

(** [s.endswith(p)] *)
Definition endswith (p s : string) : bool :=
  String.prefix (String.rev p) (String.rev s).

(** [s[n:]] for [n >= 0] *)
Fixpoint drop (n : nat) (s : string) : string :=
  match n, s with
  | O, _ => s
  | S k, String _ s' => drop k s'
  | S _, EmptyString => EmptyString
  end.

(** [s[:n]] for [n >= 0] *)
Fixpoint take (n : nat) (s : string) : string :=
  match n, s with
  | S k, String c s' => String c (take k s')
  | _, _ => EmptyString
  end.

(** [s[:-n]] for [n > 0] *)
Definition drop_end (n : nat) (s : string) : string :=
  take (String.length s - n) s.

(** [p in s] *)
Fixpoint contains (p s : string) : bool :=
  String.prefix p s ||
  match s with
  | EmptyString => false
  | String _ s' => contains p s'
  end.

(** Truthiness of a string: the empty string is falsy. *)
Definition truthy (s : string) : bool :=
  match s with EmptyString => false | _ => true end.

(** [str(n)] for an [int] *)
Definition of_int (n : Z) : string := pretty n.

End PyStr.

(** ** Values, cells and frames *)

(** A value of the record dictionary: text, or [None] (a JSON [null]). The
    prompt asks the model for strings; a dictionary that holds a number, a
    list or a nested object is outside the model. *)
Inductive pyval : Type :=
  | PStr (s : string)
  | PNone.

(** A cell of a frame: text, Python's [None], or the missing marker [NaN]. *)
Inductive cell : Type :=
  | CStr (s : string)
  | CNone
  | CNaN.

#[global] Instance pyval_eq_dec : EqDecision pyval.
Proof. solve_decision. Defined.

#[global] Instance cell_eq_dec : EqDecision cell.
Proof. solve_decision. Defined.

Definition cell_of_pyval (v : pyval) : cell :=
  match v with
  | PStr s => CStr s
  | PNone => CNone
  end.

(** [format(c)] inside an f-string. *)
Definition cell_str (c : cell) : string :=
  match c with
  | CStr s => s
  | CNone => "None"
  | CNaN => "nan"
  end.

(** One element of [series == value]: a missing cell equals nothing, and
    nothing equals [None]. *)
Definition cell_eq (c v : cell) : bool :=
  match c, v with
  | CStr a, CStr b => String.eqb a b
  | _, _ => false
  end.

Record DataFrame : Type := mkDF {
  columns : list string;
  rows : list (list cell)
}.

#[global] Instance DataFrame_eq_dec : EqDecision DataFrame.
Proof. solve_decision. Defined.

Module Frame.

(** [name in df.columns] *)
Definition has_column (name : string) (df : DataFrame) : bool :=
  bool_decide (name ∈ columns df).

(** [df.columns.get_loc(name)]: the position of the column, [None] where
    pandas raises [KeyError]. *)
Fixpoint index_of (name : string) (cols : list string) : option nat :=
  match cols with
  | [] => None
  | c :: cols' =>
      if String.eqb c name then Some O else S <$> index_of name cols'
  end.

Definition get_loc (name : string) (df : DataFrame) : option nat :=
  index_of name (columns df).

(** [len(df)] *)
Definition len (df : DataFrame) : Z := Z.of_nat (length (rows df)).

(** [df.empty]: no rows or no columns. *)
Definition empty (df : DataFrame) : bool :=
  match rows df, columns df with
  | [], _ | _, [] => true
  | _, _ => false
  end.

(** The value a row has under a column name; [None] when the frame has no
    such column. *)
Definition row_get (cols : list string) (r : list cell) (name : string)
  : option cell :=
  j ← index_of name cols; r !! j.

(** [df[name] = value]: a new last column holding [value] in every row (the
    store only assigns a column the frame does not have yet). *)
Definition add_column (name : string) (value : cell) (df : DataFrame)
  : DataFrame :=
  {| columns := columns df ++ [name];
     rows := (λ r, r ++ [value]) <$> rows df |}.

(** [pd.concat([df, pd.DataFrame([new_row])], ignore_index=True)]: the
    columns are those of [df] followed by the keys of [new_row] that [df]
    lacks; a cell with no value is [NaN]. *)
Definition lookup_key (name : string) (new_row : list (string * cell))
  : option cell :=
  snd <$> List.find (λ kv, String.eqb (fst kv) name) new_row.

Definition concat_row (df : DataFrame) (new_row : list (string * cell))
  : DataFrame :=
  let extra :=
    List.filter (λ k, negb (bool_decide (k ∈ columns df))) (fst <$> new_row) in
  let cols := columns df ++ extra in
  {| columns := cols;
     rows := ((λ r, r ++ ((λ _, CNaN) <$> extra)) <$> rows df)
             ++ [(λ c, default CNaN (lookup_key c new_row)) <$> cols] |}.

(** [df.iloc[:, j]]: the cells of a column, top to bottom. *)
Definition column (j : nat) (df : DataFrame) : list cell :=
  (λ r : list cell, default CNaN (r !! j)) <$> rows df.

(** [df.iloc[i, j] = value], once pandas has accepted the value for the
    column. *)
Definition set_cell (i j : nat) (value : cell) (df : DataFrame) : DataFrame :=
  {| columns := columns df;
     rows := alter (λ r, <[j := value]> r) i (rows df) |}.

(** [df.drop(df.index[i]).reset_index(drop=True)] *)
Definition drop_row (i : nat) (df : DataFrame) : DataFrame :=
  {| columns := columns df; rows := delete i (rows df) |}.

(** The canonical header of a new table. *)
Definition canonical_columns : list string :=
  ["Status"; "Company"; "Job Title"; "Location"; "Job Functions";
   "Date Applied"; "URL"].

(** [pd.DataFrame(columns=columns)] *)
Definition new_frame : DataFrame :=
  {| columns := canonical_columns; rows := [] |}.

End Frame.

(** ** Exceptions, the world and the environment *)

Inductive exn_class : Type :=
  | PermissionError
  | FileNotFoundError
  | ValueError
  | KeyError
  | TypeError
  | AttributeError
  | RequestException
  | OtherException.

#[global] Instance exn_class_eq_dec : EqDecision exn_class.
Proof. solve_decision. Defined.

(** An exception: its class and [str(e)]. *)
Record exn : Type := mkExn { exn_kind : exn_class; exn_msg : string }.

Inductive outcome (A : Type) : Type :=
  | Ok (a : A)
  | Raise (e : exn).
Arguments Ok {A} a.
Arguments Raise {A} e.

(** What [json.loads] returns: a dictionary, or a value of another type,
    of which only the type matters to the code. *)
Inductive json_other : Type :=
  | JList
  | JString
  | JInt
  | JFloat
  | JBool
  | JNull.

Inductive json : Type :=
  | JObject (d : gmap string pyval)
  | JOther (v : json_other).

(** [str(e)] for the [TypeError] of [value['url'] = url] on a value that is
    not a dictionary. *)
Definition item_assignment_error (v : json_other) : string :=
  match v with
  | JList => "list indices must be integers or slices, not str"
  | JString => "'str' object does not support item assignment"
  | JInt => "'int' object does not support item assignment"
  | JFloat => "'float' object does not support item assignment"
  | JBool => "'bool' object does not support item assignment"
  | JNull => "'NoneType' object does not support item assignment"
  end.

(** The outcome of [json.loads]: the value, or [JSONDecodeError] with its
    text. *)
Inductive decoded : Type :=
  | Decoded (j : json)
  | JSONDecodeError (msg : string).

(** The file of the store: a workbook holding the frame last written to it;
    bytes in which pandas finds neither of the signatures of a workbook (the
    empty file is one); or a file the process may write to but not read,
    whatever it holds. *)
Inductive file : Type :=
  | Garbage (bytes : string)
  | Workbook (df : DataFrame)
  | Unreadable.

Inductive level : Type := Info | Warning | Error.

Record world : Type := mkWorld {
  clock : Z;
  disk : option file;
  logs : list (level * string)
}.

Record Env : Type := mkEnv {
  (** another program holds the file at this time: opening it for writing
      raises [PermissionError] *)
  locked : Z → bool;
  (** what [pd.read_excel] makes of a text cell (its missing-value tokens
      become [NaN]) *)
  infer : string → cell;
  (** [df.iloc[i, j] = text] on a column that [pd.read_excel] returned with
      these cells: the exception pandas raises when the dtype of the column
      does not admit the text, [None] when it stores it *)
  setitem_error : list cell → string → option exn;
  (** [datetime.now().strftime('%Y-%m-%d')] at this time *)
  today : Z → string;
  (** [requests.get(url, ...)] followed by [raise_for_status()] and [.text] *)
  http_get : string → outcome string;
  (** [client.models.generate_content(...).text] for this prompt *)
  generate_content : string → outcome (option string);
  (** [json.loads] *)
  json_loads : string → decoded;
  (** [self.prompt_template] *)
  prompt_template : string
}.

(** ** The monad of the store: state and exceptions *)

Definition M (A : Type) : Type := world → outcome A * world.

#[global] Instance M_ret : MRet M := λ A a w, (Ok a, w).

#[global] Instance M_bind : MBind M := λ A B f m w,
  match m w with
  | (Ok a, w') => f a w'
  | (Raise e, w') => (Raise e, w')
  end.

#[global] Instance M_fmap : FMap M := λ A B f m, a ← m; mret (f a).

Definition raise {A : Type} (k : exn_class) (msg : string) : M A :=
  λ w, (Raise (mkExn k msg), w).

Definition reraise {A : Type} (e : exn) : M A := λ w, (Raise e, w).

(** [try: body except Exception as e: handler(e)] (the handler re-raises the
    classes its [except] clauses do not name). *)
Definition try_except {A : Type} (body : M A) (handler : exn → M A) : M A :=
  λ w,
    match body w with
    | (Ok a, w') => (Ok a, w')
    | (Raise e, w') => handler e w'
    end.

Definition is_a (k : exn_class) (e : exn) : bool :=
  bool_decide (exn_kind e = k).

(** [logger.info] / [logger.warning] / [logger.error] *)
Definition log (l : level) (msg : string) : M unit :=
  λ w, (Ok (), {| clock := clock w; disk := disk w;
                  logs := logs w ++ [(l, msg)] |}).

(** [time.sleep(seconds)] *)
Definition time_sleep (seconds : Z) : M unit :=
  λ w, (Ok (), {| clock := clock w + seconds; disk := disk w;
                  logs := logs w |}).

(** [self.excel_file] *)
Definition excel_file : string := "Summer2026_Applications.xlsx".

Definition set_disk (f : option file) (w : world) : world :=
  {| clock := clock w; disk := f; logs := logs w |}.

Section Store.

Context (env : Env).

(** *** The file system and the spreadsheet library *)

(** [os.path.exists(self.excel_file)] *)
Definition path_exists : M bool :=
  λ w, (Ok (bool_decide (is_Some (disk w))), w).

(** [open(filepath, 'a')] and the close that ends the [with] block: held by
    another program, the open raises; otherwise it succeeds, and creates
    an empty file when there is none. *)
Definition open_append : M unit :=
  λ w,
    if locked env (clock w) then
      (Raise (mkExn PermissionError "[Errno 13] Permission denied"), w)
    else
      (Ok (), match disk w with
              | None => set_disk (Some (Garbage "")) w
              | Some _ => w
              end).

(** A cell as [pd.read_excel] returns it. *)
Definition reread (c : cell) : cell :=
  match c with
  | CStr s => infer env s
  | CNone | CNaN => CNaN
  end.

Definition reread_frame (df : DataFrame) : DataFrame :=
  {| columns := columns df; rows := (λ r : list cell, reread <$> r) <$> rows df |}.

(** [pd.read_excel(self.excel_file)] *)
Definition read_excel : M DataFrame :=
  λ w,
    if locked env (clock w) then
      (Raise (mkExn PermissionError "[Errno 13] Permission denied"), w)
    else
      match disk w with
      | None => (Raise (mkExn FileNotFoundError "No such file or directory"), w)
      | Some (Garbage _) =>
          (Raise (mkExn ValueError
                    "Excel file format cannot be determined, you must specify an engine manually."),
           w)
      | Some (Workbook df) => (Ok (reread_frame df), w)
      | Some Unreadable =>
          (Raise (mkExn PermissionError "[Errno 13] Permission denied"), w)
      end.

(** [df.to_excel(self.excel_file, index=False)]: the file is written in
    place, so a file that could not be read still cannot. *)
Definition to_excel (df : DataFrame) : M unit :=
  λ w,
    if locked env (clock w) then
      (Raise (mkExn PermissionError "[Errno 13] Permission denied"), w)
    else
      (Ok (), match disk w with
              | Some Unreadable => w
              | _ => set_disk (Some (Workbook df)) w
              end).

(** *** Lock probing *)

Definition is_file_locked : M bool :=
  try_except
    (open_append;; mret false)
    (λ e, if is_a PermissionError e then mret true else reraise e).

Definition waiting_msg (wait_time max_wait : Z) : string :=
  "File is locked, waiting... (" +:+ PyStr.of_int wait_time
  +:+ "s/" +:+ PyStr.of_int max_wait +:+ "s)".

(** The [while] loop of [wait_for_file_unlock]; [fuel] bounds its number of
    iterations ([wait_loop_run] shows the bound is never the reason it
    stops). *)
Fixpoint wait_loop (fuel : nat) (wait_time max_wait : Z) : M bool :=
  match fuel with
  | O => mret false
  | S fuel' =>
      if wait_time <? max_wait then
        held ← is_file_locked;
        if negb held then mret true
        else
          log Info (waiting_msg wait_time max_wait);;
          time_sleep 2;;
          wait_loop fuel' (wait_time + 2) max_wait
      else mret false
  end.

Definition wait_for_file_unlock (max_wait : Z) : M bool :=
  wait_loop (Z.to_nat max_wait) 0 max_wait.

(** *** Loading *)

Definition locked_msg : string :=
  "Excel file '" +:+ excel_file
  +:+ "' is locked. Please close it in Excel and try again.".

Definition cannot_access_msg : string :=
  "Cannot access Excel file. Please close '" +:+ excel_file
  +:+ "' in Excel and try again.".

(** The second half of [load_or_create_excel]: what follows the lock check. *)
Definition read_or_create : M DataFrame :=
  present ← path_exists;
  loaded ← (if present : bool then
    try_except
      (df ← read_excel;
       log Info ("Loaded existing Excel file with "
                 +:+ PyStr.of_int (Frame.len df) +:+ " rows");;
       if negb (Frame.has_column "URL" df) then
         log Info "Adding URL column to existing Excel file";;
         let df' := Frame.add_column "URL" (CStr "") df in
         to_excel df';;
         log Info "Excel file updated with URL column";;
         mret (Some df')
       else mret (Some df))
      (λ e,
         if is_a PermissionError e then raise PermissionError cannot_access_msg
         else
           log Warning ("Error reading Excel file, creating new one: "
                        +:+ exn_msg e);;
           mret None)
    else mret None);
  match loaded with
  | Some df => mret df
  | None =>
      log Info "Created new Excel file structure";;
      mret Frame.new_frame
  end.

Definition load_or_create_excel : M DataFrame :=
  present ← path_exists;
  held ← (if present : bool then is_file_locked else mret false);
  (if held : bool then
     log Warning ("Excel file '" +:+ excel_file
                  +:+ "' is currently open/locked");;
     log Info "Please close the Excel file and try again, or wait for auto-unlock...";;
     free ← wait_for_file_unlock 30;
     if negb free then raise PermissionError locked_msg else mret ()
   else mret ());;
  read_or_create.

(** *** Appending *)

(** The result dictionaries of the store: [{"success": .., "message": ..}]. *)
Record Result : Type := mkResult { success : bool; message : string }.

(** [datetime.now().strftime('%Y-%m-%d')] *)
Definition strftime_now : M string := λ w, (Ok (today env (clock w)), w).

(** [job_info.get(key, dflt)] *)
Definition dict_get (job_info : gmap string pyval) (key : string)
    (dflt : pyval) : pyval :=
  default dflt (job_info !! key).

(** [format(job_info.get(key))] inside an f-string *)
Definition dict_show (job_info : gmap string pyval) (key : string) : string :=
  cell_str (cell_of_pyval (dict_get job_info key PNone)).

Definition new_row (job_info : gmap string pyval) (now : string)
  : list (string * cell) :=
  [ ("Status", cell_of_pyval (dict_get job_info "status" (PStr "Applied")));
    ("Company", cell_of_pyval (dict_get job_info "company_name" (PStr "")));
    ("Job Title", cell_of_pyval (dict_get job_info "position_title" (PStr "")));
    ("Location", cell_of_pyval (dict_get job_info "location" (PStr "")));
    ("Job Functions", cell_of_pyval (dict_get job_info "job_functions" (PStr "")));
    ("Date Applied", cell_of_pyval (dict_get job_info "date_applied" (PStr now)));
    ("URL", cell_of_pyval (dict_get job_info "url" (PStr ""))) ].

(** The rows of [df[(df['Company'] == company) & (df['Job Title'] == title)]]. *)
Definition duplicate_check (df : DataFrame) (company title : cell)
  : list (list cell) :=
  List.filter
    (λ r, cell_eq (default CNaN (Frame.row_get (columns df) r "Company")) company
          && cell_eq (default CNaN (Frame.row_get (columns df) r "Job Title")) title)
    (rows df).

Definition max_retries : Z := 3.

Definition cannot_write_msg : string :=
  "Cannot write to Excel file. Please close '" +:+ excel_file
  +:+ "' in Excel and try again.".

Definition cannot_save_msg : string :=
  "Cannot save to Excel file after " +:+ PyStr.of_int max_retries
  +:+ " attempts. Please close '" +:+ excel_file +:+ "' in Excel.".

(** The [for attempt in range(max_retries)] loop over the attempts still to
    run: [Some b] when the loop body returned [b], [None] when the loop ran
    to its end. *)
Fixpoint save_with_retry (attempts : list Z) (df : DataFrame)
  : M (option bool) :=
  match attempts with
  | [] => mret None
  | attempt :: rest =>
      returned ← try_except
        (to_excel df;;
         log Info ("Successfully added job to Excel file. Total rows: "
                   +:+ PyStr.of_int (Frame.len df));;
         mret (Some true))
        (λ e,
           if is_a PermissionError e then
             if attempt <? max_retries - 1 then
               log Warning ("Permission denied on attempt "
                            +:+ PyStr.of_int (attempt + 1) +:+ ", retrying...");;
               free ← wait_for_file_unlock 10;
               if negb free then mret None else mret None
             else raise PermissionError cannot_save_msg
           else reraise e);
      match returned with
      | Some b => mret (Some b)
      | None => save_with_retry rest df
      end
  end.

(** The duplicate test of [append_to_excel]: the frame has rows and both
    columns, and [duplicate_check] is not empty. *)
Definition is_duplicate (df : DataFrame) (job_info : gmap string pyval)
  : bool :=
  if negb (Frame.empty df) && Frame.has_column "Company" df
     && Frame.has_column "Job Title" df
  then
    match duplicate_check df
            (cell_of_pyval (dict_get job_info "company_name" (PStr "")))
            (cell_of_pyval (dict_get job_info "position_title" (PStr "")))
    with
    | [] => false
    | _ :: _ => true
    end
  else false.

(** The [try] block of [append_to_excel] after its lock check. *)
Definition append_row (job_info : gmap string pyval) : M bool :=
  df ← load_or_create_excel;
  now ← strftime_now;
  let row := new_row job_info now in
  if is_duplicate df job_info then
    log Warning ("Similar job already exists: "
                 +:+ dict_show job_info "company_name" +:+ " - "
                 +:+ dict_show job_info "position_title");;
    mret false
  else
    let df' := Frame.concat_row df row in
    returned ← save_with_retry [0; 1; 2] df';
    match returned with
    | Some b => mret b
    | None => mret true
    end.

Definition append_to_excel (job_info : gmap string pyval) : M bool :=
  try_except
    (present ← path_exists;
     held ← (if present : bool then is_file_locked else mret false);
     (if held : bool then
        log Warning ("Excel file '" +:+ excel_file
                     +:+ "' is currently open/locked");;
        free ← wait_for_file_unlock 30;
        if negb free then raise PermissionError cannot_write_msg else mret ()
      else mret ());;
     append_row job_info)
    (λ e,
       if is_a PermissionError e then reraise e
       else log Error ("Error appending to Excel: " +:+ exn_msg e);; reraise e).

(** *** Row edits *)

Definition file_locked_result : Result :=
  {| success := false;
     message := "Excel file is locked. Please close it and try again." |}.

Definition no_data_result : Result :=
  {| success := false; message := "No data found in Excel file." |}.

Definition out_of_range_msg (row_number count : Z) : string :=
  "Row number " +:+ PyStr.of_int row_number
  +:+ " is out of range. Valid range: 1-" +:+ PyStr.of_int count.

(** The lock check that opens [update_row_status] and [delete_row]: [Some r]
    when the function returns [r] at once. *)
Definition locked_early_return : M (option Result) :=
  held ← is_file_locked;
  if held : bool then
    free ← wait_for_file_unlock 30;
    if negb free then mret (Some file_locked_result) else mret None
  else mret None.

Definition update_row_status (row_number : Z) (new_status : string)
  : M Result :=
  try_except
    (early ← locked_early_return;
     match early with
     | Some r => mret r
     | None =>
         df ← load_or_create_excel;
         if Frame.empty df then mret no_data_result
         else if (row_number <? 1) || (row_number >? Frame.len df) then
           mret {| success := false;
                   message := out_of_range_msg row_number (Frame.len df) |}
         else
           j ← match Frame.get_loc "Status" df with
               | Some j => mret j
               | None => raise KeyError "'Status'"
               end;
           match setitem_error env (Frame.column j df) new_status with
           | Some e => reraise e
           | None => mret ()
           end;;
           let df' :=
             Frame.set_cell (Z.to_nat (row_number - 1)) j (CStr new_status) df in
           to_excel df';;
           log Info ("Updated row " +:+ PyStr.of_int row_number
                     +:+ " status to " +:+ new_status);;
           mret {| success := true;
                   message := "Row " +:+ PyStr.of_int row_number
                              +:+ " status updated to '" +:+ new_status +:+ "'" |}
     end)
    (λ e,
       log Error ("Error updating row status: " +:+ exn_msg e);;
       mret {| success := false;
               message := "Failed to update row status: " +:+ exn_msg e |}).

(** [row_info.get(name, row_info.get(other, 'Unknown'))] *)
Definition row_label (df : DataFrame) (r : list cell) (name other : string)
  : cell :=
  default (default (CStr "Unknown") (Frame.row_get (columns df) r other))
          (Frame.row_get (columns df) r name).

Definition delete_row (row_number : Z) : M Result :=
  try_except
    (early ← locked_early_return;
     match early with
     | Some r => mret r
     | None =>
         df ← load_or_create_excel;
         if Frame.empty df then mret no_data_result
         else if (row_number <? 1) || (row_number >? Frame.len df) then
           mret {| success := false;
                   message := out_of_range_msg row_number (Frame.len df) |}
         else
           let i := Z.to_nat (row_number - 1) in
           let row_info := default [] (rows df !! i) in
           let company := row_label df row_info "Company" "Company Name" in
           let job_title := row_label df row_info "Job Title" "Position Title" in
           let df' := Frame.drop_row i df in
           to_excel df';;
           let described := "Deleted row " +:+ PyStr.of_int row_number +:+ ": "
                            +:+ cell_str company +:+ " - " +:+ cell_str job_title in
           log Info described;;
           mret {| success := true; message := described |}
     end)
    (λ e,
       log Error ("Error deleting row: " +:+ exn_msg e);;
       mret {| success := false;
               message := "Failed to delete row: " +:+ exn_msg e |}).

(** *** The extraction pipeline *)

Definition lift {A : Type} (o : outcome A) : M A := λ w, (o, w).

Definition fetch_webpage_content (url : string) : M string :=
  try_except
    (lift (http_get env url))
    (λ e,
       if is_a RequestException e then
         log Error ("Error fetching webpage: " +:+ exn_msg e);; reraise e
       else reraise e).

(** The cleaning of [response.text] before [json.loads]. *)
Definition strip_fences (text : string) : string :=
  let t := PyStr.strip text in
  let t := if PyStr.startswith "```json" t then PyStr.drop 7 t else t in
  let t := if PyStr.endswith "```" t then PyStr.drop_end 3 t else t in
  PyStr.strip t.

(** One line of the JSON sample of the prompt: four spaces, the quoted key,
    a colon, the quoted value, and what ends the line. *)
Definition sample_line (key value trailer : string) : string :=
  "    " +:+ PyStr.dq +:+ key +:+ PyStr.dq +:+ ": " +:+ PyStr.dq +:+ value
  +:+ PyStr.dq +:+ trailer +:+ PyStr.nl.

(** The f-string [full_prompt]. *)
Definition compose_prompt (prompt url webpage_content now : string) : string :=
  PyStr.nl +:+ prompt +:+ PyStr.nl +:+ PyStr.nl
  +:+ "URL: " +:+ url +:+ PyStr.nl +:+ PyStr.nl
  +:+ "Webpage Content:" +:+ PyStr.nl
  +:+ PyStr.take (Z.to_nat 10000) webpage_content
  +:+ "  # Limit content to avoid token limits" +:+ PyStr.nl +:+ PyStr.nl
  +:+ "Please extract the information in the following JSON format:" +:+ PyStr.nl
  +:+ "{" +:+ PyStr.nl
  +:+ sample_line "status" "Applied" ","
  +:+ sample_line "company_name" "Company" ","
  +:+ sample_line "position_title" "Job Title" ", "
  +:+ sample_line "location" "Location" ","
  +:+ sample_line "job_functions" "Job Functions" ","
  +:+ sample_line "date_applied" now ""
  +:+ "}" +:+ PyStr.nl +:+ PyStr.nl
  +:+ "Only return the JSON, no additional text." +:+ PyStr.nl.

(** [custom_prompt or self.prompt_template] *)
Definition choose_prompt (custom_prompt : option string) : string :=
  match custom_prompt with
  | Some p => if PyStr.truthy p then p else prompt_template env
  | None => prompt_template env
  end.

Definition fallback_record (now : string) : gmap string pyval :=
  <["status" := PStr "Applied"]>
  (<["company_name" := PStr "Could not extract"]>
  (<["position_title" := PStr "Could not extract"]>
  (<["location" := PStr "Could not extract"]>
  (<["job_functions" := PStr "Could not extract"]>
  (<["date_applied" := PStr now]> ∅))))).

Definition fallback_extraction (url response_text : string) : M json :=
  now ← strftime_now;
  mret (JObject (fallback_record now)).

Definition extract_job_info (url : string) (custom_prompt : option string)
  : M json :=
  try_except
    (log Info ("Fetching content from: " +:+ url);;
     webpage_content ← fetch_webpage_content url;
     now ← strftime_now;
     let full_prompt :=
       compose_prompt (choose_prompt custom_prompt) url webpage_content now in
     log Info "Sending request to Gemini API...";;
     text ← lift (generate_content env full_prompt);
     match text with
     | None =>
         raise AttributeError "'NoneType' object has no attribute 'strip'"
     | Some response_text =>
         match json_loads env (strip_fences response_text) with
         | Decoded job_info =>
             log Info "Successfully extracted job information";;
             mret job_info
         | JSONDecodeError msg =>
             log Error ("Failed to parse JSON response: " +:+ msg);;
             log Error ("Response text: " +:+ response_text);;
             fallback_extraction url response_text
         end
     end)
    (λ e, log Error ("Error extracting job info: " +:+ exn_msg e);; reraise e).

(** The result dictionary of [process_job_url]; a key the dictionary lacks
    is [None]. *)
Record ProcessResult : Type := mkProcessResult {
  p_success : bool;
  p_job_info : option (gmap string pyval);
  p_message : string;
  p_error : option string
}.

Definition added_msg : string :=
  "Job information extracted and added to spreadsheet".

Definition exists_msg : string := "URL already exists in spreadsheet".

Definition failed_msg : string := "Failed to process job URL".

Definition process_job_url (url : string) (custom_prompt : option string)
  : M ProcessResult :=
  try_except
    (extracted ← extract_job_info url custom_prompt;
     job_info ← match extracted with
                | JObject d =>
                    mret (<["url" := PStr (if PyStr.truthy url then url else "")]> d)
                | JOther v => raise TypeError (item_assignment_error v)
                end;
     added ← append_to_excel job_info;
     mret {| p_success := added;
             p_job_info := Some job_info;
             p_message := if added : bool then added_msg else exists_msg;
             p_error := None |})
    (λ e,
       log Error ("Error processing job URL: " +:+ exn_msg e);;
       mret {| p_success := false;
               p_job_info := None;
               p_message := failed_msg;
               p_error := Some (exn_msg e) |}).

End Store.

(** ** The API key

    [DEFAULT_API_KEY] is a constant of the module; the functions that read it
    take it as [default_key]. The two environment variables are what
    [os.getenv] returns for them. *)

Definition placeholder_key : string := "YOUR_GEMINI_API_KEY_HERE".

(** Truthiness of an optional string: [None] and [""] are falsy. *)
Definition truthy_opt (o : option string) : bool :=
  match o with
  | Some s => PyStr.truthy s
  | None => false
  end.

(** [a or b] *)
Definition py_or (a b : option string) : option string :=
  if truthy_opt a then a else b.

(** [DEFAULT_API_KEY and DEFAULT_API_KEY != "YOUR_GEMINI_API_KEY_HERE"] *)
Definition default_key_set (default_key : string) : bool :=
  PyStr.truthy default_key && negb (String.eqb default_key placeholder_key).

Definition no_key_msg : string :=
  "Google API key not provided. Please set DEFAULT_API_KEY in backend.py, set GEMINI_API_KEY environment variable, or pass api_key parameter".

(** The part of [JobExtractor.__init__] that settles [self.api_key]. *)
Definition init_api_key (default_key : string)
    (api_key gemini_api_key google_api_key : option string)
  : outcome (option string) :=
  let chosen :=
    if truthy_opt api_key then api_key
    else if default_key_set default_key then Some default_key
    else py_or gemini_api_key google_api_key in
  if negb (truthy_opt chosen) then Raise (mkExn ValueError no_key_msg)
  else Ok chosen.

(** [check_api_key] of [app.py]: the key and where it comes from. *)
Definition check_api_key (default_key : string)
    (gemini_api_key google_api_key : option string)
  : option string * option string :=
  if default_key_set default_key then (Some default_key, Some "default")
  else
    let env_key := py_or gemini_api_key google_api_key in
    if truthy_opt env_key then (env_key, Some "environment")
    else (None, None).

(** ** The repair script

    [fix_url_column.py] runs at import: it reads the workbook, adds the
    [URL] column or replaces its missing values by the empty string, and
    reads the workbook again to show the result. The value below is the
    frame of that last read, [None] when the script finds no file; the
    [print] calls are left out. *)

(** [pd.isna(c)] *)
Definition isna (c : cell) : bool :=
  match c with
  | CStr _ => false
  | CNone | CNaN => true
  end.

(** [df[name].isna().sum()] *)
Definition nan_count (name : string) (df : DataFrame) : nat :=
  match Frame.get_loc name df with
  | Some j =>
      length (List.filter (λ r : list cell, from_option isna false (r !! j))
                          (rows df))
  | None => O
  end.

(** [df[name] = df[name].fillna(value)]; the script reaches it only for a
    column the frame has. *)
Definition fillna_column (name : string) (value : cell) (df : DataFrame)
  : DataFrame :=
  match Frame.get_loc name df with
  | Some j =>
      {| columns := columns df;
         rows := (λ r : list cell,
                    alter (λ c, if isna c then value else c) j r) <$> rows df |}
  | None => df
  end.

Definition fix_url_column (env : Env) : M (option DataFrame) :=
  present ← path_exists;
  if present : bool then
    df ← read_excel env;
    (if negb (Frame.has_column "URL" df) then
       to_excel env (Frame.add_column "URL" (CStr "") df)
     else if (0 <? nan_count "URL" df)%nat then
       to_excel env (fillna_column "URL" (CStr "") df)
     else mret ());;
    final ← read_excel env;
    mret (Some final)
  else mret None.

(** ** A concrete environment

    [pandas.read_excel] turns a blank cell, and a text cell holding one of
    its default missing-value tokens, into [NaN]. The examples hold no text
    made of digits: pandas would read a column of those as numbers, which
    the cells of the model cannot hold. *)

Definition na_values : list string :=
  [""; "#N/A"; "#N/A N/A"; "#NA"; "-1.#IND"; "-1.#QNAN"; "-NaN"; "-nan";
   "1.#IND"; "1.#QNAN"; "<NA>"; "N/A"; "NA"; "NULL"; "NaN"; "None"; "n/a";
   "nan"; "null"].

Definition na_infer (s : string) : cell :=
  if bool_decide (s ∈ na_values) then CNaN else CStr s.

(** A decoder for the JSON the prompt asks for: one object whose members are
    strings or [null]. It stands for [json.loads] in the examples; any other
    text is reported as undecodable. *)
Module FlatJson.

Definition is_ws (c : ascii) : bool :=
  let n := nat_of_ascii c in
  (n =? 32)%nat || (n =? 9)%nat || (n =? 10)%nat || (n =? 13)%nat.

Fixpoint skip_ws (s : string) : string :=
  match s with
  | String c s' => if is_ws c then skip_ws s' else s
  | EmptyString => EmptyString
  end.

Definition unescape (c : ascii) : option ascii :=
  match nat_of_ascii c with
  | 34%nat => Some "034"%char
  | 92%nat => Some "092"%char
  | 47%nat => Some "047"%char
  | 110%nat => Some "010"%char
  | 116%nat => Some "009"%char
  | 114%nat => Some "013"%char
  | _ => None
  end.

(** The characters of a string literal up to its closing quote, and the
    text after it. *)
Fixpoint string_body (s acc : string) : option (string * string) :=
  match s with
  | EmptyString => None
  | String c rest =>
      if (nat_of_ascii c =? 34)%nat then Some (String.rev acc, rest)
      else if (nat_of_ascii c =? 92)%nat then
        match rest with
        | String e rest' =>
            match unescape e with
            | Some e' => string_body rest' (String e' acc)
            | None => None
            end
        | EmptyString => None
        end
      else string_body rest (String c acc)
  end.

Definition string_literal (s : string) : option (string * string) :=
  match s with
  | String c rest =>
      if (nat_of_ascii c =? 34)%nat then string_body rest EmptyString else None
  | EmptyString => None
  end.

Definition value (s : string) : option (pyval * string) :=
  if String.prefix "null" s then Some (PNone, PyStr.drop 4 s)
  else '(v, rest) ← string_literal s; Some (PStr v, rest).

(** The members after the opening brace; a later member replaces an earlier
    one of the same name, as in a Python [dict]. *)
Fixpoint members (fuel : nat) (s : string) (d : gmap string pyval)
  : option (gmap string pyval * string) :=
  match fuel with
  | O => None
  | S fuel' =>
      '(k, rest) ← string_literal (skip_ws s);
      match skip_ws rest with
      | String c rest1 =>
          if (nat_of_ascii c =? 58)%nat then
            '(v, rest2) ← value (skip_ws rest1);
            match skip_ws rest2 with
            | String c' rest3 =>
                if (nat_of_ascii c' =? 44)%nat then
                  members fuel' rest3 (<[k := v]> d)
                else if (nat_of_ascii c' =? 125)%nat then
                  Some (<[k := v]> d, rest3)
                else None
            | EmptyString => None
            end
          else None
      | EmptyString => None
      end
  end.

Definition object (s : string) : option (gmap string pyval) :=
  match skip_ws s with
  | String c rest =>
      if (nat_of_ascii c =? 123)%nat then
        match skip_ws rest with
        | String c' rest' =>
            if (nat_of_ascii c' =? 125)%nat then
              match skip_ws rest' with
              | EmptyString => Some ∅
              | _ => None
              end
            else
              '(d, tail) ← members (String.length rest) rest ∅;
              match skip_ws tail with
              | EmptyString => Some d
              | _ => None
              end
        | EmptyString => None
        end
      else None
  | EmptyString => None
  end.

Definition loads (s : string) : decoded :=
  match object s with
  | Some d => Decoded (JObject d)
  | None => JSONDecodeError "Expecting value"
  end.

End FlatJson.

(** The template [load_prompt_template] falls back to. *)
Definition default_prompt_template : string :=
  "Use the provided link to extract the following information from the job listing:"
  +:+ PyStr.nl +:+ "1. Company"
  +:+ PyStr.nl +:+ "2. Job Title"
  +:+ PyStr.nl +:+ "3. Location"
  +:+ PyStr.nl +:+ "4. Job Functions"
  +:+ PyStr.nl
  +:+ PyStr.nl +:+ "Do not paraphrase any information or data. Be as accurate as possible. Match the appropriate information with the respective columns in the Excel file."
  +:+ PyStr.nl +:+ "Add along today's date, and the same url as pasted."
  +:+ PyStr.nl +:+ "Also make the first column arbitrarily " +:+ PyStr.dq
  +:+ "Waiting" +:+ PyStr.dq +:+ ".".

(** The pandas of the examples refuses a text for a column it read without
    a text in it (dtype [float64]). *)
Definition strict_setitem (col : list cell) (value : string) : option exn :=
  if forallb isna col then
    Some (mkExn TypeError
            ("Invalid value '" +:+ value +:+ "' for dtype 'float64'"))
  else None.

(** An environment for the examples: the file is held as [held] says, every
    page is [page], the model answers [reply], and the date is fixed. *)
Definition example_env (held : Z → bool) (page : outcome string)
    (reply : outcome (option string)) : Env :=
  {| locked := held;
     infer := na_infer;
     setitem_error := strict_setitem;
     today := λ _, "2025-01-01";
     http_get := λ _, page;
     generate_content := λ _, reply;
     json_loads := FlatJson.loads;
     prompt_template := default_prompt_template |}.

(** An environment in which no other program ever holds the file. *)
Definition quiet_env : Env :=
  example_env (λ _, false) (Ok "<html>job</html>") (Ok (Some "{}")).

(** The world before the store is first used: no file, nothing logged. *)
Definition fresh_world : world := {| clock := 0; disk := None; logs := [] |}.

(** A record as a dictionary with all seven keys. *)
Definition record (status company title location functions date url : string)
  : gmap string pyval :=
  <["status" := PStr status]>
  (<["company_name" := PStr company]>
  (<["position_title" := PStr title]>
  (<["location" := PStr location]>
  (<["job_functions" := PStr functions]>
  (<["date_applied" := PStr date]>
  (<["url" := PStr url]> ∅)))))).

(** A record with every field filled, and the table that holds only it. *)
Definition acme : gmap string pyval :=
  record "Applied" "Acme" "Engineer" "Remote" "Backend" "2025-01-01"
         "https://acme.example/job".

Definition acme_frame : DataFrame :=
  {| columns := Frame.canonical_columns;
     rows := [[CStr "Applied"; CStr "Acme"; CStr "Engineer"; CStr "Remote";
               CStr "Backend"; CStr "2025-01-01";
               CStr "https://acme.example/job"]] |}.

Definition acme_world : world :=
  {| clock := 0; disk := Some (Workbook acme_frame); logs := [] |}.

(** The same record with an empty url, and with an empty company. *)
Definition acme_without_url : gmap string pyval :=
  record "Applied" "Acme" "Engineer" "Remote" "Backend" "2025-01-01" "".

Definition engineer_without_company : gmap string pyval :=
  record "Applied" "" "Engineer" "Remote" "Backend" "2025-01-01"
         "https://acme.example/job".

(** A table written before the [URL] column existed. *)
Definition legacy_frame : DataFrame :=
  {| columns := ["Status"; "Company"; "Job Title"; "Location";
                 "Job Functions"; "Date Applied"];
     rows := [[CStr "Applied"; CStr "Acme"; CStr "Engineer"; CStr "Remote";
               CStr "Backend"; CStr "2025-01-01"]] |}.

(** A file that is not a workbook, and a workbook with the header only. *)
Definition junk_world : world :=
  {| clock := 0; disk := Some (Garbage "not a workbook"); logs := [] |}.


(** An environment in which the model answers in prose. *)
Definition prose_env : Env :=
  example_env (λ _, false) (Ok "<html>job</html>")
              (Ok (Some "Sorry, I could not open that page.")).

(** An environment in which another program holds the file for ever, and
    one in which the fetch of every page fails. *)
Definition held_env : Env :=
  example_env (λ _, true) (Ok "<html>job</html>") (Ok (Some "{}")).

Definition offline_env : Env :=
  example_env (λ _, false)
              (Raise (mkExn RequestException "404 Client Error: Not Found"))
              (Ok (Some "{}")).

(** An environment in which the model answers with an empty JSON list, which
    the decoder knows. *)
Definition list_env : Env :=
  {| locked := λ _, false;
     infer := na_infer;
     setitem_error := strict_setitem;
     today := λ _, "2025-01-01";
     http_get := λ _, Ok "<html>job</html>";
     generate_content := λ _, Ok (Some "[]");
     json_loads := λ s, if String.eqb s "[]" then Decoded (JOther JList)
                        else FlatJson.loads s;
     prompt_template := default_prompt_template |}.

(** A table under the headers of the prompt, with no [Company] and no
    [Job Title] column, and a table whose only row has a blank [URL]. *)
Definition old_header_frame : DataFrame :=
  {| columns := ["Status"; "Company Name"; "Position Title"; "Location";
                 "Job Functions"; "Date Applied"; "URL"];
     rows := [[CStr "Applied"; CStr "Acme"; CStr "Engineer"; CStr "Remote";
               CStr "Backend"; CStr "2025-01-01";
               CStr "https://acme.example/job"]] |}.

Definition blank_url_frame : DataFrame :=
  {| columns := Frame.canonical_columns;
     rows := [[CStr "Applied"; CStr "Acme"; CStr "Engineer"; CStr "Remote";
               CStr "Backend"; CStr "2025-01-01"; CStr ""]] |}.

Definition world_with (df : DataFrame) : world :=
  {| clock := 0; disk := Some (Workbook df); logs := [] |}.


(** A second record, whose location is the text ["N/A"], and a record whose
    status is the empty string. *)
Definition globex : gmap string pyval :=
  record "Applied" "Globex" "Analyst" "N/A" "Finance" "2025-01-02"
         "https://globex.example/job".

Definition acme_without_status : gmap string pyval :=
  record "" "Acme" "Engineer" "Remote" "Backend" "2025-01-01"
         "https://acme.example/job".

(** ** Vocabulary of the statements *)

(** The log of [w'] continues the log of [w]. *)
Definition log_extends (w w' : world) : Prop :=
  ∃ extra, logs w' = logs w ++ extra.

(** Between [w] and [w'] the entry was logged. *)
Definition logged (entry : level * string) (w w' : world) : Prop :=
  ∃ extra, logs w' = logs w ++ extra ∧ entry ∈ extra.

(** The file after a successful [open(.., 'a')]. *)
Definition touched (f : option file) : option file :=
  Some (default (Garbage "") f).

(** The file denies reading. *)
Definition unreadable (f : option file) : bool :=
  match f with
  | Some Unreadable => true
  | _ => false
  end.

(** The frame [load_or_create_excel] returns for a workbook holding [df], and
    the frame it leaves in the workbook: the frame as read, with the [URL]
    column added when it is missing. *)
Definition loaded_frame (env : Env) (df : DataFrame) : DataFrame :=
  if Frame.has_column "URL" df then reread_frame env df
  else Frame.add_column "URL" (CStr "") (reread_frame env df).

Definition stored_frame (env : Env) (df : DataFrame) : DataFrame :=
  if Frame.has_column "URL" df then df else loaded_frame env df.

(** The table a load finds in the file (nothing to read gives the new
    frame), and the file the load leaves. *)
Definition frame_of (env : Env) (f : option file) : DataFrame :=
  match f with
  | Some (Workbook df) => loaded_frame env df
  | _ => Frame.new_frame
  end.

Definition file_after_load (env : Env) (f : option file) : option file :=
  match f with
  | Some (Workbook df) => Some (Workbook (stored_frame env df))
  | _ => f
  end.


(** The seven columns of a record: the column name, the key of the record
    dictionary, and the text stored when the key is missing. *)
Definition field_defaults (now : string) : list (string * string * string) :=
  [("Status", "status", "Applied"); ("Company", "company_name", "");
   ("Job Title", "position_title", ""); ("Location", "location", "");
   ("Job Functions", "job_functions", "");
   ("Date Applied", "date_applied", now); ("URL", "url", "")].

(** The cell [new_row] builds for a key. *)
Definition stored_value (job_info : gmap string pyval) (key dflt : string)
  : cell :=
  match job_info !! key with
  | Some v => cell_of_pyval v
  | None => CStr dflt
  end.

(** The cell in row [i] and column [j]. *)
Definition cell_at (df : DataFrame) (i j : nat) : option cell :=
  r ← rows df !! i; r !! j.

(** The warning logged when pandas finds no workbook in the file. *)
Definition no_workbook_msg : string :=
  "Error reading Excel file, creating new one: Excel file format cannot be determined, you must specify an engine manually.".

(** * Proofs *)

(** ** Running the monad *)

Lemma run_bind_ok {A B : Type} (m : M A) (f : A → M B) (w w' : world) (a : A) :
  m w = (Ok a, w') → (m ≫= f) w = f a w'.
Proof. intros H. unfold mbind, M_bind. by rewrite H. Qed.

Lemma run_bind_raise {A B : Type} (m : M A) (f : A → M B) (w w' : world)
    (e : exn) :
  m w = (Raise e, w') → (m ≫= f) w = (Raise e, w').
Proof. intros H. unfold mbind, M_bind. by rewrite H. Qed.

Lemma run_bind_assoc {A B C : Type} (m : M A) (f : A → M B) (g : B → M C)
    (w : world) :
  ((m ≫= f) ≫= g) w = (m ≫= λ a, f a ≫= g) w.
Proof. unfold mbind, M_bind. by destruct (m w) as [[a|e] w']. Qed.

Lemma run_try_ok {A : Type} (m : M A) (h : exn → M A) (w w' : world) (a : A) :
  m w = (Ok a, w') → try_except m h w = (Ok a, w').
Proof. intros H. unfold try_except. by rewrite H. Qed.

Lemma run_try_raise {A : Type} (m : M A) (h : exn → M A) (w w' : world)
    (e : exn) :
  m w = (Raise e, w') → try_except m h w = h e w'.
Proof. intros H. unfold try_except. by rewrite H. Qed.

Lemma log_extends_refl w : log_extends w w.
Proof. exists []. by rewrite app_nil_r. Qed.

Lemma log_extends_trans w1 w2 w3 :
  log_extends w1 w2 → log_extends w2 w3 → log_extends w1 w3.
Proof.
  intros [e1 H1] [e2 H2]. exists (e1 ++ e2). by rewrite H2, H1, app_assoc.
Qed.

Lemma log_extends_elem w w' entry :
  log_extends w w' → entry ∈ logs w → entry ∈ logs w'.
Proof. intros [e ->] H. apply elem_of_app. by left. Qed.

Lemma logged_after entry w1 w2 w3 :
  log_extends w1 w2 → logged entry w2 w3 → logged entry w1 w3.
Proof.
  intros [e1 H1] (e2 & H2 & Hin). exists (e1 ++ e2). split.
  - by rewrite H2, H1, app_assoc.
  - apply elem_of_app. by right.
Qed.

#[local] Hint Resolve log_extends_refl : core.

Arguments PyStr.of_int : simpl never.
Arguments String.append : simpl never.

Section StoreProofs.

Context (env : Env).

(** ** The lock probe *)

Lemma is_file_locked_run w :
  is_file_locked env w =
    (Ok (locked env (clock w)),
     if locked env (clock w) then w else set_disk (touched (disk w)) w).
Proof.
  unfold is_file_locked, try_except, open_append, mbind, M_bind, mret, M_ret.
  destruct w as [t [f|] lg]; cbn; destruct (locked env t); reflexivity.
Qed.

Lemma is_file_locked_present w f :
  disk w = Some f → is_file_locked env w = (Ok (locked env (clock w)), w).
Proof.
  intros H. rewrite is_file_locked_run.
  destruct w as [t dk lg]; cbn in *; subst. by destruct (locked env t).
Qed.

(** The polling loop: it returns, and what it returns is decided by the
    polls at [clock w], [clock w + 2], ... *)
Lemma wait_loop_run fuel : ∀ wait_time max_wait w,
  (Z.to_nat (max_wait - wait_time) ≤ fuel)%nat →
  ∃ b w',
    wait_loop env fuel wait_time max_wait w = (Ok b, w')
    ∧ log_extends w w'
    ∧ (b = true →
         ∃ k, 0 ≤ k ∧ wait_time + 2 * k < max_wait
              ∧ clock w' = clock w + 2 * k
              ∧ locked env (clock w') = false
              ∧ (∀ j, 0 ≤ j < k → locked env (clock w + 2 * j) = true)
              ∧ disk w' = touched (disk w))
    ∧ (b = false →
         (∀ j, 0 ≤ j → wait_time + 2 * j < max_wait →
               locked env (clock w + 2 * j) = true)
         ∧ disk w' = disk w
         ∧ max_wait - wait_time ≤ clock w' - clock w
         ∧ clock w' - clock w ≤ Z.max 0 (max_wait - wait_time + 1)).
Proof.
  induction fuel as [|fuel IH]; intros wt mx w Hfuel.
  - exists false, w. cbn. repeat split; auto; try discriminate; intros; lia.
  - cbn [wait_loop]. destruct (Z.ltb_spec wt mx) as [Hlt|Hge].
    + unfold mbind at 1, M_bind at 1. rewrite is_file_locked_run.
      destruct (locked env (clock w)) eqn:Hl; cbn [negb].
      * destruct (IH (wt + 2) mx
                    {| clock := clock w + 2; disk := disk w;
                       logs := logs w ++ [(Info, waiting_msg wt mx)] |})
          as (b & w' & Hrun & Hlog & Ht & Hf); [lia|].
        exists b, w'. split; [|split; [|split]].
        -- unfold mbind, M_bind, log, time_sleep. cbn. exact Hrun.
        -- eapply log_extends_trans; [|exact Hlog]. by eexists.
        -- intros ->. destruct (Ht eq_refl) as (k & ? & ? & Hc & ? & Hj & Hd).
           exists (k + 1). cbn in *. repeat split; try lia; auto.
           intros j Hjr. destruct (decide (j = 0)) as [->|];
                [by rewrite Z.mul_0_r, Z.add_0_r|].
              replace (clock w + 2 * j) with (clock w + 2 + 2 * (j - 1)) by lia.
              apply Hj. lia.
        -- intros ->. destruct (Hf eq_refl) as (Hj & Hd & Hlo & Hhi).
           cbn in *. repeat split; auto; try lia.
           intros j ? ?. destruct (decide (j = 0)) as [->|];
             [by rewrite Z.mul_0_r, Z.add_0_r|].
           replace (clock w + 2 * j) with (clock w + 2 + 2 * (j - 1)) by lia.
           apply Hj; lia.
      * exists true, (set_disk (touched (disk w)) w).
        split; [reflexivity|]. split; [by exists []; rewrite app_nil_r|].
        split; [|discriminate]. intros _. exists 0. cbn.
        rewrite Z.mul_0_r, !Z.add_0_r. repeat split; auto; lia.
    + exists false, w. split; [reflexivity|]. repeat split; auto;
        try discriminate; intros; lia.
Qed.

Lemma wait_for_file_unlock_run max_wait w :
  ∃ b w',
    wait_for_file_unlock env max_wait w = (Ok b, w')
    ∧ log_extends w w'
    ∧ (b = true →
         ∃ k, 0 ≤ k ∧ 2 * k < max_wait
              ∧ clock w' = clock w + 2 * k
              ∧ locked env (clock w') = false
              ∧ (∀ j, 0 ≤ j < k → locked env (clock w + 2 * j) = true)
              ∧ disk w' = touched (disk w))
    ∧ (b = false →
         (∀ j, 0 ≤ j → 2 * j < max_wait → locked env (clock w + 2 * j) = true)
         ∧ disk w' = disk w
         ∧ max_wait ≤ clock w' - clock w
         ∧ clock w' - clock w ≤ Z.max 0 (max_wait + 1)).
Proof.
  unfold wait_for_file_unlock.
  destruct (wait_loop_run (Z.to_nat max_wait) 0 max_wait w) as
    (b & w' & Hrun & Hlog & Ht & Hf); [lia|].
  exists b, w'. rewrite Z.sub_0_r in Hf. repeat split; auto; try apply Hf; auto.
Qed.

(** ** Loading *)

Ltac run_prims :=
  unfold path_exists, read_excel, to_excel, open_append, log, time_sleep,
    raise, reraise, strftime_now, lift, try_except, mbind, M_bind, mret,
    M_ret, set_disk.

Lemma has_column_reread name df :
  Frame.has_column name (reread_frame env df) = Frame.has_column name df.
Proof. reflexivity. Qed.

Lemma read_or_create_absent w :
  disk w = None →
  ∃ w', read_or_create env w = (Ok Frame.new_frame, w')
        ∧ disk w' = None ∧ clock w' = clock w ∧ log_extends w w'.
Proof.
  destruct w as [t dk lg]; cbn; intros ->.
  eexists. split; [reflexivity|]. cbn. repeat split. by eexists.
Qed.

Lemma read_or_create_garbage w bytes :
  disk w = Some (Garbage bytes) → locked env (clock w) = false →
  ∃ w' extra, read_or_create env w = (Ok Frame.new_frame, w')
        ∧ disk w' = disk w ∧ clock w' = clock w
        ∧ logs w' = logs w ++ extra ∧ (Warning, no_workbook_msg) ∈ extra.
Proof.
  destruct w as [t dk lg]; cbn; intros -> Hfree.
  unfold read_or_create. run_prims. cbn. rewrite Hfree. cbn.
  eexists _, _. split; [reflexivity|]. cbn. repeat split.
  - rewrite <- app_assoc. reflexivity.
  - cbn. by left.
Qed.

Lemma read_or_create_workbook w df :
  disk w = Some (Workbook df) → locked env (clock w) = false →
  ∃ w', read_or_create env w = (Ok (loaded_frame env df), w')
        ∧ disk w' = Some (Workbook (stored_frame env df))
        ∧ clock w' = clock w ∧ log_extends w w'.
Proof.
  destruct w as [t dk lg]; cbn; intros -> Hfree.
  unfold read_or_create, loaded_frame, stored_frame, loaded_frame.
  run_prims. cbn. rewrite Hfree. cbn. rewrite has_column_reread.
  destruct (Frame.has_column "URL" df); cbn.
  - eexists. split; [reflexivity|]. cbn. repeat split. by eexists.
  - rewrite Hfree. cbn. eexists. split; [reflexivity|]. cbn. repeat split.
    eexists. cbn. by rewrite <- !app_assoc.
Qed.

Lemma read_or_create_unreadable w :
  disk w = Some Unreadable → locked env (clock w) = false →
  ∃ w', read_or_create env w
          = (Raise (mkExn PermissionError cannot_access_msg), w')
        ∧ disk w' = disk w ∧ clock w' = clock w ∧ log_extends w w'.
Proof.
  destruct w as [t dk lg]; cbn; intros -> Hfree.
  unfold read_or_create. run_prims. cbn. rewrite Hfree. cbn.
  unfold is_a. cbn [exn_kind]. rewrite bool_decide_eq_true_2 by done.
  eexists. split; [reflexivity|]. cbn. repeat split. exists [].
  by rewrite app_nil_r.
Qed.

Lemma read_or_create_run w :
  (is_Some (disk w) → locked env (clock w) = false) →
  unreadable (disk w) = false →
  ∃ w', read_or_create env w = (Ok (frame_of env (disk w)), w')
        ∧ disk w' = file_after_load env (disk w)
        ∧ clock w' = clock w ∧ log_extends w w'
        ∧ (∀ bytes, disk w = Some (Garbage bytes) →
             logged (Warning, no_workbook_msg) w w').
Proof.
  intros Hfree Hread. destruct (disk w) as [[bytes|df|]|] eqn:Hd.
  - destruct (read_or_create_garbage w bytes) as (w' & extra & ? & ? & ? & ? & ?);
      eauto.
    exists w'. cbn. repeat split; auto; try congruence.
    + by exists extra.
    + intros _ _. by exists extra.
  - destruct (read_or_create_workbook w df) as (w' & ? & ? & ? & ?); eauto.
    exists w'. repeat split; auto. discriminate.
  - discriminate Hread.
  - destruct (read_or_create_absent w) as (w' & ? & ? & ? & ?); eauto.
    exists w'. repeat split; auto. discriminate.
Qed.

(** What follows the lock check, when the file is free: the frame of the
    file, or the access error when the file denies reading. *)
Lemma read_or_create_cases w :
  (is_Some (disk w) → locked env (clock w) = false) →
  ∃ r w', read_or_create env w = (r, w')
        ∧ disk w' = file_after_load env (disk w)
        ∧ clock w' = clock w ∧ log_extends w w'
        ∧ ((r = Ok (frame_of env (disk w)) ∧ unreadable (disk w) = false
            ∧ (∀ bytes, disk w = Some (Garbage bytes) →
                 logged (Warning, no_workbook_msg) w w'))
           ∨ (r = Raise (mkExn PermissionError cannot_access_msg)
              ∧ disk w = Some Unreadable)).
Proof.
  intros Hfree. destruct (unreadable (disk w)) eqn:Hread.
  - assert (disk w = Some Unreadable) as Hd
      by (by destruct (disk w) as [[?|?|]|]).
    destruct (read_or_create_unreadable w Hd) as (w' & Hr & Hd' & Hc & Hl);
      [apply Hfree; by rewrite Hd|].
    eexists _, w'. split; [exact Hr|]. rewrite Hd in *.
    repeat split; auto.
  - destruct (read_or_create_run w Hfree Hread) as (w' & Hr & Hd' & Hc & Hl & Hg).
    eexists _, w'. split; [exact Hr|]. repeat split; auto.
Qed.

(** A load times out on the lock, leaving the file as it is; or returns the
    frame of the file, at a time the file is free; or, at such a time, fails
    on a file that denies reading. *)
Lemma load_or_create_excel_run w :
  ∃ r w',
    load_or_create_excel env w = (r, w') ∧ log_extends w w'
    ∧ ((r = Raise (mkExn PermissionError locked_msg)
        ∧ is_Some (disk w) ∧ disk w' = disk w
        ∧ (∀ j, 0 ≤ j → 2 * j < 30 → locked env (clock w + 2 * j) = true))
       ∨ (r = Ok (frame_of env (disk w))
          ∧ disk w' = file_after_load env (disk w)
          ∧ (is_Some (disk w) → locked env (clock w') = false)
          ∧ clock w ≤ clock w'
          ∧ ((is_Some (disk w) → locked env (clock w) = false) →
             clock w' = clock w)
          ∧ (∀ bytes, disk w = Some (Garbage bytes) →
               logged (Warning, no_workbook_msg) w w')
          ∧ unreadable (disk w) = false)
       ∨ (r = Raise (mkExn PermissionError cannot_access_msg)
          ∧ disk w = Some Unreadable ∧ disk w' = disk w
          ∧ locked env (clock w') = false
          ∧ clock w ≤ clock w'
          ∧ (locked env (clock w) = false → clock w' = clock w))).
Proof.
  unfold load_or_create_excel. destruct w as [t dk lg]. cbn [clock disk logs].
  erewrite run_bind_ok by reflexivity. cbn [clock disk logs].
  destruct dk as [f|].
  - rewrite bool_decide_eq_true_2 by eauto.
    erewrite run_bind_ok by (by eapply is_file_locked_present).
    cbn [clock disk logs].
    destruct (locked env t) eqn:Hl.
    + rewrite run_bind_assoc. erewrite run_bind_ok by reflexivity.
      rewrite run_bind_assoc. erewrite run_bind_ok by reflexivity.
      rewrite run_bind_assoc. cbn [clock disk logs].
      match goal with |- context [(wait_for_file_unlock env 30 ≫= _) ?w1] =>
        destruct (wait_for_file_unlock_run 30 w1)
          as (b & w2 & Hrun & Hlog & Ht & Hf) end.
      erewrite run_bind_ok by exact Hrun.
      destruct b; cbn [negb].
      * destruct (Ht eq_refl) as (k & Hk0 & Hk & Hc & Hfree & _ & Hd).
        cbn [clock disk logs touched default] in *.
        erewrite run_bind_ok by reflexivity.
        destruct (read_or_create_cases w2)
          as (r3 & w3 & Hr & Hd3 & Hc3 & Hl3 & Hcase); [done|].
        rewrite Hd in Hd3, Hcase. exists r3, w3.
        assert (log_extends {| clock := t; disk := Some f; logs := lg |} w2)
          as Hl2.
        { eapply log_extends_trans; [|exact Hlog].
          eexists. cbn. by rewrite <- app_assoc. }
        split; [exact Hr|]. split.
        { eapply log_extends_trans; [exact Hl2|exact Hl3]. }
        right. destruct Hcase as [(-> & Hun & Hg)|(-> & Hun)]; [left|right].
        -- repeat split; auto; try congruence; try lia.
           ++ intros H. specialize (H (ltac:(eauto))). congruence.
           ++ intros bytes Hb. eapply logged_after; [exact Hl2|]. eauto.
        -- injection Hun as ->. repeat split; auto; try congruence; try lia.
      * destruct (Hf eq_refl) as (Hj & Hd & _).
        cbn [clock disk logs] in *.
        erewrite run_bind_raise by reflexivity.
        eexists _, _. split; [reflexivity|]. split.
        { eapply log_extends_trans; [|exact Hlog].
          eexists. cbn. by rewrite <- app_assoc. }
        left. repeat split; eauto.
    + erewrite run_bind_ok by reflexivity.
      match goal with |- context [read_or_create env ?w1] =>
        destruct (read_or_create_cases w1)
          as (r3 & w3 & Hr & Hd3 & Hc3 & Hl3 & Hcase)
      end; [done|].
      cbn [clock disk logs] in *.
      exists r3, w3. split; [exact Hr|]. split; [done|].
      right. destruct Hcase as [(-> & Hun & Hg)|(-> & Hun)]; [left|right].
      * repeat split; auto; try congruence; lia.
      * injection Hun as ->. repeat split; auto; try congruence; lia.
  - rewrite bool_decide_eq_false_2 by (by intros [? ?]).
    erewrite run_bind_ok by reflexivity.
    erewrite run_bind_ok by reflexivity.
    match goal with |- context [read_or_create env ?w1] =>
      destruct (read_or_create_cases w1)
        as (r3 & w3 & Hr & Hd3 & Hc3 & Hl3 & Hcase)
    end; [by intros [? ?]|].
    cbn [clock disk logs] in *.
    exists r3, w3. split; [exact Hr|]. split; [done|].
    right. destruct Hcase as [(-> & Hun & Hg)|(-> & Hun)]; [left|discriminate].
    repeat split; auto; try congruence; try lia. by intros [? ?].
Qed.

(** When the file is free (or absent) and admits reading, the load returns
    at once. *)
Lemma load_or_create_excel_free w :
  (is_Some (disk w) → locked env (clock w) = false) →
  unreadable (disk w) = false →
  ∃ w', load_or_create_excel env w = (Ok (frame_of env (disk w)), w')
        ∧ disk w' = file_after_load env (disk w)
        ∧ clock w' = clock w ∧ log_extends w w'.
Proof.
  intros Hfree Hread.
  destruct (load_or_create_excel_run w) as (r & w' & Hrun & Hlog & [H|[H|H]]).
  - destruct H as (_ & Hsome & _ & Hj). specialize (Hj 0).
    rewrite Z.mul_0_r, Z.add_0_r in Hj. rewrite Hfree in Hj by done.
    discriminate Hj; lia.
  - destruct H as (-> & Hd & _ & _ & Hc & _). exists w'. auto.
  - destruct H as (_ & Hd & _). by rewrite Hd in Hread.
Qed.

Lemma unreadable_after_load f :
  unreadable (file_after_load env f) = unreadable f.
Proof. by destruct f as [[?|?|]|]. Qed.

Lemma unreadable_touched f : unreadable (touched f) = unreadable f.
Proof. by destruct f as [[?|?|]|]. Qed.


(** C7. Loading a workbook that lacks the [URL] column adds the column once,
    as the last one and holding the empty string in every row, and writes
    the migrated frame before it returns; the second and the third load
    find the column and leave the column set and the file as they are. *)
Theorem load_migration_idempotent (t : Z) (lg : list (level * string))
    (df : DataFrame) :
  "URL" ∉ columns df →
  locked env t = false →
  ∃ df1 w1 df2 w2 df3 w3,
    load_or_create_excel env {| clock := t; disk := Some (Workbook df);
                                logs := lg |} = (Ok df1, w1)
    ∧ load_or_create_excel env w1 = (Ok df2, w2)
    ∧ load_or_create_excel env w2 = (Ok df3, w3)
    ∧ columns df1 = columns df ++ ["URL"]
    ∧ rows df1 = (λ r, r ++ [CStr ""]) <$> rows (reread_frame env df)
    ∧ disk w1 = Some (Workbook df1)
    ∧ columns df2 = columns df1 ∧ disk w2 = disk w1
    ∧ columns df3 = columns df1 ∧ disk w3 = disk w1.
Proof.
  intros Hno Hfree.
  assert (Frame.has_column "URL" df = false) as Hc0
    by (by apply bool_decide_eq_false_2).
  set (df1 := Frame.add_column "URL" (CStr "") (reread_frame env df)).
  assert (Frame.has_column "URL" df1 = true) as Hc1.
  { apply bool_decide_eq_true_2. cbn. apply elem_of_app. right. by left. }
  assert (∀ w, disk w = Some (Workbook df1) → clock w = t →
    ∃ w', load_or_create_excel env w = (Ok (reread_frame env df1), w')
          ∧ disk w' = Some (Workbook df1) ∧ clock w' = t) as Hagain.
  { intros w Hd Hc.
    destruct (load_or_create_excel_free w) as (w' & Hr & Hd' & Hc' & _).
    { intros _. by rewrite Hc. }
    { by rewrite Hd. }
    rewrite Hd in Hr, Hd'. cbn in Hr, Hd'.
    unfold stored_frame, loaded_frame in Hr, Hd'. rewrite Hc1 in Hr, Hd'.
    exists w'. repeat split; auto. congruence. }
  destruct (load_or_create_excel_free
              {| clock := t; disk := Some (Workbook df); logs := lg |})
    as (w1 & Hr1 & Hd1 & Hc1' & _); [done|done|].
  cbn in Hr1, Hd1, Hc1'. unfold stored_frame, loaded_frame in Hr1, Hd1.
  rewrite Hc0 in Hr1, Hd1. fold df1 in Hr1, Hd1.
  destruct (Hagain w1 Hd1 Hc1') as (w2 & Hr2 & Hd2 & Hc2).
  destruct (Hagain w2 Hd2 Hc2) as (w3 & Hr3 & Hd3 & Hc3).
  exists df1, w1, (reread_frame env df1), w2, (reread_frame env df1), w3.
  repeat split; auto; congruence.
Qed.



(** C9, as the code has it. The probe never raises and answers whether the
    open for appending failed; it leaves an existing file as it is, and when
    there is no file a successful open creates an empty one. The wait
    polls at [clock w], [clock w + 2], ... while less than [max_wait] has
    elapsed: it answers [true] at the first poll that finds the file free,
    and [false], after at least [max_wait], when every poll found it held. *)
Theorem lock_probe_and_wait (w : world) (max_wait : Z) :
  is_file_locked env w =
    (Ok (locked env (clock w)),
     if locked env (clock w) then w else set_disk (touched (disk w)) w)
  ∧ (fst (is_file_locked env w) = Ok true ↔
     ∃ e w', open_append env w = (Raise e, w'))
  ∧ (∀ f, disk w = Some f → snd (is_file_locked env w) = w)
  ∧ ∃ b w',
      wait_for_file_unlock env max_wait w = (Ok b, w')
      ∧ (b = true →
           ∃ k, 0 ≤ k ∧ 2 * k < max_wait
                ∧ clock w' = clock w + 2 * k
                ∧ locked env (clock w') = false
                ∧ (∀ j, 0 ≤ j < k → locked env (clock w + 2 * j) = true)
                ∧ disk w' = touched (disk w))
      ∧ (b = false →
           (∀ j, 0 ≤ j → 2 * j < max_wait →
                 locked env (clock w + 2 * j) = true)
           ∧ disk w' = disk w
           ∧ max_wait ≤ clock w' - clock w
           ∧ clock w' - clock w ≤ Z.max 0 (max_wait + 1)).
Proof.
  split; [apply is_file_locked_run|]. split; [|split].
  - rewrite is_file_locked_run. cbn. unfold open_append.
    destruct (locked env (clock w)); split.
    + eauto.
    + done.
    + discriminate.
    + intros (e & w' & H). discriminate H.
  - intros f Hf. by rewrite (is_file_locked_present w f Hf).
  - destruct (wait_for_file_unlock_run max_wait w) as (b & w' & ? & _ & ? & ?).
    eauto.
Qed.

(** ** Row edits *)

Lemma frame_of_touched f : frame_of env (touched f) = frame_of env f.
Proof. by destruct f as [[?|?|]|]. Qed.

Lemma frame_of_has_url f : Frame.has_column "URL" (frame_of env f) = true.
Proof.
  destruct f as [[?|df|]|]; try reflexivity. cbn. unfold loaded_frame.
  destruct (Frame.has_column "URL" df) eqn:H; [exact H|].
  apply bool_decide_eq_true_2. cbn. apply elem_of_app. right. by left.
Qed.

Lemma frame_of_len df : Frame.len (loaded_frame env df) = Frame.len df.
Proof.
  unfold loaded_frame, Frame.len.
  destruct (Frame.has_column "URL" df); cbn; by rewrite !length_fmap.
Qed.

Lemma has_column_empty name df :
  Frame.has_column name df = true → Frame.empty df = bool_decide (rows df = []).
Proof.
  unfold Frame.has_column, Frame.empty. intros H%bool_decide_eq_true_1.
  destruct (columns df); [by apply elem_of_nil in H|]. by destruct (rows df).
Qed.

Lemma stored_frame_id df :
  "URL" ∈ columns df → stored_frame env df = df.
Proof.
  intros H. unfold stored_frame, Frame.has_column.
  by rewrite bool_decide_eq_true_2.
Qed.

Lemma locked_early_return_free w :
  locked env (clock w) = false →
  locked_early_return env w = (Ok None, set_disk (touched (disk w)) w).
Proof.
  intros H. unfold locked_early_return.
  erewrite run_bind_ok by apply is_file_locked_run. by rewrite H.
Qed.

(** The frame a row edit works on, when the file is free at the call. *)
Lemma row_edit_load w :
  locked env (clock w) = false →
  unreadable (disk w) = false →
  ∃ w1 w2,
    locked_early_return env w = (Ok None, w1)
    ∧ load_or_create_excel env w1 = (Ok (frame_of env (disk w)), w2)
    ∧ disk w2 = file_after_load env (touched (disk w))
    ∧ clock w2 = clock w.
Proof.
  intros Hfree Hread. eexists _.
  destruct (load_or_create_excel_free (set_disk (touched (disk w)) w))
    as (w2 & Hr & Hd & Hc & _); [done|by rewrite <- unreadable_touched in Hread|].
  exists w2. split; [by apply locked_early_return_free|].
  unfold set_disk in Hr, Hd, Hc. cbn [clock disk logs] in Hr, Hd, Hc.
  rewrite frame_of_touched in Hr. auto.
Qed.





(** *** The frame of a cell assignment and of a row removal *)

Lemma set_cell_other (df : DataFrame) (i j i' j' : nat) (v : cell) :
  i' ≠ i ∨ j' ≠ j →
  cell_at (Frame.set_cell i j v df) i' j' = cell_at df i' j'.
Proof.
  intros Hne. unfold cell_at, Frame.set_cell. cbn.
  destruct (decide (i' = i)) as [->|Hi].
  - rewrite list_lookup_alter_eq. destruct (rows df !! i) as [r|]; cbn; [|done].
    apply list_lookup_insert_ne. destruct Hne; congruence.
  - by rewrite list_lookup_alter_ne.
Qed.

Lemma set_cell_same (df : DataFrame) (i j : nat) (v c : cell) :
  cell_at df i j = Some c → cell_at (Frame.set_cell i j v df) i j = Some v.
Proof.
  unfold cell_at, Frame.set_cell. cbn. rewrite list_lookup_alter_eq.
  destruct (rows df !! i) as [r|]; cbn; [|done]. intros H.
  apply list_lookup_insert_eq. by eapply lookup_lt_Some.
Qed.

Lemma in_range_test (n count : Z) :
  1 ≤ n ≤ count → (n <? 1) || (n >? count) = false.
Proof.
  intros H. apply orb_false_iff. split; [apply Z.ltb_ge; lia|].
  rewrite Z.gtb_ltb. apply Z.ltb_ge. lia.
Qed.

Lemma to_excel_free (df : DataFrame) (w : world) :
  locked env (clock w) = false →
  unreadable (disk w) = false →
  to_excel env df w = (Ok (), set_disk (Some (Workbook df)) w).
Proof.
  intros H Hread. unfold to_excel. rewrite H.
  by destruct (disk w) as [[?|?|]|].
Qed.

Lemma nonempty_rows (df : DataFrame) (n : Z) :
  1 ≤ n ≤ Frame.len df → bool_decide (rows df = []) = false.
Proof.
  unfold Frame.len. intros H. apply bool_decide_eq_false_2. intros Hr.
  rewrite Hr in H. cbn in H. lia.
Qed.

(** ** Appending *)

Lemma save_attempt_free attempt rest df w :
  locked env (clock w) = false →
  unreadable (disk w) = false →
  ∃ w', save_with_retry env (attempt :: rest) df w = (Ok (Some true), w')
        ∧ disk w' = Some (Workbook df) ∧ clock w' = clock w
        ∧ log_extends w w'.
Proof.
  intros Hfree Hread. cbn [save_with_retry].
  erewrite run_bind_ok.
  2:{ eapply run_try_ok. erewrite run_bind_ok by (by apply to_excel_free).
      erewrite run_bind_ok by reflexivity. reflexivity. }
  eexists. split; [reflexivity|]. cbn. repeat split. by eexists.
Qed.

Lemma to_excel_held df w :
  locked env (clock w) = true →
  to_excel env df w =
    (Raise (mkExn PermissionError "[Errno 13] Permission denied"), w).
Proof. intros H. unfold to_excel. by rewrite H. Qed.

Lemma save_attempt_last attempt rest df w :
  locked env (clock w) = true →
  (attempt <? max_retries - 1) = false →
  save_with_retry env (attempt :: rest) df w =
    (Raise (mkExn PermissionError cannot_save_msg), w).
Proof.
  intros Hheld Hlast. cbn [save_with_retry].
  erewrite run_bind_raise; [reflexivity|].
  erewrite run_try_raise
    by (erewrite run_bind_raise by (by apply to_excel_held); reflexivity).
  cbn. by rewrite Hlast.
Qed.

Lemma save_attempt_retry attempt rest df w :
  locked env (clock w) = true →
  (attempt <? max_retries - 1) = true →
  ∃ b w1,
    save_with_retry env (attempt :: rest) df w = save_with_retry env rest df w1
    ∧ log_extends w w1 ∧ clock w ≤ clock w1
    ∧ (b = true → locked env (clock w1) = false)
    ∧ (b = false → disk w1 = disk w)
    ∧ unreadable (disk w1) = unreadable (disk w).
Proof.
  intros Hheld Hretry. cbn [save_with_retry].
  match goal with |- context [wait_for_file_unlock env 10] =>
    destruct (wait_for_file_unlock_run 10
                {| clock := clock w; disk := disk w;
                   logs := logs w ++ [(Warning,
                     "Permission denied on attempt "
                     +:+ PyStr.of_int (attempt + 1) +:+ ", retrying...")] |})
      as (b & w1 & Hrun & Hlog & Ht & Hf) end.
  exists b, w1. split; [|split; [|split; [|split; [|split]]]].
  - erewrite run_bind_ok; cycle 1.
    { erewrite run_try_raise
        by (erewrite run_bind_raise by (by apply to_excel_held); reflexivity).
      unfold is_a. cbn [exn_kind]. rewrite bool_decide_eq_true_2 by done.
      rewrite Hretry. erewrite run_bind_ok by reflexivity.
      erewrite run_bind_ok by exact Hrun.
      instantiate (1 := w1). instantiate (1 := None). by destruct b. }
    reflexivity.
  - eapply log_extends_trans; [|exact Hlog]. by eexists.
  - destruct b.
    + destruct (Ht eq_refl) as (k & ? & ? & Hc & _). cbn in Hc. lia.
    + destruct (Hf eq_refl) as (_ & _ & Hlo & _). cbn in Hlo. lia.
  - intros ->. by destruct (Ht eq_refl) as (k & ? & ? & ? & ? & _).
  - intros ->. by destruct (Hf eq_refl) as (_ & ? & _).
  - destruct b.
    + destruct (Ht eq_refl) as (k & _ & _ & _ & _ & _ & Hd). rewrite Hd.
      cbn [disk]. apply unreadable_touched.
    + destruct (Hf eq_refl) as (_ & Hd & _). by rewrite Hd.
Qed.

(** The three attempts either write the frame or end in the last attempt's
    [PermissionError]; the loop never runs to its end. *)
Lemma save_with_retry_run df w :
  unreadable (disk w) = false →
  ∃ r w',
    save_with_retry env [0; 1; 2] df w = (r, w')
    ∧ log_extends w w' ∧ clock w ≤ clock w'
    ∧ ((r = Ok (Some true) ∧ disk w' = Some (Workbook df)
        ∧ (locked env (clock w) = false → clock w' = clock w))
       ∨ (r = Raise (mkExn PermissionError cannot_save_msg)
          ∧ disk w' = disk w ∧ locked env (clock w) = true)).
Proof.
  intros Hread.
  destruct (locked env (clock w)) eqn:H0.
  2:{ destruct (save_attempt_free 0 [1; 2] df w H0 Hread)
        as (w' & Hr & ? & ? & ?).
      eexists _, w'. split; [exact Hr|]. split; [done|]. split; [lia|].
      left. auto. }
  destruct (save_attempt_retry 0 [1; 2] df w H0 eq_refl)
    as (b1 & w1 & -> & Hl1 & Hc1 & Ht1 & Hf1 & Hu1).
  rewrite Hread in Hu1.
  destruct (locked env (clock w1)) eqn:H1.
  2:{ destruct (save_attempt_free 1 [2] df w1 H1 Hu1) as (w' & Hr & ? & ? & ?).
      eexists _, w'. split; [exact Hr|].
      split; [by eapply log_extends_trans|]. split; [lia|]. left.
      repeat split; auto. discriminate. }
  destruct (save_attempt_retry 1 [2] df w1 H1 eq_refl)
    as (b2 & w2 & -> & Hl2 & Hc2 & Ht2 & Hf2 & Hu2).
  rewrite Hu1 in Hu2.
  assert (disk w1 = disk w) as Hd1
    by (destruct b1; [specialize (Ht1 eq_refl); congruence | auto]).
  destruct (locked env (clock w2)) eqn:H2.
  2:{ destruct (save_attempt_free 2 [] df w2 H2 Hu2) as (w' & Hr & ? & ? & ?).
      eexists _, w'. split; [exact Hr|].
      split; [eauto using log_extends_trans|]. split; [lia|]. left.
      repeat split; auto. discriminate. }
  assert (disk w2 = disk w1) as Hd2
    by (destruct b2; [specialize (Ht2 eq_refl); congruence | auto]).
  rewrite (save_attempt_last 2 [] df w2 H2 eq_refl).
  eexists _, w2. split; [reflexivity|].
  split; [eauto using log_extends_trans|]. split; [lia|]. right.
  repeat split; congruence.
Qed.

(** The row part of an append, run when the file is absent or free. *)
Lemma append_row_run job w :
  (is_Some (disk w) → locked env (clock w) = false) →
  unreadable (disk w) = false →
  ∃ r w',
    append_row env job w = (r, w') ∧ clock w ≤ clock w'
    ∧ if is_duplicate (frame_of env (disk w)) job then
        r = Ok false ∧ disk w' = file_after_load env (disk w)
      else
        (r = Ok true
         ∧ disk w' = Some (Workbook
             (Frame.concat_row (frame_of env (disk w))
                               (new_row job (today env (clock w)))))
         ∧ (locked env (clock w) = false → clock w' = clock w))
        ∨ (r = Raise (mkExn PermissionError cannot_save_msg)
           ∧ disk w' = file_after_load env (disk w)
           ∧ locked env (clock w) = true).
Proof.
  intros Hfree Hread.
  destruct (load_or_create_excel_free w Hfree Hread)
    as (w1 & Hload & Hd1 & Hc1 & _).
  assert (unreadable (disk w1) = false) as Hread1
    by (by rewrite Hd1, unreadable_after_load).
  unfold append_row. erewrite run_bind_ok by exact Hload.
  erewrite run_bind_ok by reflexivity. rewrite Hc1.
  destruct (is_duplicate (frame_of env (disk w)) job).
  - erewrite run_bind_ok by reflexivity. eexists _, _.
    split; [reflexivity|]. cbn. split; [lia|]. auto.
  - cbn zeta.
    match goal with |- context [save_with_retry env _ ?d] =>
      destruct (save_with_retry_run d w1 Hread1)
        as (r & w2 & Hs & _ & Hc2 & Hcase)
    end.
    destruct Hcase as [(-> & Hd2 & Hsame)|(-> & Hd2 & Hheld)].
    + erewrite run_bind_ok by exact Hs. eexists _, w2.
      split; [reflexivity|]. split; [lia|]. left. repeat split; auto.
      intros H. rewrite <- Hc1. apply Hsame. by rewrite Hc1.
    + erewrite run_bind_raise by exact Hs. eexists _, w2.
      split; [reflexivity|]. split; [lia|]. right. repeat split; congruence.
Qed.

(** The row part of an append to a free file that denies reading. *)
Lemma append_row_denied job w :
  locked env (clock w) = false →
  disk w = Some Unreadable →
  ∃ w', append_row env job w
          = (Raise (mkExn PermissionError cannot_access_msg), w')
        ∧ disk w' = disk w ∧ clock w' = clock w.
Proof.
  intros Hfree Hd.
  destruct (load_or_create_excel_run w) as (r & w' & Hr & _ & [H|[H|H]]).
  - destruct H as (_ & _ & _ & Hj). specialize (Hj 0).
    rewrite Z.mul_0_r, Z.add_0_r, Hfree in Hj. discriminate Hj; lia.
  - destruct H as (_ & _ & _ & _ & _ & _ & Hun). by rewrite Hd in Hun.
  - destruct H as (-> & _ & Hd' & _ & _ & Hc). exists w'.
    split; [|split; [exact Hd'|by apply Hc]].
    unfold append_row. by erewrite run_bind_raise by exact Hr.
Qed.

Lemma run_try_ext {A : Type} (m m' : M A) (h : exn → M A) (w w' : world) :
  m w = m' w' → try_except m h w = try_except m' h w'.
Proof. intros H. unfold try_except. by rewrite H. Qed.

(** An append answers [false] on a duplicate and leaves what a load leaves;
    it answers [true] after writing the loaded frame with the new row; or it
    raises [PermissionError], having written no row: held at the call, or
    free and denied the reading of the file. *)
Lemma append_to_excel_run job w :
  ∃ r w' t,
    append_to_excel env job w = (r, w') ∧ clock w ≤ t ≤ clock w'
    ∧ (locked env (clock w) = false → t = clock w)
    ∧ ((r = Ok false ∧ is_duplicate (frame_of env (disk w)) job = true
        ∧ disk w' = file_after_load env (disk w))
       ∨ (r = Ok true ∧ is_duplicate (frame_of env (disk w)) job = false
          ∧ disk w' = Some (Workbook
              (Frame.concat_row (frame_of env (disk w))
                                (new_row job (today env t)))))
       ∨ ((∃ msg, r = Raise (mkExn PermissionError msg))
          ∧ (disk w' = disk w ∨ disk w' = file_after_load env (disk w))
          ∧ locked env (clock w) = true)
       ∨ (r = Raise (mkExn PermissionError cannot_access_msg)
          ∧ disk w = Some Unreadable ∧ disk w' = disk w)).
Proof.
  unfold append_to_excel.
  match goal with |- context [try_except _ ?h0] => set (h := h0) end.
  match goal with |- ∃ r w' t, _ = _ ∧ ?rest =>
    set (post := λ (r : outcome bool) (w' : world) (t : Z), rest) end.
  assert (∀ w0, (is_Some (disk w0) → locked env (clock w0) = false) →
          disk w0 = disk w → clock w ≤ clock w0 →
          (locked env (clock w) = false → clock w0 = clock w) →
          ∃ r w' t, try_except (append_row env job) h w0 = (r, w')
                    ∧ post r w' t) as Htail.
  { intros w0 Hfree0 Hd0 Hc0 Hsame0.
    destruct (unreadable (disk w)) eqn:Hun.
    { assert (disk w = Some Unreadable) as Hd
        by (by destruct (disk w) as [[?|?|]|]).
      destruct (append_row_denied job w0) as (w' & Hrun & Hd' & Hc');
        [apply Hfree0; rewrite Hd0, Hd; eauto|congruence|].
      eexists _, w', (clock w0).
      split; [by erewrite run_try_raise by exact Hrun|].
      subst post. cbn beta. split; [lia|]. split; [auto|].
      right. right. right. repeat split; congruence. }
    destruct (append_row_run job w0 Hfree0) as (r & w' & Hrun & Hc & Hcase);
      [by rewrite Hd0|].
    rewrite Hd0 in Hcase. subst post. cbn beta.
    destruct (is_duplicate (frame_of env (disk w)) job).
    - destruct Hcase as (-> & Hd'). exists (Ok false), w', (clock w0).
      split; [by erewrite run_try_ok by exact Hrun|].
      split; [lia|]. split; [auto|]. left. auto.
    - destruct Hcase as [(-> & Hd' & _)|(-> & Hd' & Hheld)].
      + exists (Ok true), w', (clock w0).
        split; [by erewrite run_try_ok by exact Hrun|].
        split; [lia|]. split; [auto|]. right. left. auto.
      + eexists _, w', (clock w0).
        split; [by erewrite run_try_raise by exact Hrun|].
        split; [lia|]. split; [auto|]. right. right. left.
        split; [eauto|]. split; [auto|].
        destruct (locked env (clock w)) eqn:Hl; [done|].
        rewrite Hsame0 in Hheld by done. congruence. }
  destruct (disk w) as [f|] eqn:Hd.
  - destruct (locked env (clock w)) eqn:Hl.
    + match goal with |- context [try_except ?b h w] =>
        assert (∃ w1, (b w = (Raise (mkExn PermissionError cannot_write_msg), w1)
                       ∧ disk w1 = Some f ∧ clock w ≤ clock w1)
                  ∨ (locked env (clock w1) = false ∧ disk w1 = Some f
                     ∧ clock w ≤ clock w1 ∧ b w = append_row env job w1))
          as [w1 Hw]
      end.
      { erewrite run_bind_ok by reflexivity. rewrite Hd.
        rewrite bool_decide_eq_true_2 by eauto.
        erewrite run_bind_ok by (by eapply is_file_locked_present).
        rewrite Hl.
        rewrite run_bind_assoc. erewrite run_bind_ok by reflexivity.
        rewrite run_bind_assoc.
        match goal with |- context [(wait_for_file_unlock env 30 ≫= _) ?w1] =>
          destruct (wait_for_file_unlock_run 30 w1)
            as (b & w2 & Hrun & _ & Ht & Hf) end.
        erewrite run_bind_ok by exact Hrun. exists w2. destruct b; cbn [negb].
        - right. destruct (Ht eq_refl) as (k & ? & ? & Hc & ? & _ & Hd2).
          cbn in Hc, Hd2. rewrite Hd in Hd2.
          erewrite run_bind_ok by reflexivity.
          repeat split; auto. lia.
        - left. destruct (Hf eq_refl) as (_ & Hd2 & Hlo & _). cbn in Hd2, Hlo.
          erewrite run_bind_raise by reflexivity. repeat split; auto.
          + congruence.
          + lia. }
      destruct Hw as [(Hraise & Hd1 & Hc1)|(Hfree1 & Hd1 & Hc1 & Heq)].
      * eexists _, w1, (clock w).
        split; [by erewrite run_try_raise by exact Hraise|].
        subst post. cbn beta. split; [lia|]. split; [done|]. right. right.
        left. split; [eauto|]. split; [left; congruence|done].
      * erewrite run_try_ext by exact Heq.
        apply Htail; auto; try lia; intros; congruence.
    + erewrite run_try_ext; [apply (Htail w); auto; try lia; intros; congruence|].
      erewrite run_bind_ok by reflexivity. rewrite Hd.
      rewrite bool_decide_eq_true_2 by eauto.
      erewrite run_bind_ok by (by eapply is_file_locked_present).
      rewrite Hl. erewrite run_bind_ok by reflexivity. reflexivity.
  - erewrite run_try_ext; [apply (Htail w); auto|].
    + rewrite Hd. by intros [? ?].
    + lia.
    + erewrite run_bind_ok by reflexivity. rewrite Hd.
      rewrite bool_decide_eq_false_2 by (by intros [? ?]).
      erewrite run_bind_ok by reflexivity.
      erewrite run_bind_ok by reflexivity. reflexivity.
Qed.

(** *** The appended row *)

Lemma index_of_lookup name cols j :
  Frame.index_of name cols = Some j → cols !! j = Some name.
Proof.
  revert j. induction cols as [|c cols IH]; intros j; cbn; [done|].
  destruct (String.eqb_spec c name) as [->|Hne].
  - by intros [= <-].
  - destruct (Frame.index_of name cols) as [k|]; cbn; [|done].
    intros [= <-]. cbn. by apply IH.
Qed.

Lemma index_of_elem name cols :
  name ∈ cols → is_Some (Frame.index_of name cols).
Proof.
  induction cols as [|c cols IH]; [by intros ?%elem_of_nil|].
  intros Hin. cbn. destruct (String.eqb_spec c name) as [->|Hne]; [eauto|].
  apply elem_of_cons in Hin as [->|Hin]; [done|].
  destruct (IH Hin) as [k ->]. cbn. eauto.
Qed.

Lemma row_get_fmap (f : string → cell) name cols :
  name ∈ cols → Frame.row_get cols (f <$> cols) name = Some (f name).
Proof.
  intros Hin. unfold Frame.row_get.
  destruct (index_of_elem name cols Hin) as [j Hj]. rewrite Hj. cbn.
  rewrite list_lookup_fmap. by rewrite (index_of_lookup _ _ _ Hj).
Qed.

Lemma row_get_reread name cols r :
  Frame.row_get cols (reread env <$> r) name
  = reread env <$> Frame.row_get cols r name.
Proof.
  unfold Frame.row_get. destruct (Frame.index_of name cols) as [j|]; cbn;
    [|done]. apply list_lookup_fmap.
Qed.

Lemma concat_row_columns df row name :
  name ∈ (fst <$> row) → name ∈ columns (Frame.concat_row df row).
Proof.
  intros Hin. cbn. apply elem_of_app.
  destruct (decide (name ∈ columns df)) as [?|Hout]; [by left|]. right.
  apply list_elem_of_In, filter_In. split; [by apply list_elem_of_In|].
  by rewrite bool_decide_eq_false_2.
Qed.

Lemma concat_row_keeps df row name :
  name ∈ columns df → name ∈ columns (Frame.concat_row df row).
Proof. intros Hin. cbn. apply elem_of_app. by left. Qed.

Lemma concat_row_last df row :
  last (rows (Frame.concat_row df row))
  = Some ((λ c, default CNaN (Frame.lookup_key c row))
          <$> columns (Frame.concat_row df row)).
Proof. cbn. by rewrite last_snoc. Qed.

Lemma concat_row_length df row :
  length (rows (Frame.concat_row df row)) = S (length (rows df)).
Proof. cbn. rewrite length_app, length_fmap. cbn. lia. Qed.

(** The value the appended row has under each key of [new_row]. *)
Lemma concat_row_get df job now name :
  name ∈ Frame.canonical_columns →
  ∃ r, last (rows (Frame.concat_row df (new_row job now))) = Some r
       ∧ Frame.row_get (columns (Frame.concat_row df (new_row job now))) r name
         = Some (default CNaN (Frame.lookup_key name (new_row job now))).
Proof.
  intros Hin. eexists. split; [apply concat_row_last|].
  rewrite row_get_fmap; [done|]. by apply concat_row_columns.
Qed.

(** The row an append adds, read by column name. *)
Lemma appended_row_get df job now :
  ∃ r, last (rows (Frame.concat_row df (new_row job now))) = Some r
       ∧ ∀ name key dflt, (name, key, dflt) ∈ field_defaults now →
           Frame.row_get (columns (Frame.concat_row df (new_row job now))) r name
           = Some (stored_value job key dflt).
Proof.
  eexists. split; [apply concat_row_last|].
  intros name key dflt Hin. unfold field_defaults in Hin.
  repeat (apply elem_of_cons in Hin as [[= -> -> ->]|Hin];
          [rewrite row_get_fmap
             by (apply concat_row_columns; cbn; repeat constructor);
           cbn; unfold dict_get, stored_value; by destruct (job !! _)|]).
  by apply elem_of_nil in Hin.
Qed.

(** What a successful append leaves in the file. *)
Lemma append_stored job w w' :
  append_to_excel env job w = (Ok true, w') →
  ∃ df t,
    clock w ≤ t ≤ clock w' ∧ "URL" ∈ columns df
    ∧ is_duplicate df job = false
    ∧ disk w' = Some (Workbook (Frame.concat_row df (new_row job (today env t)))).
Proof.
  intros Hrun.
  destruct (append_to_excel_run job w) as (r0 & w0 & t & Hrun0 & Ht & _ & Hcase).
  rewrite Hrun in Hrun0. injection Hrun0 as <- <-.
  destruct Hcase as [(? & _)|[(_ & Hdup & Hd)|[((msg & ?) & _)|(? & _)]]];
    try discriminate.
  exists (frame_of env (disk w)), t. repeat split; auto; try lia.
  eapply bool_decide_eq_true_1. apply frame_of_has_url.
Qed.

(** *** Reading back an appended row *)

Lemma loaded_frame_with_url df :
  "URL" ∈ columns df → loaded_frame env df = reread_frame env df.
Proof.
  intros H. unfold loaded_frame, Frame.has_column.
  by rewrite bool_decide_eq_true_2.
Qed.

(** After a successful append, a load at a time the file is free returns a
    table whose last row holds, under each of the seven columns, the cell the
    append stored as [read_excel] reads it back. *)
Lemma reload_after_append job w w1 w2 :
  append_to_excel env job w = (Ok true, w1) →
  disk w2 = disk w1 →
  locked env (clock w2) = false →
  ∃ df w3 r t,
    load_or_create_excel env w2 = (Ok df, w3) ∧ disk w3 = disk w2
    ∧ last (rows df) = Some r ∧ clock w ≤ t ≤ clock w1
    ∧ ∀ name key dflt, (name, key, dflt) ∈ field_defaults (today env t) →
        Frame.row_get (columns df) r name
        = Some (reread env (stored_value job key dflt)).
Proof.
  intros Hrun Hd2 Hfree.
  destruct (append_stored job w w1 Hrun) as (df0 & t & Ht & Hurl & _ & Hd1).
  set (df1 := Frame.concat_row df0 (new_row job (today env t))) in *.
  assert ("URL" ∈ columns df1) as Hurl1 by (by apply concat_row_keeps).
  destruct (load_or_create_excel_free w2) as (w3 & Hload & Hd3 & _);
    [done|by rewrite Hd2, Hd1|].
  rewrite Hd2, Hd1 in Hload, Hd3. cbn in Hload, Hd3.
  rewrite loaded_frame_with_url in Hload by done.
  rewrite stored_frame_id in Hd3 by done.
  destruct (appended_row_get df0 job (today env t)) as (r & Hlast & Hget).
  fold df1 in Hlast, Hget.
  exists (reread_frame env df1), w3, (reread env <$> r), t.
  split; [exact Hload|]. split; [congruence|]. split.
  { unfold reread_frame. cbn [rows]. by rewrite fmap_last, Hlast. }
  split; [exact Ht|]. intros name key dflt Hin. cbn [columns reread_frame].
  by rewrite row_get_reread, (Hget name key dflt Hin).
Qed.

(** *** Duplicate suppression *)

Lemma is_duplicate_after_append df job1 job2 now company title :
  dict_get job1 "company_name" (PStr "") = PStr company →
  dict_get job2 "company_name" (PStr "") = PStr company →
  dict_get job1 "position_title" (PStr "") = PStr title →
  dict_get job2 "position_title" (PStr "") = PStr title →
  infer env company = CStr company →
  infer env title = CStr title →
  is_duplicate (reread_frame env (Frame.concat_row df (new_row job1 now))) job2
  = true.
Proof.
  intros Hc1 Hc2 Ht1 Ht2 Hic Hit. unfold is_duplicate.
  set (df1 := Frame.concat_row df (new_row job1 now)).
  assert ("Company" ∈ columns df1) as Hcol1
    by (apply concat_row_columns; cbn; repeat constructor).
  assert ("Job Title" ∈ columns df1) as Hcol2
    by (apply concat_row_columns; cbn; repeat constructor).
  unfold Frame.has_column. cbn [columns reread_frame].
  rewrite !bool_decide_eq_true_2 by done.
  rewrite (has_column_empty "Company") by (by apply bool_decide_eq_true_2).
  rewrite bool_decide_eq_false_2.
  2:{ cbn. rewrite fmap_app. cbn. by intros ?%app_eq_nil%proj2. }
  cbn [negb andb]. rewrite Hc2, Ht2. cbn [cell_of_pyval].
  unfold duplicate_check. cbn [rows columns reread_frame].
  unfold df1 at 3. cbn [rows Frame.concat_row]. rewrite fmap_app, List.filter_app.
  cbn [fmap list_fmap List.filter].
  fold df1.
  rewrite !row_get_reread, !row_get_fmap by done. cbn.
  rewrite Hc1, Ht1. cbn. rewrite Hic, Hit. cbn. rewrite !String.eqb_refl. cbn.
  by destruct (List.filter _ _).
Qed.

(** X27. Once an append of a record has succeeded, an append of a record
    with the same company and title is refused and writes nothing, provided
    the two texts are read back from the sheet as they were written. *)
Lemma duplicate_suppressed job1 job2 w w1 w2 company title :
  dict_get job1 "company_name" (PStr "") = PStr company →
  dict_get job2 "company_name" (PStr "") = PStr company →
  dict_get job1 "position_title" (PStr "") = PStr title →
  dict_get job2 "position_title" (PStr "") = PStr title →
  infer env company = CStr company →
  infer env title = CStr title →
  append_to_excel env job1 w = (Ok true, w1) →
  disk w2 = disk w1 →
  ∃ r w3,
    append_to_excel env job2 w2 = (r, w3) ∧ disk w3 = disk w2
    ∧ (r = Ok false
       ∨ ((∃ msg, r = Raise (mkExn PermissionError msg))
          ∧ locked env (clock w2) = true)).
Proof.
  intros Hc1 Hc2 Ht1 Ht2 Hic Hit Hrun Hd2.
  destruct (append_stored job1 w w1 Hrun) as (df0 & t & _ & Hurl & _ & Hd1).
  set (df1 := Frame.concat_row df0 (new_row job1 (today env t))) in *.
  assert ("URL" ∈ columns df1) as Hurl1 by (by apply concat_row_keeps).
  destruct (append_to_excel_run job2 w2) as (r & w3 & t' & Hrun2 & _ & _ & Hcase).
  rewrite Hd2, Hd1 in Hcase. cbn [frame_of file_after_load] in Hcase.
  rewrite loaded_frame_with_url, stored_frame_id in Hcase by done.
  subst df1.
  rewrite (is_duplicate_after_append df0 job1 job2 _ company title) in Hcase
    by done.
  exists r, w3. split; [exact Hrun2|].
  destruct Hcase as [(-> & _ & Hd3)|[(_ & ? & _)|[(Hraise & Hd3 & Hheld)|H]]];
    [|discriminate| |by destruct H as (_ & ? & _)].
  - split; [congruence|by left].
  - split; [destruct Hd3; congruence|right; auto].
Qed.

(** The duplicate test reads the company and the title only: the url and
    the other keys play no part. *)
Lemma is_duplicate_two_keys df job1 job2 :
  dict_get job1 "company_name" (PStr "") = dict_get job2 "company_name" (PStr "") →
  dict_get job1 "position_title" (PStr "")
  = dict_get job2 "position_title" (PStr "") →
  is_duplicate df job1 = is_duplicate df job2.
Proof. intros H1 H2. unfold is_duplicate. by rewrite H1, H2. Qed.

(** X28. The round trip of a field: after a successful append, a load at a
    time the file is free returns a table whose last row holds, under each
    of the seven columns, the text the append stored there, for every text
    that [read_excel] reads back as it was written. *)
Lemma round_trip_text job w w1 w2 :
  append_to_excel env job w = (Ok true, w1) →
  disk w2 = disk w1 →
  locked env (clock w2) = false →
  ∃ df w3 r t,
    load_or_create_excel env w2 = (Ok df, w3)
    ∧ last (rows df) = Some r ∧ clock w ≤ t ≤ clock w1
    ∧ ∀ name key dflt v, (name, key, dflt) ∈ field_defaults (today env t) →
        stored_value job key dflt = CStr v →
        infer env v = CStr v →
        Frame.row_get (columns df) r name = Some (CStr v).
Proof.
  intros Hrun Hd Hfree.
  destruct (reload_after_append job w w1 w2 Hrun Hd Hfree)
    as (df & w3 & r & t & Hload & _ & Hlast & Ht & Hget).
  exists df, w3, r, t. repeat split; auto; try lia.
  intros name key dflt v Hin Hv Hi. rewrite (Hget name key dflt Hin), Hv.
  cbn. by rewrite Hi.
Qed.

(** ** The extraction pipeline *)

Lemma fallback_record_fields now :
  fallback_record now !! "status" = Some (PStr "Applied")
  ∧ fallback_record now !! "company_name" = Some (PStr "Could not extract")
  ∧ fallback_record now !! "position_title" = Some (PStr "Could not extract")
  ∧ fallback_record now !! "location" = Some (PStr "Could not extract")
  ∧ fallback_record now !! "job_functions" = Some (PStr "Could not extract")
  ∧ fallback_record now !! "date_applied" = Some (PStr now)
  ∧ fallback_record now !! "url" = None.
Proof. unfold fallback_record. repeat split; by simplify_map_eq. Qed.

(** C4. When the page was fetched and the model answered with a text that,
    once its code fence is stripped, [json.loads] rejects, the extraction
    does not fail: it returns the fallback record, whose four descriptive
    fields are ["Could not extract"], whose status is ["Applied"] and whose
    date is the date of the day; the file is not touched. *)
Theorem fallback_on_undecodable_output (url : string)
    (custom_prompt : option string) (w : world) (page text msg : string) :
  http_get env url = Ok page →
  generate_content env
    (compose_prompt (choose_prompt env custom_prompt) url page
                    (today env (clock w))) = Ok (Some text) →
  json_loads env (strip_fences text) = JSONDecodeError msg →
  ∃ d w',
    extract_job_info env url custom_prompt w = (Ok (JObject d), w')
    ∧ d = fallback_record (today env (clock w))
    ∧ d !! "company_name" = Some (PStr "Could not extract")
    ∧ d !! "position_title" = Some (PStr "Could not extract")
    ∧ d !! "location" = Some (PStr "Could not extract")
    ∧ d !! "job_functions" = Some (PStr "Could not extract")
    ∧ d !! "status" = Some (PStr "Applied")
    ∧ d !! "date_applied" = Some (PStr (today env (clock w)))
    ∧ disk w' = disk w ∧ clock w' = clock w.
Proof.
  intros Hpage Htext Hjson.
  destruct (fallback_record_fields (today env (clock w)))
    as (? & ? & ? & ? & ? & ? & _).
  assert (∃ w', extract_job_info env url custom_prompt w
                = (Ok (JObject (fallback_record (today env (clock w)))), w')
                ∧ disk w' = disk w ∧ clock w' = clock w)
    as (w' & Hrun & Hd & Hc).
  { eexists. split.
    - unfold extract_job_info. eapply run_try_ok.
      erewrite run_bind_ok by reflexivity.
      erewrite run_bind_ok; cycle 1.
      { unfold fetch_webpage_content. eapply run_try_ok. unfold lift.
        rewrite Hpage. reflexivity. }
      erewrite run_bind_ok by reflexivity.
      erewrite run_bind_ok by reflexivity.
      erewrite run_bind_ok; cycle 1.
      { unfold lift. cbn [clock]. rewrite Htext. reflexivity. }
      cbn match. rewrite Hjson.
      erewrite run_bind_ok by reflexivity.
      erewrite run_bind_ok by reflexivity.
      unfold fallback_extraction. erewrite run_bind_ok by reflexivity.
      reflexivity.
    - cbn. split; reflexivity. }
  exists (fallback_record (today env (clock w))), w'. repeat split; auto.
Qed.

(** C5. [process_job_url] returns a result dictionary for every input and
    world and never raises, and what the extraction and the append did
    decides the dictionary. When the extraction returned a dictionary and
    the append returned, [success] is the answer of the append, [job_info]
    is the dictionary with the url of the call, there is no [error] key, and
    the message is the success message or, for a duplicate,
    ["URL already exists in spreadsheet"]. When the extraction raised, or
    returned a value that is not a dictionary (so that the assignment of its
    [url] raised), or the append raised, [success] is false, [error] is the
    text of that exception, and there is no [job_info] key. So, with
    [success] false, the [error] key is there exactly when something raised,
    and missing exactly when the append answered that the record exists. *)
Theorem process_job_url_total (url : string) (custom_prompt : option string)
    (w : world) :
  let failure (e : exn) :=
    {| p_success := false; p_job_info := None; p_message := failed_msg;
       p_error := Some (exn_msg e) |} in
  ∃ res w',
    process_job_url env url custom_prompt w = (Ok res, w')
    ∧ match extract_job_info env url custom_prompt w with
      | (Ok (JObject d), w1) =>
          match append_to_excel env (<["url" := PStr url]> d) w1 with
          | (Ok added, w2) =>
              res = {| p_success := added;
                       p_job_info := Some (<["url" := PStr url]> d);
                       p_message := if added then added_msg else exists_msg;
                       p_error := None |}
              ∧ disk w' = disk w2
          | (Raise e, w2) => res = failure e ∧ disk w' = disk w2
          end
      | (Ok (JOther v), w1) =>
          res = failure (mkExn TypeError (item_assignment_error v))
          ∧ disk w' = disk w1
      | (Raise e, w1) => res = failure e ∧ disk w' = disk w1
      end
    ∧ PyStr.contains "already exists" exists_msg = true
    ∧ (p_success res = false →
       (is_Some (p_error res) ↔ p_message res = failed_msg)
       ∧ (p_error res = None ↔ p_message res = exists_msg)).
Proof.
  intros failure.
  assert ((if PyStr.truthy url then url else "") = url) as Hurl
    by (by destruct url).
  assert (∃ res w',
    process_job_url env url custom_prompt w = (Ok res, w')
    ∧ match extract_job_info env url custom_prompt w with
      | (Ok (JObject d), w1) =>
          match append_to_excel env (<["url" := PStr url]> d) w1 with
          | (Ok added, w2) =>
              res = {| p_success := added;
                       p_job_info := Some (<["url" := PStr url]> d);
                       p_message := if added then added_msg else exists_msg;
                       p_error := None |}
              ∧ disk w' = disk w2
          | (Raise e, w2) => res = failure e ∧ disk w' = disk w2
          end
      | (Ok (JOther v), w1) =>
          res = failure (mkExn TypeError (item_assignment_error v))
          ∧ disk w' = disk w1
      | (Raise e, w1) => res = failure e ∧ disk w' = disk w1
      end) as (res & w' & Hrun & Hres).
  { destruct (extract_job_info env url custom_prompt w) as [[[d|v]|e] w1] eqn:He.
    - destruct (append_to_excel env (<["url" := PStr url]> d) w1)
        as [[added|e] w2] eqn:Ha.
      + eexists _, _. split; [|split; reflexivity].
        unfold process_job_url. rewrite Hurl. eapply run_try_ok.
        erewrite run_bind_ok by exact He.
        erewrite run_bind_ok by reflexivity.
        erewrite run_bind_ok by exact Ha. reflexivity.
      + eexists _, _. split.
        { unfold process_job_url. rewrite Hurl. erewrite run_try_raise; cycle 1.
          { erewrite run_bind_ok by exact He.
            erewrite run_bind_ok by reflexivity.
            erewrite run_bind_raise by exact Ha. reflexivity. }
          erewrite run_bind_ok by reflexivity. reflexivity. }
        split; reflexivity.
    - eexists _, _. split.
      { unfold process_job_url. erewrite run_try_raise; cycle 1.
        { erewrite run_bind_ok by exact He.
          erewrite run_bind_raise by reflexivity. reflexivity. }
        erewrite run_bind_ok by reflexivity. reflexivity. }
      split; reflexivity.
    - eexists _, _. split.
      { unfold process_job_url. erewrite run_try_raise; cycle 1.
        { erewrite run_bind_raise by exact He. reflexivity. }
        erewrite run_bind_ok by reflexivity. reflexivity. }
      split; reflexivity. }
  exists res, w'. split; [exact Hrun|]. split; [exact Hres|].
  split; [vm_compute; reflexivity|]. intros Hfalse.
  assert (failed_msg ≠ exists_msg) as Hne by (vm_compute; discriminate).
  assert (∀ e, (is_Some (p_error (failure e)) ↔ p_message (failure e) = failed_msg)
               ∧ (p_error (failure e) = None
                  ↔ p_message (failure e) = exists_msg)) as Hfailure.
  { intros e. cbn. split; split; try done; eauto. }
  destruct (extract_job_info env url custom_prompt w) as [[[d|v]|e] w1].
  - destruct (append_to_excel env (<["url" := PStr url]> d) w1)
      as [[added|e] w2]; destruct Hres as [-> _]; [|apply Hfailure].
    cbn in Hfalse. subst added. cbn.
    split; split; try done; try (by intros [? ?]); intros H; by destruct Hne.
  - destruct Hres as [-> _]. apply Hfailure.
  - destruct Hres as [-> _]. apply Hfailure.
Qed.

End StoreProofs.

(** * More of the code *)

(** ** Facts about Python strings *)

Module PyStrFacts.

Import PyStr.

#[local] Arguments String.append : simpl nomatch.

Lemma app_nil_r (s : string) : s +:+ "" = s.
Proof. induction s as [|c s IH]; cbn; [done|]. by rewrite IH. Qed.

Lemma app_assoc (a b c : string) : (a +:+ b) +:+ c = a +:+ (b +:+ c).
Proof. induction a as [|x a IH]; cbn; [done|]. by rewrite IH. Qed.

Lemma length_app (a b : string) :
  String.length (a +:+ b) = (String.length a + String.length b)%nat.
Proof. induction a as [|x a IH]; cbn; [done|]. by rewrite IH. Qed.

Lemma rev_app_spec (a b : string) : String.rev_app a b = String.rev a +:+ b.
Proof.
  revert b. unfold String.rev.
  induction a as [|x a IH]; intros b; cbn; [done|].
  rewrite IH, (IH (String x "")), app_assoc. reflexivity.
Qed.

Lemma rev_cons (c : ascii) (s : string) :
  String.rev (String c s) = String.rev s +:+ String c "".
Proof. unfold String.rev at 1. cbn. apply rev_app_spec. Qed.

Lemma rev_app (a b : string) :
  String.rev (a +:+ b) = String.rev b +:+ String.rev a.
Proof.
  induction a as [|x a IH]; cbn [String.append].
  - by rewrite app_nil_r.
  - by rewrite !rev_cons, IH, app_assoc.
Qed.

Lemma rev_involutive (s : string) : String.rev (String.rev s) = s.
Proof.
  induction s as [|c s IH]; [done|]. by rewrite rev_cons, rev_app, IH.
Qed.






(** [lstrip] removes a prefix of whitespace. *)
Lemma lstrip_split (s : string) :
  ∃ ws, s = ws +:+ lstrip s ∧ lstrip ws = "".
Proof.
  induction s as [|c s (ws & Hs & Hws)]; [by exists ""|].
  cbn. destruct (is_space c) eqn:Hc.
  - exists (String c ws). cbn. rewrite Hc. split; [by rewrite <- Hs|done].
  - by exists "".
Qed.

Lemma lstrip_idemp (s : string) : lstrip (lstrip s) = lstrip s.
Proof.
  induction s as [|c s IH]; [done|]. cbn.
  destruct (is_space c) eqn:Hc; [exact IH|]. cbn. by rewrite Hc.
Qed.

Lemma lstrip_app (a b : string) :
  lstrip (a +:+ b)
  = match lstrip a with
    | "" => lstrip b
    | String _ _ => lstrip a +:+ b
    end.
Proof.
  induction a as [|c a IH]; cbn; [done|].
  destruct (is_space c); [exact IH|done].
Qed.

Lemma lstrip_blank_rev (ws : string) :
  lstrip ws = "" → lstrip (String.rev ws) = "".
Proof.
  induction ws as [|c ws IH]; [done|]. cbn [lstrip].
  destruct (is_space c) eqn:Hc; [|done]. intros H.
  rewrite rev_cons, lstrip_app, (IH H). cbn. by rewrite Hc.
Qed.

(** [rstrip] removes a suffix of whitespace. *)
Lemma rstrip_split (s : string) :
  ∃ ws, s = rstrip s +:+ ws ∧ lstrip ws = "".
Proof.
  destruct (lstrip_split (String.rev s)) as (ws & Hs & Hws).
  exists (String.rev ws). split; [|by apply lstrip_blank_rev].
  unfold rstrip. rewrite <- rev_app, <- Hs. by rewrite rev_involutive.
Qed.

Lemma rstrip_idemp (s : string) : rstrip (rstrip s) = rstrip s.
Proof. unfold rstrip. by rewrite rev_involutive, lstrip_idemp. Qed.



(** A text without leading whitespace keeps none when its end is stripped. *)
Lemma lstrip_rstrip (s : string) : lstrip s = s → lstrip (rstrip s) = rstrip s.
Proof.
  intros Hs. destruct (rstrip_split s) as (ws & Hsplit & _).
  destruct (rstrip s) as [|c r] eqn:Hr; [done|].
  rewrite Hsplit in Hs. cbn in Hs. cbn.
  destruct (is_space c) eqn:Hc; [|done].
  exfalso. destruct (lstrip_split (r +:+ ws)) as (ws' & H1 & _).
  apply (f_equal String.length) in Hs. rewrite H1 in Hs at 2.
  cbn in Hs. rewrite length_app in Hs. lia.
Qed.

Lemma strip_idemp (s : string) : strip (strip s) = strip s.
Proof.
  unfold strip. rewrite (lstrip_rstrip (lstrip s)) by apply lstrip_idemp.
  apply rstrip_idemp.
Qed.


End PyStrFacts.

(** ** The cleaning of the model's answer *)

Section Fences.

Import PyStr PyStrFacts.

#[local] Arguments String.append : simpl nomatch.


(** X2. A text that, once stripped, neither starts with the opening fence nor
    ends with the closing one is only stripped. *)
Theorem strip_fences_bare (text : string) :
  startswith "```json" (strip text) = false →
  endswith "```" (strip text) = false →
  strip_fences text = strip text.
Proof.
  intros Hopen Hclose. unfold strip_fences. rewrite Hopen, Hclose.
  apply strip_idemp.
Qed.

(** X3. Whatever the answer, the cleaned text has no whitespace left at
    either end. *)
Theorem strip_fences_clean (text : string) :
  lstrip (strip_fences text) = strip_fences text
  ∧ rstrip (strip_fences text) = strip_fences text.
Proof.
  unfold strip_fences.
  match goal with |- context [strip ?t] => generalize t end. intros t. split.
  - unfold strip. apply lstrip_rstrip, lstrip_idemp.
  - unfold strip. apply rstrip_idemp.
Qed.

End Fences.

(** ** The API key *)

(** X4. [__init__] takes the first of: the key passed, the default key of
    the module (unless empty or the placeholder), [GEMINI_API_KEY],
    [GOOGLE_API_KEY], an empty string counting as no key; the key it settles
    on is never empty, and it raises [ValueError] exactly when all four are
    missing. *)
Theorem init_api_key_priority (default_key : string)
    (api_key gemini_api_key google_api_key : option string) :
  match init_api_key default_key api_key gemini_api_key google_api_key with
  | Ok chosen =>
      truthy_opt chosen = true
      ∧ chosen =
          (if truthy_opt api_key then api_key
           else if default_key_set default_key then Some default_key
           else if truthy_opt gemini_api_key then gemini_api_key
           else google_api_key)
  | Raise e =>
      e = mkExn ValueError no_key_msg
      ∧ truthy_opt api_key = false ∧ default_key_set default_key = false
      ∧ truthy_opt gemini_api_key = false ∧ truthy_opt google_api_key = false
  end.
Proof.
  unfold init_api_key, py_or.
  destruct (truthy_opt api_key) eqn:Ha; cbn; [by rewrite Ha|].
  destruct (default_key_set default_key) eqn:Hd.
  - unfold default_key_set in Hd. apply andb_true_iff in Hd as [Hd _].
    cbn. by rewrite Hd.
  - destruct (truthy_opt gemini_api_key) eqn:Hg; cbn; [by rewrite Hg|].
    destruct (truthy_opt google_api_key) eqn:Hg'; cbn; by rewrite ?Hg'.
Qed.

(** X5. The key [check_api_key] of the application reports is the key
    [JobExtractor()] settles on when no key is passed, and it reports none
    exactly when the constructor raises. *)
Theorem check_api_key_agrees (default_key : string)
    (gemini_api_key google_api_key : option string) :
  init_api_key default_key None gemini_api_key google_api_key
  = match fst (check_api_key default_key gemini_api_key google_api_key) with
    | Some key => Ok (Some key)
    | None => Raise (mkExn ValueError no_key_msg)
    end.
Proof.
  unfold init_api_key, check_api_key. cbn [truthy_opt].
  destruct (default_key_set default_key) eqn:Hd.
  - unfold default_key_set in Hd. apply andb_true_iff in Hd as [Hd _].
    cbn. by rewrite Hd.
  - destruct (truthy_opt (py_or gemini_api_key google_api_key)) eqn:Hk; cbn.
    + by destruct (py_or gemini_api_key google_api_key).
    + reflexivity.
Qed.

Section MoreStore.

Context (env : Env).

(** ** Waiting for the lock *)

(** The loop when every poll finds the file held: the time it takes. *)
Lemma wait_loop_held fuel : ∀ wait_time max_wait w,
  (Z.to_nat (max_wait - wait_time) ≤ fuel)%nat →
  (∀ j, 0 ≤ j → wait_time + 2 * j < max_wait →
        locked env (clock w + 2 * j) = true) →
  ∃ w', wait_loop env fuel wait_time max_wait w = (Ok false, w')
        ∧ disk w' = disk w
        ∧ clock w' = clock w + 2 * Z.max 0 ((max_wait - wait_time + 1) / 2).
Proof.
  induction fuel as [|fuel IH]; intros wt mx w Hfuel Hheld.
  - exists w. cbn. repeat split.
    assert ((mx - wt + 1) / 2 < 1) by (apply Z.div_lt_upper_bound; lia). lia.
  - cbn [wait_loop]. destruct (Z.ltb_spec wt mx) as [Hlt|Hge].
    + unfold mbind at 1, M_bind at 1. rewrite is_file_locked_run.
      assert (locked env (clock w) = true) as Hnow.
      { specialize (Hheld 0). rewrite Z.mul_0_r, !Z.add_0_r in Hheld.
        apply Hheld; lia. }
      rewrite Hnow. cbn [negb].
      destruct (IH (wt + 2) mx
                  {| clock := clock w + 2; disk := disk w;
                     logs := logs w ++ [(Info, waiting_msg wt mx)] |})
        as (w' & Hrun & Hd & Hc); [lia| |].
      { intros j Hj Hlt'. cbn.
        replace (clock w + 2 + 2 * j) with (clock w + 2 * (j + 1)) by lia.
        apply Hheld; lia. }
      exists w'. split; [exact Hrun|]. split; [exact Hd|].
      rewrite Hc. cbn.
      replace (mx - wt + 1) with ((mx - (wt + 2) + 1) + 1 * 2) by lia.
      rewrite Z.div_add by lia.
      assert (0 ≤ (mx - (wt + 2) + 1) / 2) by (apply Z.div_pos; lia). lia.
    + exists w. repeat split.
      assert ((mx - wt + 1) / 2 < 1) by (apply Z.div_lt_upper_bound; lia). lia.
Qed.

Lemma wait_held max_wait w :
  (∀ j, 0 ≤ j → 2 * j < max_wait → locked env (clock w + 2 * j) = true) →
  ∃ w', wait_for_file_unlock env max_wait w = (Ok false, w')
        ∧ disk w' = disk w
        ∧ clock w' = clock w + 2 * Z.max 0 ((max_wait + 1) / 2).
Proof.
  intros Hheld. unfold wait_for_file_unlock.
  destruct (wait_loop_held (Z.to_nat max_wait) 0 max_wait w) as (w' & H);
    [lia|exact Hheld|].
  exists w'. by rewrite Z.sub_0_r in H.
Qed.

(** X6. With the file free at the call, the wait answers at once, and its
    answer is whether the budget is positive: with a budget of zero or less
    it answers [false] without a single poll. *)
Theorem wait_on_free_file (max_wait : Z) (w : world) :
  locked env (clock w) = false →
  wait_for_file_unlock env max_wait w
  = (Ok (0 <? max_wait),
     if 0 <? max_wait then set_disk (touched (disk w)) w else w).
Proof.
  intros Hfree. unfold wait_for_file_unlock.
  destruct (Z.ltb_spec 0 max_wait) as [Hpos|Hneg].
  - destruct (Z.to_nat max_wait) as [|fuel] eqn:Hf; [lia|].
    cbn [wait_loop]. rewrite (proj2 (Z.ltb_lt 0 max_wait) Hpos).
    unfold mbind, M_bind. rewrite is_file_locked_run, Hfree. reflexivity.
  - destruct (Z.to_nat max_wait) as [|fuel] eqn:Hf; [reflexivity|lia].
Qed.

(** ** Loading *)


(** X7. Where there is no file, a load returns the empty table with the
    seven canonical columns, at once and whoever holds the path, and creates
    no file: the log line [Created new Excel file structure] is about the
    table in memory. *)
Theorem load_absent (w : world) :
  disk w = None →
  ∃ w', load_or_create_excel env w = (Ok Frame.new_frame, w')
        ∧ disk w' = None ∧ clock w' = clock w
        ∧ logs w' = logs w ++ [(Info, "Created new Excel file structure")].
Proof.
  destruct w as [t dk lg]. cbn. intros ->. eexists. split; [reflexivity|].
  cbn. auto.
Qed.

(** X8. The table a load returns always has the [URL] column. For a
    workbook it has the rows of the workbook, as many and in their order,
    and the columns of the workbook followed by [URL] if it was missing; the
    workbook the load leaves has these columns and as many rows. For any
    other file, or none, it is the empty canonical table and the file is
    left as it is. *)
Theorem load_shape (w w' : world) (df : DataFrame) :
  load_or_create_excel env w = (Ok df, w') →
  "URL" ∈ columns df
  ∧ match disk w with
    | Some (Workbook old) =>
        length (rows df) = length (rows old)
        ∧ columns df
          = columns old ++ (if Frame.has_column "URL" old then [] else ["URL"])
        ∧ ∃ new, disk w' = Some (Workbook new)
                 ∧ columns new = columns df
                 ∧ length (rows new) = length (rows old)
    | _ => df = Frame.new_frame ∧ disk w' = disk w
    end.
Proof.
  intros Hrun.
  destruct (load_or_create_excel_run env w) as (r & w0 & Hrun0 & _ & Hcase).
  rewrite Hrun in Hrun0. injection Hrun0 as <- <-.
  destruct Hcase as [(? & _)|[(Hdf & Hd & _)|(? & _)]]; [discriminate| |discriminate].
  injection Hdf as ->. split.
  { eapply bool_decide_eq_true_1. apply frame_of_has_url. }
  destruct (disk w) as [[bytes|old|]|]; cbn in *; auto.
  unfold stored_frame, loaded_frame in *.
  destruct (Frame.has_column "URL" old) eqn:Hurl; cbn.
  - rewrite length_fmap, app_nil_r. repeat split. eexists. split; [exact Hd|].
    done.
  - rewrite !length_fmap. repeat split. eexists. split; [exact Hd|].
    cbn. by rewrite !length_fmap.
Qed.


(** ** Appending *)

Lemma frame_of_len_nat df :
  length (rows (loaded_frame env df)) = length (rows df).
Proof.
  unfold loaded_frame.
  destruct (Frame.has_column "URL" df); cbn; by rewrite !length_fmap.
Qed.

Lemma is_duplicate_no_rows df job : rows df = [] → is_duplicate df job = false.
Proof. intros H. unfold is_duplicate, Frame.empty. by rewrite H. Qed.

Lemma is_duplicate_no_column df job :
  "Company" ∉ columns df ∨ "Job Title" ∉ columns df →
  is_duplicate df job = false.
Proof.
  intros H. unfold is_duplicate, Frame.has_column.
  destruct H as [H|H]; rewrite (bool_decide_eq_false_2 _ H);
    by rewrite ?andb_false_r.
Qed.

(** The frame with its new row when it has the seven columns already. *)
Lemma concat_row_full df job now :
  (∀ c, c ∈ Frame.canonical_columns → c ∈ columns df) →
  Frame.concat_row df (new_row job now)
  = {| columns := columns df;
       rows := rows df
               ++ [(λ c, default CNaN (Frame.lookup_key c (new_row job now)))
                   <$> columns df] |}.
Proof.
  intros Hall. unfold Frame.concat_row. cbn [fmap list_fmap new_row fst].
  cbn [List.filter].
  rewrite !bool_decide_eq_true_2
    by (apply Hall; unfold Frame.canonical_columns; repeat constructor).
  cbn [negb fmap list_fmap]. rewrite app_nil_r. f_equal. f_equal.
  rewrite <- (list_fmap_id (rows df)) at 2. apply list_fmap_ext.
  intros i r _. cbn. apply app_nil_r.
Qed.

(** An append when nothing holds the path at the call: it runs at once. *)
Lemma append_free_run job w :
  locked env (clock w) = false →
  unreadable (disk w) = false →
  ∃ w',
    append_to_excel env job w
      = (Ok (negb (is_duplicate (frame_of env (disk w)) job)), w')
    ∧ clock w' = clock w
    ∧ disk w' =
        if is_duplicate (frame_of env (disk w)) job
        then file_after_load env (disk w)
        else Some (Workbook
               (Frame.concat_row (frame_of env (disk w))
                                 (new_row job (today env (clock w))))).
Proof.
  intros Hfree Hread.
  assert (∃ w', append_row env job w
                = (Ok (negb (is_duplicate (frame_of env (disk w)) job)), w')
              ∧ clock w' = clock w
              ∧ disk w' =
                  if is_duplicate (frame_of env (disk w)) job
                  then file_after_load env (disk w)
                  else Some (Workbook
                         (Frame.concat_row (frame_of env (disk w))
                                           (new_row job (today env (clock w))))))
    as (w' & Hrow & Hc & Hd).
  { destruct (load_or_create_excel_free env w) as (w1 & Hload & Hd1 & Hc1 & _);
      [done|done|].
    unfold append_row. erewrite run_bind_ok by exact Hload.
    erewrite run_bind_ok by reflexivity. rewrite Hc1.
    destruct (is_duplicate (frame_of env (disk w)) job).
    - erewrite run_bind_ok by reflexivity. eexists. split; [reflexivity|].
      cbn. auto.
    - cbn zeta.
      match goal with |- context [save_with_retry env _ ?d] =>
        destruct (save_attempt_free env 0 [1; 2] d w1)
          as (w2 & Hs & Hd2 & Hc2 & _) end;
        [by rewrite Hc1|by rewrite Hd1, unreadable_after_load|].
      erewrite run_bind_ok by exact Hs. exists w2.
      split; [reflexivity|]. split; [congruence|exact Hd2]. }
  exists w'. split; [|auto]. unfold append_to_excel. eapply run_try_ok.
  erewrite run_bind_ok by reflexivity.
  destruct (disk w) as [f|] eqn:Hdk.
  - rewrite bool_decide_eq_true_2 by eauto.
    erewrite run_bind_ok by (by eapply is_file_locked_present).
    rewrite Hfree. erewrite run_bind_ok by reflexivity. exact Hrow.
  - rewrite bool_decide_eq_false_2 by (by intros [? ?]).
    erewrite run_bind_ok by reflexivity.
    erewrite run_bind_ok by reflexivity. exact Hrow.
Qed.

(** X10. The first append, where there is no file and nothing holds the path,
    creates the workbook: the seven canonical columns and one row, the
    values of the record (or their defaults) in the order of the columns. *)
Theorem append_creates_table (job : gmap string pyval) (w : world) :
  disk w = None →
  locked env (clock w) = false →
  ∃ w', append_to_excel env job w = (Ok true, w')
        ∧ clock w' = clock w
        ∧ disk w' = Some (Workbook
            {| columns := Frame.canonical_columns;
               rows := [snd <$> new_row job (today env (clock w))] |}).
Proof.
  intros Hd Hfree.
  destruct (append_free_run job w Hfree) as (w' & Hrun & Hc & Hd');
    [by rewrite Hd|].
  rewrite Hd in Hrun, Hd'. cbn [frame_of] in Hrun, Hd'.
  rewrite (is_duplicate_no_rows Frame.new_frame) in Hrun, Hd' by done.
  exists w'. split; [exact Hrun|]. split; [exact Hc|]. exact Hd'.
Qed.

(** X11. An append to a workbook that has the seven columns, with the file
    free: it answers whether the record is new; a new record becomes the
    last row of the table as loaded, whose rows keep their places and whose
    columns are unchanged, and a duplicate leaves the file as it is. *)
Theorem append_to_full_table (job : gmap string pyval) (w : world)
    (old : DataFrame) :
  disk w = Some (Workbook old) →
  locked env (clock w) = false →
  (∀ c, c ∈ Frame.canonical_columns → c ∈ columns old) →
  ∃ w',
    append_to_excel env job w
      = (Ok (negb (is_duplicate (reread_frame env old) job)), w')
    ∧ disk w' = Some (Workbook
        (if is_duplicate (reread_frame env old) job then old
         else {| columns := columns old;
                 rows := rows (reread_frame env old)
                         ++ [(λ c, default CNaN
                                     (Frame.lookup_key c
                                        (new_row job (today env (clock w)))))
                             <$> columns old] |})).
Proof.
  intros Hd Hfree Hall.
  assert ("URL" ∈ columns old) as Hurl
    by (apply Hall; unfold Frame.canonical_columns; repeat constructor).
  destruct (append_free_run job w Hfree) as (w' & Hrun & _ & Hd');
    [by rewrite Hd|].
  rewrite Hd in Hrun, Hd'. cbn [frame_of file_after_load] in Hrun, Hd'.
  rewrite loaded_frame_with_url in Hrun, Hd' by done.
  exists w'. split; [exact Hrun|]. rewrite Hd'.
  destruct (is_duplicate (reread_frame env old) job).
  - by rewrite stored_frame_id.
  - by rewrite concat_row_full.
Qed.

(** X13. A record is never taken for a duplicate in a table that lacks the
    [Company] or the [Job Title] column: with the file free the append adds
    it, and the table it writes has both columns. *)
Theorem append_without_key_column (job : gmap string pyval) (w : world)
    (old : DataFrame) :
  disk w = Some (Workbook old) →
  locked env (clock w) = false →
  "Company" ∉ columns old ∨ "Job Title" ∉ columns old →
  ∃ w' new,
    append_to_excel env job w = (Ok true, w')
    ∧ disk w' = Some (Workbook new)
    ∧ "Company" ∈ columns new ∧ "Job Title" ∈ columns new
    ∧ length (rows new) = S (length (rows old)).
Proof.
  intros Hd Hfree Hmissing.
  assert (is_duplicate (frame_of env (disk w)) job = false) as Hdup.
  { apply is_duplicate_no_column. rewrite Hd. cbn. unfold loaded_frame.
    destruct (Frame.has_column "URL" old); cbn; [done|].
    destruct Hmissing as [H|H]; [left|right]; intros Hin;
      apply elem_of_app in Hin as [Hin|Hin]; try done;
      apply list_elem_of_singleton in Hin; discriminate. }
  destruct (append_free_run job w Hfree) as (w' & Hrun & _ & Hd');
    [by rewrite Hd|].
  rewrite Hdup in Hrun, Hd'. eexists w', _.
  split; [exact Hrun|]. split; [exact Hd'|].
  split; [apply concat_row_columns; cbn; repeat constructor|].
  split; [apply concat_row_columns; cbn; repeat constructor|].
  rewrite concat_row_length, Hd. cbn. by rewrite frame_of_len_nat.
Qed.

(** *** Giving up *)

Lemma save_attempt_wait attempt rest df w :
  (attempt <? max_retries - 1) = true →
  (∀ j, 0 ≤ j → 2 * j < 10 → locked env (clock w + 2 * j) = true) →
  ∃ w1, save_with_retry env (attempt :: rest) df w
          = save_with_retry env rest df w1
        ∧ disk w1 = disk w ∧ clock w1 = clock w + 10.
Proof.
  intros Hretry Hheld.
  assert (locked env (clock w) = true) as Hnow.
  { specialize (Hheld 0). rewrite Z.mul_0_r, Z.add_0_r in Hheld.
    apply Hheld; lia. }
  destruct (wait_held 10
              {| clock := clock w; disk := disk w;
                 logs := logs w ++ [(Warning,
                   "Permission denied on attempt "
                   +:+ PyStr.of_int (attempt + 1) +:+ ", retrying...")] |})
    as (w1 & Hrun & Hd & Hc); [exact Hheld|].
  exists w1. cbn in Hd, Hc. split; [|split; [exact Hd|by rewrite Hc]].
  cbn [save_with_retry]. erewrite run_bind_ok; cycle 1.
  { erewrite run_try_raise
      by (erewrite run_bind_raise by (by apply to_excel_held); reflexivity).
    unfold is_a. cbn [exn_kind]. rewrite bool_decide_eq_true_2 by done.
    rewrite Hretry. erewrite run_bind_ok by reflexivity.
    erewrite run_bind_ok by exact Hrun. reflexivity. }
  reflexivity.
Qed.

(** The three attempts when the path is held throughout. *)
Lemma save_held df w :
  (∀ j, 0 ≤ j ≤ 10 → locked env (clock w + 2 * j) = true) →
  ∃ w', save_with_retry env [0; 1; 2] df w
          = (Raise (mkExn PermissionError cannot_save_msg), w')
        ∧ disk w' = disk w ∧ clock w' = clock w + 20.
Proof.
  intros Hheld.
  destruct (save_attempt_wait 0 [1; 2] df w eq_refl)
    as (w1 & -> & Hd1 & Hc1); [intros; apply Hheld; lia|].
  destruct (save_attempt_wait 1 [2] df w1 eq_refl)
    as (w2 & -> & Hd2 & Hc2).
  { intros j ? ?. rewrite Hc1.
    replace (clock w + 10 + 2 * j) with (clock w + 2 * (j + 5)) by lia.
    apply Hheld; lia. }
  rewrite (save_attempt_last env 2 [] df w2); [|  |reflexivity].
  - exists w2. split; [reflexivity|]. split; [congruence|lia].
  - rewrite Hc2, Hc1.
    replace (clock w + 10 + 10) with (clock w + 2 * 10) by lia.
    apply Hheld; lia.
Qed.

(** X14. An append to a file that exists and is held at each of the fifteen
    polls of the wait gives up after 30 units with a [PermissionError] that
    asks to close the file; it has not read the file nor written to it. *)
Theorem append_gives_up_on_held_file (job : gmap string pyval) (w : world) :
  is_Some (disk w) →
  (∀ j, 0 ≤ j → 2 * j < 30 → locked env (clock w + 2 * j) = true) →
  ∃ w', append_to_excel env job w
          = (Raise (mkExn PermissionError cannot_write_msg), w')
        ∧ disk w' = disk w ∧ clock w' = clock w + 30.
Proof.
  intros [f Hd] Hheld.
  assert (locked env (clock w) = true) as Hnow.
  { specialize (Hheld 0). rewrite Z.mul_0_r, Z.add_0_r in Hheld.
    apply Hheld; lia. }
  destruct (wait_held 30
              {| clock := clock w; disk := disk w;
                 logs := logs w ++ [(Warning,
                   "Excel file '" +:+ excel_file
                   +:+ "' is currently open/locked")] |})
    as (w1 & Hrun & Hd1 & Hc1); [exact Hheld|].
  exists w1. cbn in Hd1, Hc1. split; [|split; [exact Hd1|by rewrite Hc1]].
  unfold append_to_excel. erewrite run_try_raise; cycle 1.
  { erewrite run_bind_ok by reflexivity. rewrite Hd.
    rewrite bool_decide_eq_true_2 by eauto.
    erewrite run_bind_ok by (by eapply is_file_locked_present).
    rewrite Hnow.
    rewrite run_bind_assoc. erewrite run_bind_ok by reflexivity.
    rewrite run_bind_assoc.
    erewrite run_bind_ok by exact Hrun. cbn [negb].
    erewrite run_bind_raise by reflexivity. reflexivity. }
  reflexivity.
Qed.

(** X15. The first append, where there is no file and the path is held for
    the 20 units that follow, makes three attempts to write, waits 10 units
    after the first and after the second, and gives up after the third with
    a [PermissionError]; no file is created. *)
Theorem append_gives_up_on_held_path (job : gmap string pyval) (w : world) :
  disk w = None →
  (∀ j, 0 ≤ j ≤ 10 → locked env (clock w + 2 * j) = true) →
  ∃ w', append_to_excel env job w
          = (Raise (mkExn PermissionError cannot_save_msg), w')
        ∧ disk w' = None ∧ clock w' = clock w + 20.
Proof.
  intros Hd Hheld.
  destruct (load_or_create_excel_free env w) as (w1 & Hload & Hd1 & Hc1 & _).
  { rewrite Hd. by intros [? ?]. }
  { by rewrite Hd. }
  rewrite Hd in Hload, Hd1. cbn [frame_of file_after_load] in Hload, Hd1.
  match goal with |- context [append_to_excel env job w] =>
    destruct (save_held
                (Frame.concat_row Frame.new_frame
                   (new_row job (today env (clock w1)))) w1)
      as (w2 & Hsave & Hd2 & Hc2) end.
  { intros j Hj. rewrite Hc1. by apply Hheld. }
  exists w2. split; [|split; [congruence|lia]].
  unfold append_to_excel. erewrite run_try_raise; cycle 1.
  { erewrite run_bind_ok by reflexivity. rewrite Hd.
    rewrite bool_decide_eq_false_2 by (by intros [? ?]).
    erewrite run_bind_ok by reflexivity.
    erewrite run_bind_ok by reflexivity.
    unfold append_row. erewrite run_bind_ok by exact Hload.
    erewrite run_bind_ok by reflexivity.
    rewrite (is_duplicate_no_rows Frame.new_frame) by done. cbn zeta.
    erewrite run_bind_raise by exact Hsave. reflexivity. }
  reflexivity.
Qed.

(** ** The pipeline *)

#[local] Arguments compose_prompt : simpl never.

Lemma extract_job_info_frame (url : string) (custom_prompt : option string)
    (w : world) :
  disk (snd (extract_job_info env url custom_prompt w)) = disk w
  ∧ clock (snd (extract_job_info env url custom_prompt w)) = clock w
  ∧ log_extends w (snd (extract_job_info env url custom_prompt w)).
Proof.
  unfold extract_job_info, fetch_webpage_content, fallback_extraction,
    try_except, lift, log, raise, reraise, strftime_now, mbind, M_bind, mret,
    M_ret, log_extends.
  cbn. destruct (http_get env url) as [page|e]; cbn.
  - destruct (generate_content env _) as [[text|]|e]; cbn;
      [destruct (json_loads env _); cbn| |];
      repeat split; eexists; rewrite <- ?app_assoc; reflexivity.
  - destruct (is_a RequestException e); cbn;
      repeat split; eexists; rewrite <- ?app_assoc; reflexivity.
Qed.

(** X16. The extraction never touches the store: whatever the page, the
    model and the decoder do, and whether it returns or raises, it leaves
    the file and the clock as they were and only adds to the log. *)
Theorem extract_leaves_store (url : string) (custom_prompt : option string)
    (w : world) (r : outcome json) (w' : world) :
  extract_job_info env url custom_prompt w = (r, w') →
  disk w' = disk w ∧ clock w' = clock w ∧ log_extends w w'.
Proof.
  intros H. pose proof (extract_job_info_frame url custom_prompt w) as Hf.
  by rewrite H in Hf.
Qed.

(** X17. When the fetch of the page fails, [process_job_url] returns the
    failure dictionary whose [error] is the text of the exception the fetch
    raised, and the store is untouched. *)
Theorem process_fetch_failure (url : string) (custom_prompt : option string)
    (w : world) (e : exn) :
  http_get env url = Raise e →
  ∃ w',
    process_job_url env url custom_prompt w
      = (Ok {| p_success := false; p_job_info := None;
               p_message := failed_msg; p_error := Some (exn_msg e) |}, w')
    ∧ disk w' = disk w ∧ clock w' = clock w.
Proof.
  intros Hfetch.
  unfold process_job_url, extract_job_info, fetch_webpage_content,
    try_except, lift, log, raise, reraise, strftime_now, mbind, M_bind, mret,
    M_ret.
  cbn. rewrite Hfetch. cbn.
  destruct (is_a RequestException e); cbn; eexists; repeat split.
Qed.

(** X18. When the model answers with JSON that is not an object (a list, a
    string, a number, a boolean, [null]), the assignment of the [url] key
    raises [TypeError], and [process_job_url] returns the failure dictionary
    whose [error] is the text Python gives that error for the type of the
    value; nothing is stored. *)
Theorem process_non_object_answer (url : string)
    (custom_prompt : option string) (w : world) (page text : string)
    (v : json_other) :
  http_get env url = Ok page →
  generate_content env
    (compose_prompt (choose_prompt env custom_prompt) url page
                    (today env (clock w))) = Ok (Some text) →
  json_loads env (strip_fences text) = Decoded (JOther v) →
  ∃ w',
    process_job_url env url custom_prompt w
      = (Ok {| p_success := false; p_job_info := None;
               p_message := failed_msg;
               p_error := Some (item_assignment_error v) |},
         w')
    ∧ disk w' = disk w ∧ clock w' = clock w.
Proof.
  intros Hfetch Htext Hjson.
  unfold process_job_url, extract_job_info, fetch_webpage_content,
    try_except, lift, log, raise, reraise, strftime_now, mbind, M_bind, mret,
    M_ret.
  cbn. rewrite Hfetch. cbn. rewrite Htext. cbn. rewrite Hjson. cbn.
  eexists; repeat split.
Qed.

(** X19. When [process_job_url] reports success, the record it returns and
    the row it stored carry the url it was given, whatever [url] the model
    put in its answer. *)
Theorem process_stores_given_url (url : string)
    (custom_prompt : option string) (w w' : world) (res : ProcessResult) :
  process_job_url env url custom_prompt w = (Ok res, w') →
  p_success res = true →
  ∃ job df r,
    p_job_info res = Some job ∧ job !! "url" = Some (PStr url)
    ∧ disk w' = Some (Workbook df) ∧ last (rows df) = Some r
    ∧ Frame.row_get (columns df) r "URL" = Some (CStr url).
Proof.
  intros Hrun Hok. unfold process_job_url in Hrun.
  assert ((if PyStr.truthy url then url else "") = url) as Hurl
    by (by destruct url).
  destruct (extract_job_info env url custom_prompt w) as [[[d|]|e] w1] eqn:He.
  - set (job := <["url" := PStr (if PyStr.truthy url then url else "")]> d)
      in *.
    destruct (append_to_excel env job w1) as [[added|e] w2] eqn:Ha.
    + erewrite run_try_ok in Hrun; cycle 1.
      { erewrite run_bind_ok by exact He.
        erewrite run_bind_ok by reflexivity. fold job.
        erewrite run_bind_ok by exact Ha. reflexivity. }
      injection Hrun as <- <-. cbn in Hok. subst added.
      destruct (append_stored env job w1 w2 Ha) as (df & t & _ & _ & _ & Hd).
      destruct (appended_row_get df job (today env t)) as (r & Hlast & Hget).
      eexists job, _, r. split; [reflexivity|].
      split; [subst job; rewrite Hurl; apply lookup_insert_eq|].
      split; [exact Hd|]. split; [exact Hlast|].
      rewrite (Hget "URL" "url" "") by (unfold field_defaults; repeat constructor).
      unfold stored_value. subst job. rewrite lookup_insert_eq. cbn.
      by rewrite Hurl.
    + erewrite run_try_raise in Hrun; cycle 1.
      { erewrite run_bind_ok by exact He.
        erewrite run_bind_ok by reflexivity. fold job.
        erewrite run_bind_raise by exact Ha. reflexivity. }
      erewrite run_bind_ok in Hrun by reflexivity.
      injection Hrun as <- _. discriminate Hok.
  - erewrite run_try_raise in Hrun; cycle 1.
    { erewrite run_bind_ok by exact He.
      erewrite run_bind_raise by reflexivity. reflexivity. }
    erewrite run_bind_ok in Hrun by reflexivity.
    injection Hrun as <- _. discriminate Hok.
  - erewrite run_try_raise in Hrun; cycle 1.
    { erewrite run_bind_raise by exact He. reflexivity. }
    erewrite run_bind_ok in Hrun by reflexivity.
    injection Hrun as <- _. discriminate Hok.
Qed.

(** X20. Every fallback record has the same company and the same title,
    the text ["Could not extract"], and the duplicate test reads nothing
    else: once [process_job_url] has stored one, a later page whose answer
    could not be decoded either is reported as already in the spreadsheet,
    whatever its url, and is not stored. *)
Theorem second_fallback_reported_duplicate (url1 url2 : string)
    (prompt1 prompt2 : option string) (now1 now2 : string)
    (w wa w1 wb : world) (res : ProcessResult) :
  infer env "Could not extract" = CStr "Could not extract" →
  extract_job_info env url1 prompt1 w = (Ok (JObject (fallback_record now1)), wa) →
  process_job_url env url1 prompt1 w = (Ok res, w1) →
  p_success res = true →
  extract_job_info env url2 prompt2 w1
    = (Ok (JObject (fallback_record now2)), wb) →
  locked env (clock w1) = false →
  ∃ w2,
    process_job_url env url2 prompt2 w1
      = (Ok {| p_success := false;
               p_job_info := Some (<["url" := PStr url2]> (fallback_record now2));
               p_message := exists_msg; p_error := None |}, w2)
    ∧ disk w2 = disk w1.
Proof.
  intros Hinf He1 Hp1 Hok He2 Hfree.
  assert (∀ url, (if PyStr.truthy url then url else "") = url) as Hurl
    by (by intros []).
  unfold process_job_url in Hp1. rewrite Hurl in Hp1.
  set (job1 := <["url" := PStr url1]> (fallback_record now1)) in *.
  destruct (append_to_excel env job1 wa) as [[added|e] wx] eqn:Ha.
  2:{ erewrite run_try_raise in Hp1; cycle 1.
      { erewrite run_bind_ok by exact He1.
        erewrite run_bind_ok by reflexivity. fold job1.
        erewrite run_bind_raise by exact Ha. reflexivity. }
      erewrite run_bind_ok in Hp1 by reflexivity.
      injection Hp1 as <- _. discriminate Hok. }
  erewrite run_try_ok in Hp1; cycle 1.
  { erewrite run_bind_ok by exact He1.
    erewrite run_bind_ok by reflexivity. fold job1.
    erewrite run_bind_ok by exact Ha. reflexivity. }
  injection Hp1 as <- <-. cbn in Hok. subst added.
  destruct (append_stored env job1 wa wx Ha) as (df0 & t & _ & Hcol & _ & Hd1).
  set (job2 := <["url" := PStr url2]> (fallback_record now2)).
  destruct (extract_job_info_frame url2 prompt2 wx) as (Hdb & Hcb & _).
  rewrite He2 in Hdb, Hcb. cbn in Hdb, Hcb.
  destruct (append_free_run job2 wb) as (w2 & Ha2 & _ & Hd2);
    [by rewrite Hcb|by rewrite Hdb, Hd1|].
  rewrite Hdb, Hd1 in Ha2, Hd2. cbn [frame_of file_after_load] in Ha2, Hd2.
  assert ("URL" ∈ columns (Frame.concat_row df0 (new_row job1 (today env t))))
    as Hcol1 by (by apply concat_row_keeps).
  rewrite loaded_frame_with_url in Ha2, Hd2 by done.
  rewrite (is_duplicate_after_append env df0 job1 job2 _
             "Could not extract" "Could not extract") in Ha2, Hd2
    by (done || (unfold dict_get, job1, job2, fallback_record;
                 by simplify_map_eq)).
  rewrite stored_frame_id in Hd2 by done.
  eexists. split.
  - unfold process_job_url. rewrite Hurl. fold job2. eapply run_try_ok.
    erewrite run_bind_ok by exact He2.
    erewrite run_bind_ok by reflexivity.
    erewrite run_bind_ok by exact Ha2. reflexivity.
  - by rewrite Hd2, Hd1.
Qed.

(** ** Row edits *)

Ltac run_edit Hearly Hload :=
  erewrite run_try_ok; [reflexivity|];
  erewrite run_bind_ok by exact Hearly; cbn match;
  erewrite run_bind_ok by exact Hload.

(** X21. The row edits never raise: whatever happens inside, the caller
    gets a result dictionary. *)
Theorem row_edits_never_raise (n : Z) (s : string) (w : world) :
  (∃ r w', update_row_status env n s w = (Ok r, w'))
  ∧ (∃ r w', delete_row env n w = (Ok r, w')).
Proof.
  split.
  - unfold update_row_status.
    match goal with |- context [try_except ?b ?h w] =>
      destruct (b w) as [[r|e] w1] eqn:Hb end.
    + eexists _, _. by eapply run_try_ok.
    + eexists _, _. erewrite run_try_raise by exact Hb.
      erewrite run_bind_ok by reflexivity. reflexivity.
  - unfold delete_row.
    match goal with |- context [try_except ?b ?h w] =>
      destruct (b w) as [[r|e] w1] eqn:Hb end.
    + eexists _, _. by eapply run_try_ok.
    + eexists _, _. erewrite run_try_raise by exact Hb.
      erewrite run_bind_ok by reflexivity. reflexivity.
Qed.

Lemma locked_early_return_held w :
  (∀ j, 0 ≤ j < 15 → locked env (clock w + 2 * j) = true) →
  ∃ w', locked_early_return env w = (Ok (Some file_locked_result), w')
        ∧ disk w' = disk w ∧ clock w' = clock w + 30.
Proof.
  intros Hheld.
  assert (locked env (clock w) = true) as H0.
  { specialize (Hheld 0). rewrite Z.mul_0_r, Z.add_0_r in Hheld.
    apply Hheld. lia. }
  destruct (wait_held 30 w) as (w' & Hw & Hd & Hc).
  { intros j ? ?. apply Hheld. lia. }
  exists w'. split; [|split; [done|]].
  - unfold locked_early_return.
    erewrite run_bind_ok by apply is_file_locked_run. rewrite H0.
    erewrite run_bind_ok by exact Hw. reflexivity.
  - rewrite Hc. change (Z.max 0 ((30 + 1) / 2)) with 15. lia.
Qed.

(** X22. A path held through the fifteen polls of the thirty-second wait
    makes both row edits answer that the file is locked, thirty seconds
    after the call, with the file as it was: an absent file stays absent. *)
Theorem row_edit_gives_up_on_held_file (n : Z) (s : string) (w : world) :
  (∀ j, 0 ≤ j < 15 → locked env (clock w + 2 * j) = true) →
  ∃ w1 w2,
    update_row_status env n s w = (Ok file_locked_result, w1)
    ∧ delete_row env n w = (Ok file_locked_result, w2)
    ∧ disk w1 = disk w ∧ disk w2 = disk w
    ∧ clock w1 = clock w + 30 ∧ clock w2 = clock w + 30.
Proof.
  intros Hheld.
  destruct (locked_early_return_held w Hheld) as (w' & Hearly & Hd & Hc).
  exists w', w'. repeat split; try done.
  - unfold update_row_status. eapply run_try_ok.
    erewrite run_bind_ok by exact Hearly. reflexivity.
  - unfold delete_row. eapply run_try_ok.
    erewrite run_bind_ok by exact Hearly. reflexivity.
Qed.

(** X23. A row edit on an absent file that nothing holds answers that there
    is no data, and leaves a file behind: the lock probe created it, empty,
    and the load that follows finds no workbook in it and does not replace
    it. *)
Theorem row_edit_on_absent_file (n : Z) (s : string) (w : world) :
  disk w = None →
  locked env (clock w) = false →
  ∃ w1 w2,
    update_row_status env n s w = (Ok no_data_result, w1)
    ∧ delete_row env n w = (Ok no_data_result, w2)
    ∧ disk w1 = Some (Garbage "") ∧ disk w2 = Some (Garbage "").
Proof.
  intros Hd Hfree.
  destruct (row_edit_load env w Hfree) as (wa & wb & Hearly & Hload & Hdb & _);
    [by rewrite Hd|].
  rewrite Hd in Hload, Hdb. cbn in Hload, Hdb.
  exists wb, wb. repeat split; try done.
  - unfold update_row_status. run_edit Hearly Hload. reflexivity.
  - unfold delete_row. run_edit Hearly Hload. reflexivity.
Qed.

(** What an edit of a row in range writes, with the file free, when pandas
    accepts the new status for the column. *)
Lemma update_free_run w df0 n s j :
  disk w = Some (Workbook df0) →
  locked env (clock w) = false →
  1 ≤ n ≤ Frame.len df0 →
  Frame.get_loc "Status" (loaded_frame env df0) = Some j →
  setitem_error env (Frame.column j (loaded_frame env df0)) s = None →
  ∃ r w1,
    update_row_status env n s w = (Ok r, w1) ∧ success r = true
    ∧ disk w1 = Some (Workbook (Frame.set_cell (Z.to_nat (n - 1)) j (CStr s)
                                  (loaded_frame env df0)))
    ∧ clock w1 = clock w.
Proof.
  intros Hd Hfree Hn Hj Hset.
  destruct (row_edit_load env w Hfree) as (wa & wb & Hearly & Hload & Hdb & Hcb);
    [by rewrite Hd|].
  rewrite Hd in Hload, Hdb. cbn [frame_of] in Hload.
  set (df := loaded_frame env df0) in *.
  assert (Frame.empty df = false) as Hne.
  { rewrite (has_column_empty "URL")
      by apply (frame_of_has_url env (Some (Workbook df0))).
    apply (nonempty_rows _ n). subst df. by rewrite frame_of_len. }
  assert ((n <? 1) || (n >? Frame.len df) = false) as Hin.
  { apply in_range_test. subst df. by rewrite frame_of_len. }
  assert (locked env (clock wb) = false) as Hfb by (by rewrite Hcb).
  assert (unreadable (disk wb) = false) as Hrb by (by rewrite Hdb).
  eexists _, _. split.
  { unfold update_row_status. run_edit Hearly Hload. rewrite Hne, Hin, Hj.
    erewrite run_bind_ok by reflexivity. rewrite Hset.
    erewrite run_bind_ok by reflexivity.
    erewrite run_bind_ok by (by apply to_excel_free).
    erewrite run_bind_ok by reflexivity. reflexivity. }
  split; [reflexivity|]. split; [reflexivity|]. exact Hcb.
Qed.

(** An edit that pandas refuses: the failure dictionary carries the text of
    its exception, and the file is left as the load left it. *)
Lemma update_refused_run w df0 n s j e :
  disk w = Some (Workbook df0) →
  locked env (clock w) = false →
  1 ≤ n ≤ Frame.len df0 →
  Frame.get_loc "Status" (loaded_frame env df0) = Some j →
  setitem_error env (Frame.column j (loaded_frame env df0)) s = Some e →
  ∃ w1,
    update_row_status env n s w
      = (Ok {| success := false;
               message := "Failed to update row status: " +:+ exn_msg e |}, w1)
    ∧ disk w1 = Some (Workbook (stored_frame env df0)).
Proof.
  intros Hd Hfree Hn Hj Hset.
  destruct (row_edit_load env w Hfree) as (wa & wb & Hearly & Hload & Hdb & Hcb);
    [by rewrite Hd|].
  rewrite Hd in Hload, Hdb. cbn [frame_of] in Hload.
  set (df := loaded_frame env df0) in *.
  assert (Frame.empty df = false) as Hne.
  { rewrite (has_column_empty "URL")
      by apply (frame_of_has_url env (Some (Workbook df0))).
    apply (nonempty_rows _ n). subst df. by rewrite frame_of_len. }
  assert ((n <? 1) || (n >? Frame.len df) = false) as Hin.
  { apply in_range_test. subst df. by rewrite frame_of_len. }
  eexists. split.
  { unfold update_row_status. erewrite run_try_raise; cycle 1.
    { erewrite run_bind_ok by exact Hearly. cbn match.
      erewrite run_bind_ok by exact Hload. rewrite Hne, Hin, Hj.
      erewrite run_bind_ok by reflexivity. rewrite Hset.
      erewrite run_bind_raise by reflexivity. reflexivity. }
    erewrite run_bind_ok by reflexivity. reflexivity. }
  exact Hdb.
Qed.

Lemma delete_free_run w df0 n :
  disk w = Some (Workbook df0) →
  locked env (clock w) = false →
  1 ≤ n ≤ Frame.len df0 →
  ∃ r w1,
    delete_row env n w = (Ok r, w1) ∧ success r = true
    ∧ disk w1 = Some (Workbook (Frame.drop_row (Z.to_nat (n - 1))
                                  (loaded_frame env df0)))
    ∧ clock w1 = clock w.
Proof.
  intros Hd Hfree Hn.
  destruct (row_edit_load env w Hfree) as (wa & wb & Hearly & Hload & Hdb & Hcb);
    [by rewrite Hd|].
  rewrite Hd in Hload, Hdb. cbn [frame_of] in Hload.
  set (df := loaded_frame env df0) in *.
  assert (Frame.empty df = false) as Hne.
  { rewrite (has_column_empty "URL")
      by apply (frame_of_has_url env (Some (Workbook df0))).
    apply (nonempty_rows _ n). subst df. by rewrite frame_of_len. }
  assert ((n <? 1) || (n >? Frame.len df) = false) as Hin.
  { apply in_range_test. subst df. by rewrite frame_of_len. }
  assert (locked env (clock wb) = false) as Hfb by (by rewrite Hcb).
  assert (unreadable (disk wb) = false) as Hrb by (by rewrite Hdb).
  eexists _, _. split.
  { unfold delete_row. run_edit Hearly Hload. rewrite Hne, Hin. cbn zeta.
    erewrite run_bind_ok by (by apply to_excel_free).
    erewrite run_bind_ok by reflexivity. reflexivity. }
  split; [reflexivity|]. split; [reflexivity|]. exact Hcb.
Qed.

Lemma cell_at_reread df i j :
  cell_at (reread_frame env df) i j = reread env <$> cell_at df i j.
Proof.
  unfold cell_at, reread_frame. cbn. rewrite list_lookup_fmap.
  destruct (rows df !! i) as [r|]; cbn; [|done]. apply list_lookup_fmap.
Qed.

(** X24. When pandas accepts the new status for the column, the status
    written by [update_row_status] is read back by the next load as
    [read_excel] infers it from the text: the cell of the edited row under
    [Status] holds the inferred value, and every other cell holds the
    re-read value of the cell the edit loaded. When pandas refuses it, the
    edit answers with the failure dictionary and writes nothing of its
    own. *)
Theorem update_then_reload (w : world) (df0 : DataFrame) (n : Z) (s : string)
    (j : nat) (c : cell) :
  disk w = Some (Workbook df0) →
  locked env (clock w) = false →
  1 ≤ n ≤ Frame.len df0 →
  Frame.get_loc "Status" (loaded_frame env df0) = Some j →
  cell_at (loaded_frame env df0) (Z.to_nat (n - 1)) j = Some c →
  match setitem_error env (Frame.column j (loaded_frame env df0)) s with
  | None =>
      ∃ r w1 df w2,
        update_row_status env n s w = (Ok r, w1) ∧ success r = true
        ∧ load_or_create_excel env w1 = (Ok df, w2)
        ∧ cell_at df (Z.to_nat (n - 1)) j = Some (infer env s)
        ∧ ∀ i' j', i' ≠ Z.to_nat (n - 1) ∨ j' ≠ j →
            cell_at df i' j'
            = reread env <$> cell_at (loaded_frame env df0) i' j'
  | Some e =>
      ∃ w1,
        update_row_status env n s w
          = (Ok {| success := false;
                   message := "Failed to update row status: " +:+ exn_msg e |},
             w1)
        ∧ disk w1 = Some (Workbook (stored_frame env df0))
  end.
Proof.
  intros Hd Hfree Hn Hj Hc.
  destruct (setitem_error env _ s) as [e|] eqn:Hset;
    [by eapply update_refused_run|].
  destruct (update_free_run w df0 n s j Hd Hfree Hn Hj Hset)
    as (r & w1 & Hrun & Hok & Hd1 & Hc1).
  destruct (load_or_create_excel_free env w1) as (w2 & Hload & _);
    [by rewrite Hc1|by rewrite Hd1|].
  rewrite Hd1 in Hload. cbn [frame_of] in Hload.
  rewrite loaded_frame_with_url in Hload.
  2:{ cbn [Frame.set_cell columns]. eapply bool_decide_eq_true_1.
      apply (frame_of_has_url env (Some (Workbook df0))). }
  eexists r, w1, _, w2. split; [exact Hrun|]. split; [exact Hok|].
  split; [exact Hload|]. split.
  - rewrite cell_at_reread. by erewrite set_cell_same.
  - intros i' j' Hne. rewrite cell_at_reread. by rewrite set_cell_other.
Qed.

(** X25. Deleting the row an append has just stored gives back the table
    the append loaded, as [read_excel] reads it: the columns are the same
    and each cell is the re-read cell. *)
Theorem delete_undoes_append (job : gmap string pyval) (w w1 : world) :
  (∀ c, c ∈ Frame.canonical_columns → c ∈ columns (frame_of env (disk w))) →
  append_to_excel env job w = (Ok true, w1) →
  locked env (clock w1) = false →
  ∃ r w2,
    delete_row env (Frame.len (frame_of env (disk w)) + 1) w1 = (Ok r, w2)
    ∧ success r = true
    ∧ disk w2 = Some (Workbook (reread_frame env (frame_of env (disk w)))).
Proof.
  intros Hall Hrun Hfree.
  destruct (append_to_excel_run env job w) as (r0 & w0 & t & Hrun0 & _ & _ & Hcase).
  rewrite Hrun in Hrun0. injection Hrun0 as <- <-.
  destruct Hcase as [(? & _)|[(_ & _ & Hd1)|[((msg & ?) & _)|(? & _)]]];
    try discriminate.
  rewrite concat_row_full in Hd1 by exact Hall.
  set (F := frame_of env (disk w)) in *.
  match type of Hd1 with _ = Some (Workbook ?d) => set (df1 := d) in * end.
  destruct (delete_free_run w1 df1 (Frame.len F + 1) Hd1 Hfree)
    as (r & w2 & Hdel & Hok & Hd2 & _).
  { unfold Frame.len, df1. cbn [rows]. rewrite length_app. cbn [length]. lia. }
  exists r, w2. split; [exact Hdel|]. split; [exact Hok|].
  rewrite Hd2. do 2 f_equal.
  rewrite loaded_frame_with_url
    by (apply Hall; unfold Frame.canonical_columns; repeat constructor).
  unfold Frame.drop_row, reread_frame, df1, Frame.len. cbn [columns rows].
  f_equal. replace (Z.to_nat (Z.of_nat (length (rows F)) + 1 - 1))
    with (length (rows F)) by lia.
  rewrite fmap_app. cbn [fmap list_fmap].
  rewrite <- (length_fmap (λ r : list cell, reread env <$> r) (rows F)) at 1.
  rewrite delete_middle. apply app_nil_r.
Qed.

End MoreStore.

(** ** The repair script *)

Section Repair.
Context (env : Env).

Lemma get_loc_has_column name df j :
  Frame.get_loc name df = Some j → Frame.has_column name df = true.
Proof.
  intros H. apply bool_decide_eq_true_2.
  eapply list_elem_of_lookup_2, index_of_lookup, H.
Qed.

Lemma nan_count_zero name df j i r c :
  Frame.get_loc name df = Some j → nan_count name df = O →
  rows df !! i = Some r → r !! j = Some c → isna c = false.
Proof.
  intros Hj Hcount Hr Hc. unfold nan_count in Hcount. rewrite Hj in Hcount.
  apply nil_length_inv in Hcount.
  destruct (isna c) eqn:Hna; [|done].
  assert (List.In r (List.filter
            (λ r : list cell, from_option isna false (r !! j)) (rows df)))
    as Hin.
  { apply filter_In. split.
    - apply list_elem_of_In. by eapply list_elem_of_lookup_2.
    - by rewrite Hc. }
  rewrite Hcount in Hin. destruct Hin.
Qed.

(** X26. The repair does not survive the reload. On a workbook with a
    [URL] column that nothing holds, where [read_excel] reads a blank cell
    as missing, every cell of the column that the script found missing is
    missing again in the frame it shows at the end: the empty string it
    wrote is a blank cell. *)
Theorem fix_url_column_nan_returns (w : world) (df : DataFrame) (j : nat) :
  disk w = Some (Workbook df) →
  locked env (clock w) = false →
  Frame.get_loc "URL" df = Some j →
  infer env "" = CNaN →
  ∃ final w',
    fix_url_column env w = (Ok (Some final), w')
    ∧ columns final = columns df
    ∧ ∀ i c, cell_at (reread_frame env df) i j = Some c → isna c = true →
        cell_at final i j = Some CNaN.
Proof.
  intros Hd Hfree Hj Hinf.
  assert (read_excel env w = (Ok (reread_frame env df), w)) as Hread
    by (unfold read_excel; by rewrite Hfree, Hd).
  assert (Frame.get_loc "URL" (reread_frame env df) = Some j) as Hj' by exact Hj.
  unfold fix_url_column.
  erewrite run_bind_ok
    by (unfold path_exists; rewrite Hd; reflexivity).
  rewrite bool_decide_eq_true_2 by done.
  erewrite run_bind_ok by exact Hread.
  rewrite (get_loc_has_column _ _ _ Hj'). cbn [negb].
  destruct (0 <? nan_count "URL" (reread_frame env df))%nat eqn:Hcount.
  - erewrite run_bind_ok by (apply to_excel_free; [done|by rewrite Hd]).
    erewrite run_bind_ok
      by (unfold read_excel, set_disk; cbn [clock disk]; by rewrite Hfree).
    eexists _, _. split; [reflexivity|].
    unfold fillna_column. rewrite Hj'. split; [reflexivity|].
    intros i c Hc Hna. rewrite (cell_at_reread env).
    unfold cell_at in Hc |- *. cbn [rows] in Hc |- *.
    rewrite list_lookup_fmap.
    destruct (rows (reread_frame env df) !! i) as [r|]; cbn in Hc |- *;
      [|done].
    rewrite list_lookup_alter_eq, Hc. cbn. rewrite Hna. cbn.
    by rewrite Hinf.
  - apply Nat.ltb_ge in Hcount.
    erewrite run_bind_ok by reflexivity.
    erewrite run_bind_ok by exact Hread.
    eexists _, _. split; [reflexivity|]. split; [reflexivity|].
    intros i c Hc Hna. exfalso. unfold cell_at in Hc.
    destruct (rows (reread_frame env df) !! i) as [r|] eqn:Hr; cbn in Hc;
      [|done].
    rewrite (nan_count_zero "URL" (reread_frame env df) j i r c) in Hna;
      [done|done|lia|done|done].
Qed.

End Repair.

(** * The theorems at concrete inputs *)

(** ** The scenario of the specification *)

(** On a new table: the append adds the record, the update sets its status,
    the delete removes it and names its company and title. *)
Example append_update_delete :
  ∃ w1 w2 w3,
    append_to_excel quiet_env acme fresh_world = (Ok true, w1)
    ∧ disk w1 = Some (Workbook acme_frame)
    ∧ update_row_status quiet_env 1 "Interviewed" w1
      = (Ok {| success := true;
               message := "Row 1 status updated to 'Interviewed'" |}, w2)
    ∧ (∃ df, disk w2 = Some (Workbook df)
             ∧ cell_at df 0 0 = Some (CStr "Interviewed"))
    ∧ delete_row quiet_env 1 w2
      = (Ok {| success := true;
               message := "Deleted row 1: Acme - Engineer" |}, w3)
    ∧ disk w3 = Some (Workbook Frame.new_frame).
Proof.
  do 3 eexists. split; [vm_compute; reflexivity|]. split; [reflexivity|].
  split; [vm_compute; reflexivity|]. split; [eexists; split; reflexivity|].
  split; [vm_compute; reflexivity|]. reflexivity.
Qed.

(** A fenced answer is decoded as the bare object is. *)
Example fenced_answer :
  strip_fences ("```json" +:+ PyStr.nl +:+ "{}" +:+ PyStr.nl +:+ "```") = "{}"
  ∧ strip_fences "  {}  " = "{}"
  ∧ FlatJson.loads
      (strip_fences ("```json" +:+ PyStr.nl
                     +:+ "{" +:+ PyStr.dq +:+ "company_name" +:+ PyStr.dq +:+ ": "
                     +:+ PyStr.dq +:+ "Acme" +:+ PyStr.dq +:+ "}" +:+ PyStr.nl
                     +:+ "```"))
    = Decoded (JObject (<["company_name" := PStr "Acme"]> ∅)).
Proof. repeat split; vm_compute; reflexivity. Qed.

(** The wait gives up after its budget: held for ever, the file is polled
    at 0, 2, ..., 28 and the clock is at 30 when the wait answers. *)
Example wait_times_out :
  ∃ w', wait_for_file_unlock (example_env (λ _, true) (Ok "") (Ok None)) 30
          acme_world = (Ok false, w')
        ∧ clock w' = 30 ∧ disk w' = disk acme_world
        ∧ length (logs w') = 15%nat.
Proof. eexists. split; [vm_compute; reflexivity|]. repeat split. Qed.

(** ** C1: duplicate suppression and blank keys *)

(** C1 at a failing input. A record whose company is the empty string is
    appended to a new table, and then appended again: the blank cell is read
    back as [NaN], which equals no text, so the second append finds no
    duplicate, answers [true] and the table has two rows. *)
Theorem blank_company_appended_twice :
  ∃ w1 w2 df,
    append_to_excel quiet_env engineer_without_company fresh_world
      = (Ok true, w1)
    ∧ append_to_excel quiet_env engineer_without_company w1 = (Ok true, w2)
    ∧ disk w2 = Some (Workbook df)
    ∧ length (rows df) = 2%nat.
Proof.
  do 3 eexists. split; [vm_compute; reflexivity|].
  split; [vm_compute; reflexivity|]. split; reflexivity.
Qed.

(** The same two appends of a record with a company are one append. *)
Example acme_appended_once :
  ∃ w1 w2,
    append_to_excel quiet_env acme fresh_world = (Ok true, w1)
    ∧ append_to_excel quiet_env acme w1 = (Ok false, w2)
    ∧ disk w2 = disk w1.
Proof.
  do 2 eexists. split; [vm_compute; reflexivity|].
  split; [vm_compute; reflexivity|]. reflexivity.
Qed.

(** ** C6: the round trip and the empty url *)

(** C6 at a failing input. A record with an empty url is appended and the
    table is loaded again: the last row holds the six other fields as text,
    and [NaN] under [URL], not the empty string. *)
Theorem empty_url_reloads_as_nan :
  ∃ w1 df w2 r,
    append_to_excel quiet_env acme_without_url fresh_world = (Ok true, w1)
    ∧ load_or_create_excel quiet_env w1 = (Ok df, w2)
    ∧ last (rows df) = Some r
    ∧ Frame.row_get (columns df) r "Company" = Some (CStr "Acme")
    ∧ Frame.row_get (columns df) r "URL" = Some CNaN
    ∧ Frame.row_get (columns df) r "URL" ≠ Some (CStr "").
Proof.
  do 4 eexists. split; [vm_compute; reflexivity|].
  split; [vm_compute; reflexivity|]. split; [reflexivity|].
  split; [reflexivity|]. split; [reflexivity|]. discriminate.
Qed.

(** ** C2: the rejection on a table without rows *)



(** ** C3: a file that is not a workbook, and a file that denies reading *)

(** The file that holds no workbook is loaded as the empty table; the
    warning carries the text of the error pandas raised, and the file
    stays. *)
Example load_junk_file :
  load_or_create_excel quiet_env junk_world
  = (Ok {| columns := Frame.canonical_columns; rows := [] |},
     {| clock := 0; disk := Some (Garbage "not a workbook");
        logs := [(Warning,
                  "Error reading Excel file, creating new one: Excel file format cannot be determined, you must specify an engine manually.");
                 (Info, "Created new Excel file structure")] |}).
Proof. vm_compute. reflexivity. Qed.


(** ** C4: an answer in prose *)

Lemma fallback_on_undecodable_output_witness :
  http_get prose_env "https://acme.example/job" = Ok "<html>job</html>"
  ∧ json_loads prose_env (strip_fences "Sorry, I could not open that page.")
    = JSONDecodeError "Expecting value"
  ∧ ∃ d w',
      extract_job_info prose_env "https://acme.example/job" None fresh_world
        = (Ok (JObject d), w')
      ∧ d !! "company_name" = Some (PStr "Could not extract")
      ∧ d !! "status" = Some (PStr "Applied")
      ∧ d !! "date_applied" = Some (PStr "2025-01-01").
Proof.
  assert (json_loads prose_env (strip_fences "Sorry, I could not open that page.")
          = JSONDecodeError "Expecting value") as Hjson
    by (vm_compute; reflexivity).
  split; [reflexivity|]. split; [exact Hjson|].
  destruct (fallback_on_undecodable_output prose_env "https://acme.example/job"
              None fresh_world "<html>job</html>"
              "Sorry, I could not open that page." "Expecting value"
              eq_refl eq_refl Hjson)
    as (d & w' & Hrun & _ & Hc & _ & _ & _ & Hs & Hdate & _).
  exists d, w'. auto.
Defined.

(** ** C7: a table without the [URL] column *)

Lemma load_migration_idempotent_witness :
  ("URL" ∉ columns legacy_frame)
  ∧ locked quiet_env 0 = false
  ∧ ∃ df1 w1 df2 w2 df3 w3,
      load_or_create_excel quiet_env
        {| clock := 0; disk := Some (Workbook legacy_frame); logs := [] |}
        = (Ok df1, w1)
      ∧ load_or_create_excel quiet_env w1 = (Ok df2, w2)
      ∧ load_or_create_excel quiet_env w2 = (Ok df3, w3)
      ∧ columns df1 = columns legacy_frame ++ ["URL"]
      ∧ columns df2 = columns df1 ∧ columns df3 = columns df1
      ∧ disk w1 = Some (Workbook df1)
      ∧ disk w2 = disk w1 ∧ disk w3 = disk w1.
Proof.
  assert ("URL" ∉ columns legacy_frame) as Hno by compute_done.
  split; [exact Hno|]. split; [reflexivity|].
  destruct (load_migration_idempotent quiet_env 0 [] legacy_frame Hno eq_refl)
    as (df1 & w1 & df2 & w2 & df3 & w3 & H1 & H2 & H3 & Hc1 & _ & Hd1 & Hc2
        & Hd2 & Hc3 & Hd3).
  exists df1, w1, df2, w2, df3, w3. repeat split; assumption.
Defined.

(** ** C8: an edit rewrites the rows it was not to touch *)

(** C8 at a failing input. Two records are appended, the second with the
    location ["N/A"], which the sheet holds as that text. Updating the
    status of the first row writes back the table as [read_excel] returned
    it, where that text is the missing marker: the location of the second
    row, a row the update was not to touch, is blank afterwards. Deleting
    the first row instead does the same to the row that remains. *)
Theorem row_edit_rewrites_other_rows :
  ∃ w1 w2 w3 w4 df2 df3 df4,
    append_to_excel quiet_env acme fresh_world = (Ok true, w1)
    ∧ append_to_excel quiet_env globex w1 = (Ok true, w2)
    ∧ disk w2 = Some (Workbook df2)
    ∧ cell_at df2 1 1 = Some (CStr "Globex")
    ∧ cell_at df2 1 3 = Some (CStr "N/A")
    ∧ update_row_status quiet_env 1 "Interviewed" w2
      = (Ok {| success := true;
               message := "Row 1 status updated to 'Interviewed'" |}, w3)
    ∧ disk w3 = Some (Workbook df3)
    ∧ cell_at df3 0 0 = Some (CStr "Interviewed")
    ∧ cell_at df3 1 1 = Some (CStr "Globex")
    ∧ cell_at df3 1 3 = Some CNaN
    ∧ delete_row quiet_env 1 w2
      = (Ok {| success := true;
               message := "Deleted row 1: Acme - Engineer" |}, w4)
    ∧ disk w4 = Some (Workbook df4)
    ∧ cell_at df4 0 1 = Some (CStr "Globex")
    ∧ cell_at df4 0 3 = Some CNaN.
Proof.
  do 7 eexists. split; [vm_compute; reflexivity|].
  split; [vm_compute; reflexivity|]. split; [reflexivity|].
  split; [reflexivity|]. split; [reflexivity|].
  split; [vm_compute; reflexivity|]. split; [reflexivity|].
  split; [reflexivity|]. split; [reflexivity|]. split; [reflexivity|].
  split; [vm_compute; reflexivity|]. split; [reflexivity|].
  split; reflexivity.
Qed.

(** An update that pandas refuses: the only row was stored with an empty
    status, so the column is read without a text in it, and the text of the
    new status is not accepted; the edit reports the failure. *)
Example update_refused_on_blank_status :
  ∃ w1 w2,
    append_to_excel quiet_env acme_without_status fresh_world = (Ok true, w1)
    ∧ update_row_status quiet_env 1 "Interviewed" w1
      = (Ok {| success := false;
               message := "Failed to update row status: Invalid value 'Interviewed' for dtype 'float64'" |},
         w2)
    ∧ disk w2 = disk w1.
Proof.
  do 2 eexists. split; [vm_compute; reflexivity|].
  split; [vm_compute; reflexivity|]. reflexivity.
Qed.

(** ** C9: the probe where there is no file *)

(** Where there is no file and nothing holds the path, the probe answers
    [false] and leaves an empty file behind. *)
Lemma is_file_locked_creates_file :
  disk fresh_world = None
  ∧ is_file_locked quiet_env fresh_world
    = (Ok false, {| clock := 0; disk := Some (Garbage ""); logs := [] |})
  ∧ disk (snd (is_file_locked quiet_env fresh_world)) ≠ disk fresh_world.
Proof. repeat split; try reflexivity. discriminate. Qed.

(** ** C10: the defaults of the missing keys *)

(** C10 at a failing input. The empty dictionary is appended to a new table
    and the table is loaded: the row holds the defaults of the status and of
    the date as text, and the missing marker, not the empty string, under
    the five other columns. The fallback record, which has no [url] key, is
    stored with the missing marker under [URL] in the same way. *)
Theorem missing_keys_stored_blank :
  ∃ w1 df w2 r w3 df' w4 r',
    append_to_excel quiet_env ∅ fresh_world = (Ok true, w1)
    ∧ load_or_create_excel quiet_env w1 = (Ok df, w2)
    ∧ rows df = [r]
    ∧ Frame.row_get (columns df) r "Status" = Some (CStr "Applied")
    ∧ Frame.row_get (columns df) r "Date Applied" = Some (CStr "2025-01-01")
    ∧ (∀ name, name ∈ ["Company"; "Job Title"; "Location"; "Job Functions";
                        "URL"] →
         Frame.row_get (columns df) r name = Some CNaN)
    ∧ fallback_record "2025-01-01" !! "url" = None
    ∧ append_to_excel quiet_env (fallback_record "2025-01-01") fresh_world
      = (Ok true, w3)
    ∧ load_or_create_excel quiet_env w3 = (Ok df', w4)
    ∧ rows df' = [r']
    ∧ Frame.row_get (columns df') r' "Company" = Some (CStr "Could not extract")
    ∧ Frame.row_get (columns df') r' "URL" = Some CNaN
    ∧ Frame.row_get (columns df') r' "URL" ≠ Some (CStr "").
Proof.
  do 8 eexists. split; [vm_compute; reflexivity|].
  split; [vm_compute; reflexivity|]. split; [reflexivity|].
  split; [reflexivity|]. split; [reflexivity|]. split.
  { intros name Hin.
    repeat (apply elem_of_cons in Hin as [->|Hin]; [reflexivity|]).
    by apply elem_of_nil in Hin. }
  split; [vm_compute; reflexivity|].
  split; [vm_compute; reflexivity|]. split; [vm_compute; reflexivity|].
  split; [reflexivity|]. split; [reflexivity|]. split; [reflexivity|].
  discriminate.
Qed.

(** ** More of the code, at concrete inputs *)

Lemma strip_fences_bare_witness :
  PyStr.startswith "```json" (PyStr.strip " {} ") = false
  ∧ PyStr.endswith "```" (PyStr.strip " {} ") = false
  ∧ strip_fences " {} " = "{}".
Proof.
  split; [reflexivity|]. split; [reflexivity|].
  exact (strip_fences_bare " {} " eq_refl eq_refl).
Defined.

Lemma wait_on_free_file_witness :
  locked quiet_env (clock acme_world) = false
  ∧ wait_for_file_unlock quiet_env 30 acme_world = (Ok true, acme_world)
  ∧ wait_for_file_unlock quiet_env 0 acme_world = (Ok false, acme_world).
Proof.
  split; [reflexivity|]. split.
  - exact (wait_on_free_file quiet_env 30 acme_world eq_refl).
  - exact (wait_on_free_file quiet_env 0 acme_world eq_refl).
Defined.

Lemma load_absent_witness :
  disk fresh_world = None
  ∧ ∃ w', load_or_create_excel held_env fresh_world = (Ok Frame.new_frame, w')
          ∧ disk w' = None ∧ clock w' = 0.
Proof.
  split; [reflexivity|].
  destruct (load_absent held_env fresh_world eq_refl) as (w' & Hrun & Hd & Hc & _).
  exists w'. auto.
Defined.

Lemma load_shape_witness :
  load_or_create_excel quiet_env (world_with legacy_frame)
    = (Ok (loaded_frame quiet_env legacy_frame),
       snd (load_or_create_excel quiet_env (world_with legacy_frame)))
  ∧ "URL" ∈ columns (loaded_frame quiet_env legacy_frame)
  ∧ length (rows (loaded_frame quiet_env legacy_frame)) = 1%nat
  ∧ columns (loaded_frame quiet_env legacy_frame)
    = columns legacy_frame ++ ["URL"].
Proof.
  assert (load_or_create_excel quiet_env (world_with legacy_frame)
          = (Ok (loaded_frame quiet_env legacy_frame),
             snd (load_or_create_excel quiet_env (world_with legacy_frame))))
    as Hrun by (vm_compute; reflexivity).
  split; [exact Hrun|].
  destruct (load_shape quiet_env _ _ _ Hrun) as (Hurl & Hlen & Hcols & _).
  split; [exact Hurl|]. split; [exact Hlen|exact Hcols].
Defined.

Lemma append_creates_table_witness :
  disk fresh_world = None
  ∧ locked quiet_env (clock fresh_world) = false
  ∧ ∃ w', append_to_excel quiet_env acme fresh_world = (Ok true, w')
          ∧ disk w' = Some (Workbook acme_frame).
Proof.
  split; [reflexivity|]. split; [reflexivity|].
  destruct (append_creates_table quiet_env acme fresh_world eq_refl eq_refl)
    as (w' & Hrun & _ & Hd).
  exists w'. split; [exact Hrun|]. rewrite Hd. vm_compute. reflexivity.
Defined.

Lemma append_to_full_table_witness :
  disk acme_world = Some (Workbook acme_frame)
  ∧ locked quiet_env (clock acme_world) = false
  ∧ (∀ c, c ∈ Frame.canonical_columns → c ∈ columns acme_frame)
  ∧ (∃ w', append_to_excel quiet_env acme acme_world = (Ok false, w')
           ∧ disk w' = Some (Workbook acme_frame))
  ∧ (∃ w' df, append_to_excel quiet_env engineer_without_company acme_world
                = (Ok true, w')
              ∧ disk w' = Some (Workbook df) ∧ length (rows df) = 2%nat).
Proof.
  assert (∀ c, c ∈ Frame.canonical_columns → c ∈ columns acme_frame) as Hall
    by (intros c Hc; exact Hc).
  split; [reflexivity|]. split; [reflexivity|]. split; [exact Hall|]. split.
  - destruct (append_to_full_table quiet_env acme acme_world acme_frame
                eq_refl eq_refl Hall) as (w' & Hrun & Hd).
    exists w'. split; [exact Hrun|]. rewrite Hd. vm_compute. reflexivity.
  - destruct (append_to_full_table quiet_env engineer_without_company
                acme_world acme_frame eq_refl eq_refl Hall)
      as (w' & Hrun & Hd).
    eexists w', _. split; [exact Hrun|]. split; [exact Hd|].
    vm_compute. reflexivity.
Defined.

Lemma append_without_key_column_witness :
  disk (world_with old_header_frame) = Some (Workbook old_header_frame)
  ∧ locked quiet_env (clock (world_with old_header_frame)) = false
  ∧ ("Company" ∉ columns old_header_frame)
  ∧ ∃ w' new,
      append_to_excel quiet_env acme (world_with old_header_frame)
        = (Ok true, w')
      ∧ disk w' = Some (Workbook new)
      ∧ "Company" ∈ columns new ∧ "Job Title" ∈ columns new
      ∧ length (rows new) = 2%nat.
Proof.
  assert ("Company" ∉ columns old_header_frame) as Hout.
  { eapply bool_decide_eq_false_1. vm_compute. reflexivity. }
  split; [reflexivity|]. split; [reflexivity|]. split; [exact Hout|].
  exact (append_without_key_column quiet_env acme (world_with old_header_frame)
           old_header_frame eq_refl eq_refl (or_introl Hout)).
Defined.

Lemma append_gives_up_on_held_file_witness :
  is_Some (disk acme_world)
  ∧ (∀ j, 0 ≤ j → 2 * j < 30 → locked held_env (clock acme_world + 2 * j) = true)
  ∧ ∃ w', append_to_excel held_env acme acme_world
            = (Raise (mkExn PermissionError cannot_write_msg), w')
          ∧ disk w' = disk acme_world ∧ clock w' = 30.
Proof.
  assert (is_Some (disk acme_world)) as Hsome by (by eexists).
  assert (∀ j, 0 ≤ j → 2 * j < 30 →
               locked held_env (clock acme_world + 2 * j) = true) as Hheld
    by (intros; reflexivity).
  split; [exact Hsome|]. split; [exact Hheld|].
  exact (append_gives_up_on_held_file held_env acme acme_world Hsome Hheld).
Defined.

Lemma append_gives_up_on_held_path_witness :
  disk fresh_world = None
  ∧ (∀ j, 0 ≤ j ≤ 10 → locked held_env (clock fresh_world + 2 * j) = true)
  ∧ ∃ w', append_to_excel held_env acme fresh_world
            = (Raise (mkExn PermissionError cannot_save_msg), w')
          ∧ disk w' = None ∧ clock w' = 20.
Proof.
  assert (∀ j, 0 ≤ j ≤ 10 →
               locked held_env (clock fresh_world + 2 * j) = true) as Hheld
    by (intros; reflexivity).
  split; [reflexivity|]. split; [exact Hheld|].
  exact (append_gives_up_on_held_path held_env acme fresh_world eq_refl Hheld).
Defined.

Lemma extract_leaves_store_witness :
  extract_job_info prose_env "https://acme.example/job" None acme_world
    = (Ok (JObject (fallback_record "2025-01-01")),
       snd (extract_job_info prose_env "https://acme.example/job" None
                             acme_world))
  ∧ disk (snd (extract_job_info prose_env "https://acme.example/job" None
                                acme_world)) = Some (Workbook acme_frame)
  ∧ clock (snd (extract_job_info prose_env "https://acme.example/job" None
                                 acme_world)) = 0.
Proof.
  assert (extract_job_info prose_env "https://acme.example/job" None acme_world
          = (Ok (JObject (fallback_record "2025-01-01")),
             snd (extract_job_info prose_env "https://acme.example/job" None
                                   acme_world))) as Hrun
    by (vm_compute; reflexivity).
  split; [exact Hrun|].
  destruct (extract_leaves_store prose_env _ _ _ _ _ Hrun) as (Hd & Hc & _).
  split; [exact Hd|exact Hc].
Defined.

Lemma process_fetch_failure_witness :
  http_get offline_env "https://acme.example/job"
    = Raise (mkExn RequestException "404 Client Error: Not Found")
  ∧ ∃ w',
      process_job_url offline_env "https://acme.example/job" None acme_world
        = (Ok {| p_success := false; p_job_info := None;
                 p_message := "Failed to process job URL";
                 p_error := Some "404 Client Error: Not Found" |}, w')
      ∧ disk w' = disk acme_world ∧ clock w' = clock acme_world.
Proof.
  split; [reflexivity|].
  exact (process_fetch_failure offline_env "https://acme.example/job" None
           acme_world _ eq_refl).
Defined.

Lemma process_non_object_answer_witness :
  http_get list_env "https://acme.example/job" = Ok "<html>job</html>"
  ∧ json_loads list_env (strip_fences "[]") = Decoded (JOther JList)
  ∧ ∃ w',
      process_job_url list_env "https://acme.example/job" None acme_world
        = (Ok {| p_success := false; p_job_info := None;
                 p_message := "Failed to process job URL";
                 p_error :=
                   Some "list indices must be integers or slices, not str" |},
           w')
      ∧ disk w' = disk acme_world ∧ clock w' = clock acme_world.
Proof.
  assert (json_loads list_env (strip_fences "[]") = Decoded (JOther JList))
    as Hjson by (vm_compute; reflexivity).
  split; [reflexivity|]. split; [exact Hjson|].
  exact (process_non_object_answer list_env "https://acme.example/job" None
           acme_world "<html>job</html>" "[]" JList eq_refl eq_refl Hjson).
Defined.

Lemma process_stores_given_url_witness :
  process_job_url quiet_env "https://acme.example/job" None fresh_world
    = (Ok {| p_success := true;
             p_job_info := Some (<["url" := PStr "https://acme.example/job"]> ∅);
             p_message := added_msg; p_error := None |},
       snd (process_job_url quiet_env "https://acme.example/job" None
                            fresh_world))
  ∧ ∃ df r,
      disk (snd (process_job_url quiet_env "https://acme.example/job" None
                                 fresh_world)) = Some (Workbook df)
      ∧ last (rows df) = Some r
      ∧ Frame.row_get (columns df) r "URL"
        = Some (CStr "https://acme.example/job").
Proof.
  assert (process_job_url quiet_env "https://acme.example/job" None fresh_world
          = (Ok {| p_success := true;
                   p_job_info :=
                     Some (<["url" := PStr "https://acme.example/job"]> ∅);
                   p_message := added_msg; p_error := None |},
             snd (process_job_url quiet_env "https://acme.example/job" None
                                  fresh_world))) as Hrun
    by (vm_compute; reflexivity).
  split; [exact Hrun|].
  destruct (process_stores_given_url quiet_env _ _ _ _ _ Hrun eq_refl)
    as (job & df & r & _ & _ & Hd & Hlast & Hget).
  exists df, r. auto.
Defined.

Lemma second_fallback_reported_duplicate_witness :
  let first :=
    process_job_url prose_env "https://acme.example/job" None fresh_world in
  infer prose_env "Could not extract" = CStr "Could not extract"
  ∧ (∃ res, fst first = Ok res ∧ p_success res = true)
  ∧ locked prose_env (clock (snd first)) = false
  ∧ ∃ w2,
      process_job_url prose_env "https://globex.example/job" None (snd first)
        = (Ok {| p_success := false;
                 p_job_info :=
                   Some (<["url" := PStr "https://globex.example/job"]>
                           (fallback_record "2025-01-01"));
                 p_message := "URL already exists in spreadsheet";
                 p_error := None |}, w2)
      ∧ disk w2 = disk (snd first).
Proof.
  intros first.
  set (res := {| p_success := true;
                 p_job_info :=
                   Some (<["url" := PStr "https://acme.example/job"]>
                           (fallback_record "2025-01-01"));
                 p_message := added_msg; p_error := None |}).
  assert (infer prose_env "Could not extract" = CStr "Could not extract")
    as Hinf by (vm_compute; reflexivity).
  assert (extract_job_info prose_env "https://acme.example/job" None fresh_world
          = (Ok (JObject (fallback_record "2025-01-01")),
             snd (extract_job_info prose_env "https://acme.example/job" None
                                   fresh_world))) as He1
    by (vm_compute; reflexivity).
  assert (first = (Ok res, snd first)) as Hp1 by (vm_compute; reflexivity).
  assert (extract_job_info prose_env "https://globex.example/job" None
                           (snd first)
          = (Ok (JObject (fallback_record "2025-01-01")),
             snd (extract_job_info prose_env "https://globex.example/job" None
                                   (snd first)))) as He2
    by (vm_compute; reflexivity).
  split; [exact Hinf|]. split; [exists res; by rewrite Hp1|].
  split; [reflexivity|].
  exact (second_fallback_reported_duplicate prose_env _ _ _ _ _ _ _ _ _ _ _
           Hinf He1 Hp1 eq_refl He2 eq_refl).
Defined.

Lemma row_edit_gives_up_on_held_file_witness :
  (∀ j, 0 ≤ j < 15 → locked held_env (clock acme_world + 2 * j) = true)
  ∧ ∃ w1 w2,
      update_row_status held_env 1 "Interviewed" acme_world
        = (Ok {| success := false;
                 message :=
                   "Excel file is locked. Please close it and try again." |},
           w1)
      ∧ delete_row held_env 1 acme_world
        = (Ok {| success := false;
                 message :=
                   "Excel file is locked. Please close it and try again." |},
           w2)
      ∧ disk w1 = disk acme_world ∧ disk w2 = disk acme_world
      ∧ clock w1 = 30 ∧ clock w2 = 30.
Proof.
  assert (∀ j, 0 ≤ j < 15 →
               locked held_env (clock acme_world + 2 * j) = true) as Hheld
    by (intros; reflexivity).
  split; [exact Hheld|].
  exact (row_edit_gives_up_on_held_file held_env 1 "Interviewed" acme_world
           Hheld).
Defined.

Lemma row_edit_on_absent_file_witness :
  disk fresh_world = None
  ∧ locked quiet_env (clock fresh_world) = false
  ∧ ∃ w1 w2,
      update_row_status quiet_env 1 "Interviewed" fresh_world
        = (Ok {| success := false;
                 message := "No data found in Excel file." |}, w1)
      ∧ delete_row quiet_env 1 fresh_world
        = (Ok {| success := false;
                 message := "No data found in Excel file." |}, w2)
      ∧ disk w1 = Some (Garbage "") ∧ disk w2 = Some (Garbage "").
Proof.
  split; [reflexivity|]. split; [reflexivity|].
  exact (row_edit_on_absent_file quiet_env 1 "Interviewed" fresh_world
           eq_refl eq_refl).
Defined.

Lemma update_then_reload_witness :
  disk acme_world = Some (Workbook acme_frame)
  ∧ locked quiet_env (clock acme_world) = false
  ∧ 1 ≤ 1 ≤ Frame.len acme_frame
  ∧ Frame.get_loc "Status" (loaded_frame quiet_env acme_frame) = Some O
  ∧ cell_at (loaded_frame quiet_env acme_frame) (Z.to_nat (1 - 1)) 0
    = Some (CStr "Applied")
  ∧ setitem_error quiet_env
      (Frame.column 0 (loaded_frame quiet_env acme_frame)) "Interviewed" = None
  ∧ ∃ r w1 df w2,
      update_row_status quiet_env 1 "Interviewed" acme_world = (Ok r, w1)
      ∧ success r = true
      ∧ load_or_create_excel quiet_env w1 = (Ok df, w2)
      ∧ cell_at df 0 0 = Some (CStr "Interviewed")
      ∧ cell_at df 0 1 = Some (CStr "Acme").
Proof.
  assert (1 ≤ 1 ≤ Frame.len acme_frame) as Hn by (vm_compute; split; discriminate).
  assert (Frame.get_loc "Status" (loaded_frame quiet_env acme_frame) = Some O)
    as Hj by (vm_compute; reflexivity).
  assert (cell_at (loaded_frame quiet_env acme_frame) (Z.to_nat (1 - 1)) 0
          = Some (CStr "Applied")) as Hc by (vm_compute; reflexivity).
  assert (setitem_error quiet_env
            (Frame.column 0 (loaded_frame quiet_env acme_frame)) "Interviewed"
          = None) as Hset by (vm_compute; reflexivity).
  split; [reflexivity|]. split; [reflexivity|]. split; [exact Hn|].
  split; [exact Hj|]. split; [exact Hc|]. split; [exact Hset|].
  pose proof (update_then_reload quiet_env acme_world acme_frame 1
                "Interviewed" O (CStr "Applied") eq_refl eq_refl Hn Hj Hc)
    as Hrun.
  rewrite Hset in Hrun.
  destruct Hrun as (r & w1 & df & w2 & Hrun & Hok & Hload & Hcell & Hrest).
  exists r, w1, df, w2. split; [exact Hrun|]. split; [exact Hok|].
  split; [exact Hload|]. split; [exact Hcell|].
  rewrite (Hrest O 1%nat) by (right; discriminate). vm_compute. reflexivity.
Defined.

Lemma delete_undoes_append_witness :
  (∀ c, c ∈ Frame.canonical_columns →
        c ∈ columns (frame_of quiet_env (disk fresh_world)))
  ∧ append_to_excel quiet_env acme fresh_world
    = (Ok true, snd (append_to_excel quiet_env acme fresh_world))
  ∧ locked quiet_env
      (clock (snd (append_to_excel quiet_env acme fresh_world))) = false
  ∧ ∃ r w2,
      delete_row quiet_env 1 (snd (append_to_excel quiet_env acme fresh_world))
        = (Ok r, w2)
      ∧ success r = true
      ∧ disk w2 = Some (Workbook Frame.new_frame).
Proof.
  assert (∀ c, c ∈ Frame.canonical_columns →
               c ∈ columns (frame_of quiet_env (disk fresh_world))) as Hall
    by (intros c Hc; exact Hc).
  assert (append_to_excel quiet_env acme fresh_world
          = (Ok true, snd (append_to_excel quiet_env acme fresh_world)))
    as Hrun by (vm_compute; reflexivity).
  split; [exact Hall|]. split; [exact Hrun|]. split; [reflexivity|].
  exact (delete_undoes_append quiet_env acme fresh_world _ Hall Hrun eq_refl).
Defined.

Lemma fix_url_column_nan_returns_witness :
  disk (world_with blank_url_frame) = Some (Workbook blank_url_frame)
  ∧ locked quiet_env (clock (world_with blank_url_frame)) = false
  ∧ Frame.get_loc "URL" blank_url_frame = Some 6%nat
  ∧ infer quiet_env "" = CNaN
  ∧ ∃ final w',
      fix_url_column quiet_env (world_with blank_url_frame)
        = (Ok (Some final), w')
      ∧ cell_at final 0 6 = Some CNaN.
Proof.
  assert (Frame.get_loc "URL" blank_url_frame = Some 6%nat) as Hj
    by (vm_compute; reflexivity).
  assert (infer quiet_env "" = CNaN) as Hinf by (vm_compute; reflexivity).
  split; [reflexivity|]. split; [reflexivity|]. split; [exact Hj|].
  split; [exact Hinf|].
  destruct (fix_url_column_nan_returns quiet_env (world_with blank_url_frame)
              blank_url_frame 6 eq_refl eq_refl Hj Hinf)
    as (final & w' & Hrun & _ & Hnan).
  exists final, w'. split; [exact Hrun|].
  apply (Hnan O CNaN); vm_compute; reflexivity.
Defined.

Lemma duplicate_suppressed_witness :
  dict_get acme "company_name" (PStr "") = PStr "Acme"
  ∧ dict_get acme "position_title" (PStr "") = PStr "Engineer"
  ∧ infer quiet_env "Acme" = CStr "Acme"
  ∧ infer quiet_env "Engineer" = CStr "Engineer"
  ∧ append_to_excel quiet_env acme fresh_world
    = (Ok true, snd (append_to_excel quiet_env acme fresh_world))
  ∧ ∃ w3,
      append_to_excel quiet_env acme
                      (snd (append_to_excel quiet_env acme fresh_world))
        = (Ok false, w3)
      ∧ disk w3 = disk (snd (append_to_excel quiet_env acme fresh_world)).
Proof.
  assert (dict_get acme "company_name" (PStr "") = PStr "Acme") as Hc
    by (vm_compute; reflexivity).
  assert (dict_get acme "position_title" (PStr "") = PStr "Engineer") as Ht
    by (vm_compute; reflexivity).
  assert (infer quiet_env "Acme" = CStr "Acme") as Hic
    by (vm_compute; reflexivity).
  assert (infer quiet_env "Engineer" = CStr "Engineer") as Hit
    by (vm_compute; reflexivity).
  assert (append_to_excel quiet_env acme fresh_world
          = (Ok true, snd (append_to_excel quiet_env acme fresh_world)))
    as Hrun by (vm_compute; reflexivity).
  split; [exact Hc|]. split; [exact Ht|]. split; [exact Hic|].
  split; [exact Hit|]. split; [exact Hrun|].
  destruct (duplicate_suppressed quiet_env acme acme fresh_world _ _
              "Acme" "Engineer" Hc Hc Ht Ht Hic Hit Hrun eq_refl)
    as (r & w3 & Hrun2 & Hd & [->|[_ Hheld]]).
  - exists w3. split; [exact Hrun2|exact Hd].
  - discriminate Hheld.
Defined.

Lemma round_trip_text_witness :
  append_to_excel quiet_env acme fresh_world
    = (Ok true, snd (append_to_excel quiet_env acme fresh_world))
  ∧ locked quiet_env
      (clock (snd (append_to_excel quiet_env acme fresh_world))) = false
  ∧ ∃ df w3 r,
      load_or_create_excel quiet_env
        (snd (append_to_excel quiet_env acme fresh_world)) = (Ok df, w3)
      ∧ last (rows df) = Some r
      ∧ Frame.row_get (columns df) r "Company" = Some (CStr "Acme")
      ∧ Frame.row_get (columns df) r "URL"
        = Some (CStr "https://acme.example/job").
Proof.
  assert (append_to_excel quiet_env acme fresh_world
          = (Ok true, snd (append_to_excel quiet_env acme fresh_world)))
    as Hrun by (vm_compute; reflexivity).
  split; [exact Hrun|]. split; [reflexivity|].
  destruct (round_trip_text quiet_env acme fresh_world _ _ Hrun eq_refl eq_refl)
    as (df & w3 & r & t & Hload & Hlast & _ & Hget).
  exists df, w3, r. split; [exact Hload|]. split; [exact Hlast|]. split.
  - apply (Hget "Company" "company_name" "" "Acme");
      [repeat constructor|vm_compute; reflexivity|vm_compute; reflexivity].
  - apply (Hget "URL" "url" "" "https://acme.example/job");
      [repeat constructor|vm_compute; reflexivity|vm_compute; reflexivity].
Defined.
